(** * GCE resource metrics: a shallow embedding and its properties

    The repository holds three variants of one small program that lists the
    resources of a GCE project, counts them (per network, per status, or in
    total) and publishes the counts as gauges:

    - [Prom]   : the gcloud/Prometheus variant (pull-style sink),
    - [Gce]    : monitoring/gce/resource_metrics.go (push-style sink, doubles),
    - [Custom] : the variant built on the [CustomGaugeMetric] interface
                 (push-style sink, int64).

    External collaborators (the inventory API, the JSON decoder, the
    monitoring API, the clock, the order in which Go ranges over a map) are
    the fields of an environment record; everything the program does to the
    outside is recorded, in order, in a trace of events. *)

From stdpp Require Import gmap strings list fin_maps.
From Stdlib Require Import ZArith Lia.

Local Open Scope Z_scope.

(* ===================================================================== *)
(** ** Go scalars                                                         *)
(* ===================================================================== *)

(** Go's [int] and [int64] on the 64-bit targets of this tool: two's
    complement, arithmetic wraps silently. *)
Definition minInt : Z := - 2 ^ 63.
Definition maxInt : Z := 2 ^ 63 - 1.
Definition wrap64 (z : Z) : Z := (z + 2 ^ 63) `mod` 2 ^ 64 - 2 ^ 63.

(** [int64(c)] of an [int] is the identity on these targets. *)
Definition int64_of_int (c : Z) : Z := c.

(** [float64(c)]: the double nearest to the integer [c] (ties to even).
    Every double of magnitude at least 2^53 is an integer, so the value of
    the conversion is again an integer and is represented as one. *)
Definition float64_of_int (c : Z) : Z :=
  let a := Z.abs c in
  let e := Z.log2 a - 52 in
  if e <=? 0 then c
  else
    let q := a / 2 ^ e in
    let r := a `mod` 2 ^ e in
    let half := 2 ^ (e - 1) in
    let q' := if r <? half then q
              else if half <? r then q + 1
              else if Z.even q then q else q + 1 in
    Z.sgn c * (q' * 2 ^ e).

(** A Go [error] value; [None] is [nil]. *)
Definition error : Type := string.

(** [len(s)] of a slice, as an [int]. *)
Definition len {A} (s : list A) : Z := Z.of_nat (length s).

(* ===================================================================== *)
(** ** Resources of the compute API (the fields the program reads)        *)
(* ===================================================================== *)

Record Firewall := { fw_Name : string; fw_Network : string }.
Record Address := { addr_Name : string; addr_Status : string }.
Record TargetPool := { tp_Name : string }.
Record ForwardingRule := { fr_Name : string }.
Record Network := { net_Name : string }.
Record Route := { rt_Name : string; rt_Network : string }.

(* ===================================================================== *)
(** ** Aggregation: [metrics := make(map[string]int)] and [metrics[k]++]  *)
(* ===================================================================== *)

Module Aggregate.

(** [metrics[k]++]: a key that is absent reads as the zero value. *)
Definition incr (k : string) (metrics : gmap string Z) : gmap string Z :=
  <[k := wrap64 (default 0 (metrics !! k) + 1)]> metrics.

(** [for _, a := range items { metrics[sel(a)]++ }] *)
Definition countInto {A} (sel : A → string) (metrics : gmap string Z)
    (items : list A) : gmap string Z :=
  foldl (λ m a, incr (sel a) m) metrics items.

(** [metrics := make(map[string]int)] followed by the loop. *)
Definition countBy {A} (sel : A → string) (items : list A) : gmap string Z :=
  countInto sel ∅ items.

(** The records of a list that fall in bucket [k]. *)
Definition bucket {A} (sel : A → string) (k : string) (items : list A) : list A :=
  filter (λ a, sel a = k) items.

(** The sum of all bucket counts of a mapping. *)
Definition total (metrics : gmap string Z) : Z :=
  map_fold (λ _ c acc, c + acc) 0 metrics.

(** Every count of a mapping is non-negative. *)
Definition counts_nonneg (metrics : gmap string Z) : Prop :=
  ∀ k v, metrics !! k = Some v → 0 ≤ v.

End Aggregate.

(* ===================================================================== *)
(** ** The monitoring API (cloudmonitoring/v2beta2), as far as it is used  *)
(* ===================================================================== *)

(** A Go [map[string]string]; [None] is the nil map. *)
Abbreviation gomap := (option (gmap string string)).

Record MetricDescriptorLabelDescriptor :=
  { ld_Key : string; ld_Description : string }.

Record MetricDescriptorTypeDescriptor :=
  { td_MetricType : string; td_ValueType : string }.

Record MetricDescriptor := {
  mdr_Project : string;
  mdr_Name : string;
  mdr_Description : string;
  mdr_TypeDescriptor : MetricDescriptorTypeDescriptor;
  mdr_Labels : list MetricDescriptorLabelDescriptor
}.

Record TimeseriesDescriptor := {
  tsd_Metric : string;
  tsd_Project : string;
  tsd_Labels : gomap
}.

(** A point carries either an [Int64Value] or a [DoubleValue]. *)
Inductive PointValue :=
| Int64Value (v : Z)
| DoubleValue (v : Z).

Record Point := { pt_Value : PointValue; pt_Start : string; pt_End : string }.

Record TimeseriesPoint :=
  { tp_Point : Point; tp_TimeseriesDesc : TimeseriesDescriptor }.

Record WriteTimeseriesRequest := { Timeseries : list TimeseriesPoint }.

(** The answer of a call that returns [(value, error)]. *)
Inductive Res (A : Type) :=
| Ok (a : A)
| Err (e : error).
Arguments Ok {A} a.
Arguments Err {A} e.

(** The compute client. Plain list calls return a slice of items; the
    aggregated list calls return a map from scope to the items of the
    scope. *)
Record ComputeService := {
  Firewalls_List : string → Res (list Firewall);
  TargetPools_AggregatedList : string → Res (gmap string (list TargetPool));
  ForwardingRules_AggregatedList : string → Res (gmap string (list ForwardingRule));
  GlobalForwardingRules_List : string → Res (list ForwardingRule);
  Addresses_AggregatedList : string → Res (gmap string (list Address));
  GlobalAddresses_List : string → Res (list Address);
  Networks_List : string → Res (list Network);
  Routes_List : string → Res (list Route)
}.

(** The monitoring client: the error each call answers with. *)
Record MonitoringService := {
  MetricDescriptors_Create : string → MetricDescriptor → option error;
  Timeseries_Write : string → WriteTimeseriesRequest → option error
}.

(** What the Go runtime decides: the clock ([time.Now] formatted as
    RFC 3339) and the order in which [range] visits the entries of a map.
    The order is unspecified, but every entry is visited exactly once. *)
Record Runtime := {
  now : string;
  rangeOrder : ∀ V : Type, gmap string V → list (string * V);
  range_visits_all :
    ∀ (V : Type) (m : gmap string V), rangeOrder V m ≡ₚ map_to_list m
}.
Arguments rangeOrder _ {V} _.
Arguments range_visits_all _ {V} _.

(** The runtime that ranges in the order of [map_to_list]. *)
Definition listOrderRuntime (t : string) : Runtime :=
  {| now := t;
     rangeOrder := λ V m, map_to_list m;
     range_visits_all := λ V m, Permutation_refl (map_to_list m) |}.

(** The runtime that ranges in the opposite order. *)
Definition reverseOrderRuntime (t : string) : Runtime :=
  {| now := t;
     rangeOrder := λ V m, reverse (map_to_list m);
     range_visits_all := λ V m, reverse_Permutation (map_to_list m) |}.

(* ===================================================================== *)
(** ** Effects: a trace of events, and exit                                *)
(* ===================================================================== *)

Inductive LogArg :=
| AStr (s : string)
| AInt (n : Z)
| AErr (e : option error)
| AArgs (l : list string)
| AResp.

Inductive Event :=
| Log (format : string) (args : list LogArg)
| ListCall (api : string) (project : string)
| Exec (cmd : string) (args : list string)
| CreateDescriptor (project : string) (md : MetricDescriptor)
| WriteTimeseries (project : string) (req : WriteTimeseriesRequest)
| Register (metric : string)
| GoServe (port : Z)
| GaugeSet (metric : string) (labelValues : list string) (v : Z)
| Sleep (d : Z)
| Exit (code : Z).

(** A run of a piece of the program: the events it caused, in order, and
    its result; no result means the process exited ([log.Fatalf]). *)
Record Run (A : Type) := MkRun { trace : list Event; result : option A }.
Arguments MkRun {A} trace result.
Arguments trace {A} r.
Arguments result {A} r.

Global Instance run_ret : MRet Run := λ A a, MkRun [] (Some a).

Global Instance run_bind : MBind Run := λ A B k p,
  match result p with
  | None => MkRun (trace p) None
  | Some a => MkRun (trace p ++ trace (k a)) (result (k a))
  end.

Definition emit (e : Event) : Run unit := MkRun [e] (Some tt).

(** [log.Printf] and [log.Println]. *)
Definition logPrintf (format : string) (args : list LogArg) : Run unit :=
  emit (Log format args).

(** [log.Fatalf]: print, then [os.Exit(1)]. *)
Definition logFatalf {A} (format : string) (args : list LogArg) : Run A :=
  MkRun [Log format args; Exit 1] None.

(** [for _, x := range xs { body(x) }] for a body without a result. *)
Fixpoint forEach {A} (body : A → Run unit) (xs : list A) : Run unit :=
  match xs with
  | [] => mret tt
  | x :: xs' => body x ;; forEach body xs'
  end.

(** The observations a trace delivers to the sink: the points of its write
    calls (push) and its gauge updates (pull). *)
Definition writes (tr : list Event) : list WriteTimeseriesRequest :=
  omap (λ e, match e with WriteTimeseries _ req => Some req | _ => None end) tr.

Definition observations (tr : list Event) : list TimeseriesPoint :=
  writes tr ≫= Timeseries.

Definition gaugeSets (tr : list Event) : list (string * list string * Z) :=
  omap (λ e, match e with GaugeSet n ls v => Some (n, ls, v) | _ => None end) tr.

Definition listCalls (tr : list Event) : list string :=
  omap (λ e, match e with
             | ListCall api _ => Some api
             | Exec _ args => args !! 2%nat
             | _ => None
             end) tr.

Definition exits (tr : list Event) : list Z :=
  omap (λ e, match e with Exit c => Some c | _ => None end) tr.

(** The gauge store of the Prometheus registry after a trace. *)
Definition gaugeStore (tr : list Event) : gmap (string * list string) Z :=
  foldl (λ st '(n, ls, v), <[(n, ls) := v]> st) ∅ (gaugeSets tr).

(* ===================================================================== *)
(** ** Namespacing under the custom-metric prefix                          *)
(* ===================================================================== *)

Definition customPrefix : string := "custom.cloudmonitoring.googleapis.com/".

(** [fmt.Sprintf("custom.cloudmonitoring.googleapis.com/%s", s)] *)
Definition customName (s : string) : string := customPrefix +:+ s.

(** [if *project == "" { log.Fatalf(...) }], the statement that opens [main]
    in both push-style variants. *)
Definition requireProject (project : string) : Run unit :=
  if decide (project = "")
  then logFatalf "Error: Empty project. A project name must be specified." []
  else mret tt.

(** The source's own description of a metric (the same struct in both
    push-style variants). *)
Record MetricDescription := {
  Name : string;
  Description : string;
  Labels : list string
}.

(** [labels = append(labels, &LabelDescriptor{Key: prefix+l, Description: l})]
    for each declared label, as both push-style variants build them. *)
Definition labelDescriptors (ls : list string) : list MetricDescriptorLabelDescriptor :=
  foldl (λ labels l, labels ++ [{| ld_Key := customName l; ld_Description := l |}])
        [] ls.

(** The descriptor both push-style variants send at registration; they
    differ in the value type only. *)
Definition buildDescriptor (project valueType : string) (metric : MetricDescription)
    : MetricDescriptor :=
  {| mdr_Project := project;
     mdr_Name := customName (Name metric);
     mdr_Description := Description metric;
     mdr_TypeDescriptor := {| td_MetricType := "gauge"; td_ValueType := valueType |};
     mdr_Labels := if decide (len (Labels metric) ≠ 0)
                   then labelDescriptors (Labels metric) else [] |}.

(** [fixLabels], identical in both push-style variants. *)
Definition fixLabels (rt : Runtime) (labels : gomap) : gomap :=
  match labels with
  | None => None
  | Some ls =>
      Some (foldl (λ munged '(l, v), <[customName l := v]> munged) ∅
                  (rangeOrder rt ls))
  end.

(** The two slices a labeled metric builds from its count map:
    [values = append(values, conv(c))] and
    [labels = append(labels, map[string]string{key: s})]. *)
Definition valuesAndLabels (rt : Runtime) (conv : Z → Z) (key : string)
    (metrics : gmap string Z) : list Z * list gomap :=
  foldl (λ '(values, labels) '(s, c),
           (values ++ [conv c], labels ++ [Some {[ key := s ]}]))
        ([], []) (rangeOrder rt metrics).

(** The points of a write request: one per value, labeled when a label map
    exists at the same index. *)
Definition buildPoints (rt : Runtime) (project name : string)
    (mkValue : Z → PointValue) (values : list Z) (labels : list gomap)
    : list TimeseriesPoint :=
  imap (λ i val,
          {| tp_Point := {| pt_Value := mkValue val;
                            pt_Start := now rt; pt_End := now rt |};
             tp_TimeseriesDesc :=
               {| tsd_Metric := customName name;
                  tsd_Project := project;
                  tsd_Labels := if decide (i < length labels)%nat
                                then fixLabels rt (default None (labels !! i))
                                else None |} |})
       values.

(** The observation a push-style variant is expected to send for the bucket
    [s] of a metric labeled by [key], and the one for an unlabeled metric. *)
Definition labeledPoint (rt : Runtime) (project name key : string)
    (value : PointValue) (s : string) : TimeseriesPoint :=
  {| tp_Point := {| pt_Value := value; pt_Start := now rt; pt_End := now rt |};
     tp_TimeseriesDesc :=
       {| tsd_Metric := customName name;
          tsd_Project := project;
          tsd_Labels := Some {[ customName key := s ]} |} |}.

Definition unlabeledPoint (rt : Runtime) (project name : string)
    (value : PointValue) : TimeseriesPoint :=
  {| tp_Point := {| pt_Value := value; pt_Start := now rt; pt_End := now rt |};
     tp_TimeseriesDesc :=
       {| tsd_Metric := customName name;
          tsd_Project := project;
          tsd_Labels := None |} |}.

(** The observations expected for a count map: one per bucket, in the
    order of the iteration. *)
Definition bucketPoints (rt : Runtime) (project name key : string)
    (mkValue : Z → PointValue) (metrics : gmap string Z) : list TimeseriesPoint :=
  (λ sc, labeledPoint rt project name key (mkValue sc.2) sc.1)
    <$> rangeOrder rt metrics.

(** The log line both reporters print after a write. *)
Definition respLog (err : option error) : Event :=
  Log "Resp: %v\nErr: %v\n" [AResp; AErr err].

(** The label keys an observation carries. *)
Definition labelKeys (p : TimeseriesPoint) : list string :=
  match tsd_Labels (tp_TimeseriesDesc p) with
  | None => []
  | Some ls => (map_to_list ls).*1
  end.

(* ===================================================================== *)
(** ** Variant [Custom]: metrics behind the [CustomGaugeMetric] interface  *)
(* ===================================================================== *)

Module Custom.

Record Monitor := {
  Project : string;
  Compute : ComputeService;
  Monitoring : MonitoringService
}.

(** An interface value: the two methods of its dynamic type. *)
Record CustomGaugeMetric := {
  MetricDescription' : MetricDescription;
  ProcessMetric : Runtime → Monitor → Run (option error)
}.

Definition createMetricDescriptor (m : Monitor) (metric : MetricDescription)
    : Run unit :=
  let md := buildDescriptor (Project m) "int64" metric in
  emit (CreateDescriptor (Project m) md) ;;
  match MetricDescriptors_Create (Monitoring m) (Project m) md with
  | Some err => logFatalf "Error creating firewall metric: %v" [AErr (Some err)]
  | None => logPrintf "Created metric: %s\n" [AResp]
  end.

Definition ReportLabeledTimeseries (rt : Runtime) (m : Monitor) (name : string)
    (values : list Z) (labels : list gomap) : Run (option error) :=
  if decide (len values = 0) then mret None
  else
    let points := buildPoints rt (Project m) name Int64Value values labels in
    let req := {| Timeseries := points |} in
    emit (WriteTimeseries (Project m) req) ;;
    let err := Timeseries_Write (Monitoring m) (Project m) req in
    logPrintf "Resp: %v\nErr: %v\n" [AResp; AErr err] ;;
    mret err.

Definition ReportTimeseries (rt : Runtime) (m : Monitor) (name : string)
    (value : Z) : Run (option error) :=
  ReportLabeledTimeseries rt m name [value] [].

(** The tail shared by every [ProcessMetric]:
    [if err := report(...); err != nil { return err }; return nil]. *)
Definition returning (report : Run (option error)) : Run (option error) :=
  err ← report;
  match err with
  | Some e => mret (Some e)
  | None => mret None
  end.

(** A labeled metric: count by a field, then report one value per bucket. *)
Definition reportCounts (rt : Runtime) (m : Monitor) (name key : string)
    (metrics : gmap string Z) : Run (option error) :=
  let '(values, labels) := valuesAndLabels rt int64_of_int key metrics in
  returning (ReportLabeledTimeseries rt m name values labels).

Definition FirewallRules : CustomGaugeMetric := {|
  MetricDescription' :=
    {| Name := "gce_firewall_rules";
       Description := "Count of firewall rules in the project, labeled by network";
       Labels := ["network"] |};
  ProcessMetric rt m :=
    emit (ListCall "Firewalls.List" (Project m)) ;;
    match Firewalls_List (Compute m) (Project m) with
    | Err err => mret (Some err)
    | Ok items =>
        logPrintf "Num firewalls: %d" [AInt (len items)] ;;
        let metrics := Aggregate.countBy fw_Network items in
        reportCounts rt m "gce_firewall_rules" "network" metrics
    end
|}.

Definition TargetPools : CustomGaugeMetric := {|
  MetricDescription' :=
    {| Name := "gce_target_pools";
       Description := "Count of target pools in the project";
       Labels := [] |};
  ProcessMetric rt m :=
    emit (ListCall "TargetPools.AggregatedList" (Project m)) ;;
    match TargetPools_AggregatedList (Compute m) (Project m) with
    | Err err => mret (Some err)
    | Ok items =>
        logPrintf "Num target pools: %d" [AInt (Z.of_nat (size items))] ;;
        returning (ReportTimeseries rt m "gce_target_pools"
                     (int64_of_int (Z.of_nat (size items))))
    end
|}.

Definition ForwardingRules : CustomGaugeMetric := {|
  MetricDescription' :=
    {| Name := "gce_forwarding_rules";
       Description := "Count of forwarding rules in the project";
       Labels := [] |};
  ProcessMetric rt m :=
    emit (ListCall "ForwardingRules.AggregatedList" (Project m)) ;;
    match ForwardingRules_AggregatedList (Compute m) (Project m) with
    | Err err => mret (Some err)
    | Ok items =>
        logPrintf "Num forwarding rules: %d" [AInt (Z.of_nat (size items))] ;;
        returning (ReportTimeseries rt m "gce_forwarding_rules"
                     (int64_of_int (Z.of_nat (size items))))
    end
|}.

Definition GlobalForwardingRules : CustomGaugeMetric := {|
  MetricDescription' :=
    {| Name := "gce_global_forwarding_rules";
       Description := "Count of global forwarding rules in the project";
       Labels := [] |};
  ProcessMetric rt m :=
    emit (ListCall "GlobalForwardingRules.List" (Project m)) ;;
    match GlobalForwardingRules_List (Compute m) (Project m) with
    | Err err => mret (Some err)
    | Ok items =>
        logPrintf "Num global forwarding rules: %d" [AInt (len items)] ;;
        returning (ReportTimeseries rt m "gce_global_forwarding_rules"
                     (int64_of_int (len items)))
    end
|}.

Definition Networks : CustomGaugeMetric := {|
  MetricDescription' :=
    {| Name := "gce_networks";
       Description := "Count of networks in the project";
       Labels := ["network"] |};
  ProcessMetric rt m :=
    emit (ListCall "Networks.List" (Project m)) ;;
    match Networks_List (Compute m) (Project m) with
    | Err err => mret (Some err)
    | Ok items =>
        logPrintf "Num networks: %d" [AInt (len items)] ;;
        returning (ReportTimeseries rt m "gce_networks" (int64_of_int (len items)))
    end
|}.

Definition Routes : CustomGaugeMetric := {|
  MetricDescription' :=
    {| Name := "gce_routes";
       Description := "Count of routes in the project";
       Labels := ["network"] |};
  ProcessMetric rt m :=
    emit (ListCall "Routes.List" (Project m)) ;;
    match Routes_List (Compute m) (Project m) with
    | Err err => mret (Some err)
    | Ok items =>
        logPrintf "Num routes: %d" [AInt (len items)] ;;
        returning (ReportTimeseries rt m "gce_routes" (int64_of_int (len items)))
    end
|}.

Definition Addresses : CustomGaugeMetric := {|
  MetricDescription' :=
    {| Name := "gce_addresses";
       Description := "Count of external IP addresses in the project, labeled by status";
       Labels := ["status"] |};
  ProcessMetric rt m :=
    emit (ListCall "Addresses.AggregatedList" (Project m)) ;;
    match Addresses_AggregatedList (Compute m) (Project m) with
    | Err err => mret (Some err)
    | Ok items =>
        logPrintf "Num addresses: %d" [AInt (Z.of_nat (size items))] ;;
        let metrics :=
          foldl (λ metrics '(_, scopedList),
                   Aggregate.countInto addr_Status metrics scopedList)
                ∅ (rangeOrder rt items) in
        reportCounts rt m "gce_addresses" "status" metrics
    end
|}.

Definition GlobalAddresses : CustomGaugeMetric := {|
  MetricDescription' :=
    {| Name := "gce_global_addresses";
       Description := "Count of global external IP addresses in the project, labeled by status";
       Labels := ["status"] |};
  ProcessMetric rt m :=
    emit (ListCall "GlobalAddresses.List" (Project m)) ;;
    match GlobalAddresses_List (Compute m) (Project m) with
    | Err err => mret (Some err)
    | Ok items =>
        logPrintf "Num global addresses: %d" [AInt (len items)] ;;
        let metrics := Aggregate.countBy addr_Status items in
        reportCounts rt m "gce_global_addresses" "status" metrics
    end
|}.

Definition customMetrics : list CustomGaugeMetric :=
  [ FirewallRules; TargetPools; ForwardingRules; GlobalForwardingRules;
    Addresses; GlobalAddresses; Networks; Routes ].

(** The process and its surroundings: the flags, the answers of the client
    constructors, and the remote services and the runtime as they behave at
    registration (index 0) and during the i-th scrape cycle (index i+1). *)
Record World := {
  flag_project : string;
  flag_scrape_period : Z;
  google_DefaultClient : option error;
  compute_New : option error;
  cloudmonitoring_New : option error;
  computeAt : nat → ComputeService;
  monitoringAt : nat → MonitoringService;
  runtimeAt : nat → Runtime
}.

Definition monitorAt (w : World) (i : nat) : Monitor :=
  {| Project := flag_project w;
     Compute := computeAt w i;
     Monitoring := monitoringAt w i |}.

(** One pass of the inner loop of [main] over [customMetrics]. *)
Definition scrapeOne (rt : Runtime) (monitor : Monitor) (m : CustomGaugeMetric)
    : Run unit :=
  err ← ProcessMetric m rt monitor;
  match err with
  | Some e =>
      logPrintf "ERROR: Error processing metric %s. Err: %v"
                [AStr (Name (MetricDescription' m)); AErr (Some e)]
  | None => mret tt
  end.

Definition scrapeCycle (w : World) (i : nat) : Run unit :=
  logPrintf "INFO: Starting scrape loop." [] ;;
  forEach (scrapeOne (runtimeAt w (S i)) (monitorAt w (S i))) customMetrics ;;
  emit (Sleep (flag_scrape_period w)).

(** The first [n] iterations of the endless [for] of [main], from cycle [i]. *)
Fixpoint scrapeLoop (w : World) (i n : nat) : Run unit :=
  match n with
  | O => mret tt
  | S n' => scrapeCycle w i ;; scrapeLoop w (S i) n'
  end.

(** The checks and constructors of [main] before registration. *)
Definition startup (w : World) : Run unit :=
  requireProject (flag_project w) ;;
  match google_DefaultClient w with
  | Some err => logFatalf "Error creating client: $v" [AErr (Some err)]
  | None =>
      match compute_New w with
      | Some err => logFatalf "Error creating compute service: %v" [AErr (Some err)]
      | None =>
          match cloudmonitoring_New w with
          | Some err =>
              logFatalf "Error creating monitoring service: %v" [AErr (Some err)]
          | None => mret tt
          end
      end
  end.

Definition registerAll (w : World) : Run unit :=
  forEach (λ m, createMetricDescriptor (monitorAt w 0) (MetricDescription' m))
          customMetrics.

(** [main], observed for its first [n] scrape cycles. *)
Definition main (w : World) (n : nat) : Run unit :=
  startup w ;; registerAll w ;; scrapeLoop w 0 n.

End Custom.

(* ===================================================================== *)
(** ** Variant [Gce]: monitoring/gce/resource_metrics.go                   *)
(* ===================================================================== *)

Module Gce.

Record Monitor := {
  Project : string;
  Compute : ComputeService;
  Monitoring : MonitoringService
}.

Definition metricDescriptions : list MetricDescription :=
  [ {| Name := "gce_firewall_rules";
       Description := "Count of firewall rules in the project, labeled by network";
       Labels := ["network"] |};
    {| Name := "gce_target_pools";
       Description := "Count of target pools in the project";
       Labels := [] |};
    {| Name := "gce_forwarding_rules";
       Description := "Count of forwarding rules in the project";
       Labels := [] |};
    {| Name := "gce_ip_addresses";
       Description := "Count of external IP addresses in the project, labeled by status";
       Labels := ["status"] |};
    {| Name := "gce_networks";
       Description := "Count of networks in the project";
       Labels := ["network"] |};
    {| Name := "gce_routes";
       Description := "Count of routes in the project";
       Labels := ["network"] |} ].

Definition CreateMetricDescriptors (m : Monitor) (descs : list MetricDescription)
    : Run unit :=
  forEach (λ metric,
             let md := buildDescriptor (Project m) "double" metric in
             emit (CreateDescriptor (Project m) md) ;;
             match MetricDescriptors_Create (Monitoring m) (Project m) md with
             | Some err =>
                 logFatalf "Error creating firewall metric: %v" [AErr (Some err)]
             | None => logPrintf "Created metric: %s\n" [AResp]
             end)
          descs.

Definition reportLabeledTimeseries (rt : Runtime) (m : Monitor) (name : string)
    (values : list Z) (labels : list gomap) : Run (option error) :=
  let points := buildPoints rt (Project m) name DoubleValue values labels in
  let req := {| Timeseries := points |} in
  emit (WriteTimeseries (Project m) req) ;;
  let err := Timeseries_Write (Monitoring m) (Project m) req in
  logPrintf "Resp: %v\nErr: %v\n" [AResp; AErr err] ;;
  mret err.

Definition reportTimeseries (rt : Runtime) (m : Monitor) (name : string)
    (value : Z) : Run (option error) :=
  reportLabeledTimeseries rt m name [value] [].

(** [if err := report(...); err != nil { log.Printf("Err: %v\n", err) }] *)
Definition logging (report : Run (option error)) : Run unit :=
  err ← report;
  match err with
  | Some e => logPrintf "Err: %v\n" [AErr (Some e)]
  | None => mret tt
  end.

Definition reportCounts (rt : Runtime) (m : Monitor) (name key : string)
    (metrics : gmap string Z) : Run unit :=
  let '(values, labels) := valuesAndLabels rt float64_of_int key metrics in
  logging (reportLabeledTimeseries rt m name values labels).

Definition ProcessFirewallRules (rt : Runtime) (m : Monitor) : Run unit :=
  emit (ListCall "Firewalls.List" (Project m)) ;;
  match Firewalls_List (Compute m) (Project m) with
  | Err err => logPrintf "ERROR: Listing firewall: %v\n" [AErr (Some err)]
  | Ok items =>
      logPrintf "Num firewalls: %d" [AInt (len items)] ;;
      let metrics := Aggregate.countBy fw_Network items in
      reportCounts rt m "gce_firewall_rules" "network" metrics
  end.

Definition ProcessTargetPools (rt : Runtime) (m : Monitor) : Run unit :=
  emit (ListCall "TargetPools.AggregatedList" (Project m)) ;;
  match TargetPools_AggregatedList (Compute m) (Project m) with
  | Err err => logPrintf "ERROR: Listing target pools: %v\n" [AErr (Some err)]
  | Ok items =>
      logPrintf "Num target pools: %d" [AInt (Z.of_nat (size items))] ;;
      logging (reportTimeseries rt m "gce_target_pools"
                 (float64_of_int (Z.of_nat (size items))))
  end.

Definition ProcessForwardingRules (rt : Runtime) (m : Monitor) : Run unit :=
  emit (ListCall "GlobalForwardingRules.List" (Project m)) ;;
  match GlobalForwardingRules_List (Compute m) (Project m) with
  | Err err => logPrintf "ERROR: Listing forwarding rules: %v\n" [AErr (Some err)]
  | Ok items =>
      logPrintf "Num forwarding rules: %d" [AInt (len items)] ;;
      logging (reportTimeseries rt m "gce_forwarding_rules"
                 (float64_of_int (len items)))
  end.

Definition ProcessNetworks (rt : Runtime) (m : Monitor) : Run unit :=
  emit (ListCall "Networks.List" (Project m)) ;;
  match Networks_List (Compute m) (Project m) with
  | Err err => logPrintf "ERROR: Listing Networks: %v\n" [AErr (Some err)]
  | Ok items =>
      logPrintf "Num networks: %d" [AInt (len items)] ;;
      logging (reportTimeseries rt m "gce_networks" (float64_of_int (len items)))
  end.

Definition ProcessRoutes (rt : Runtime) (m : Monitor) : Run unit :=
  emit (ListCall "Routes.List" (Project m)) ;;
  match Routes_List (Compute m) (Project m) with
  | Err err => logPrintf "ERROR: Listing routes: %v\n" [AErr (Some err)]
  | Ok items =>
      logPrintf "Num routes: %d" [AInt (len items)] ;;
      logging (reportTimeseries rt m "gce_routes" (float64_of_int (len items)))
  end.

Definition ProcessIPAddresses (rt : Runtime) (m : Monitor) : Run unit :=
  emit (ListCall "GlobalAddresses.List" (Project m)) ;;
  match GlobalAddresses_List (Compute m) (Project m) with
  | Err err => logPrintf "ERROR: Listing addresses: %v\n" [AErr (Some err)]
  | Ok items =>
      logPrintf "Num addresses: %d" [AInt (len items)] ;;
      let metrics := Aggregate.countBy addr_Status items in
      reportCounts rt m "gce_ip_addresses" "status" metrics
  end.

Record World := {
  flag_project : string;
  flag_scrape_period : Z;
  google_DefaultClient : option error;
  compute_New : option error;
  cloudmonitoring_New : option error;
  computeAt : nat → ComputeService;
  monitoringAt : nat → MonitoringService;
  runtimeAt : nat → Runtime
}.

Definition monitorAt (w : World) (i : nat) : Monitor :=
  {| Project := flag_project w;
     Compute := computeAt w i;
     Monitoring := monitoringAt w i |}.

Definition scrapeCycle (w : World) (i : nat) : Run unit :=
  logPrintf "INFO: Starting scrape loop." [] ;;
  ProcessFirewallRules (runtimeAt w (S i)) (monitorAt w (S i)) ;;
  ProcessIPAddresses (runtimeAt w (S i)) (monitorAt w (S i)) ;;
  ProcessForwardingRules (runtimeAt w (S i)) (monitorAt w (S i)) ;;
  ProcessNetworks (runtimeAt w (S i)) (monitorAt w (S i)) ;;
  ProcessRoutes (runtimeAt w (S i)) (monitorAt w (S i)) ;;
  ProcessTargetPools (runtimeAt w (S i)) (monitorAt w (S i)) ;;
  emit (Sleep (flag_scrape_period w)).

Fixpoint scrapeLoop (w : World) (i n : nat) : Run unit :=
  match n with
  | O => mret tt
  | S n' => scrapeCycle w i ;; scrapeLoop w (S i) n'
  end.

Definition startup (w : World) : Run unit :=
  requireProject (flag_project w) ;;
  match google_DefaultClient w with
  | Some err => logFatalf "Error creating client: $v" [AErr (Some err)]
  | None =>
      match compute_New w with
      | Some err => logFatalf "Error creating compute service: %v" [AErr (Some err)]
      | None =>
          match cloudmonitoring_New w with
          | Some err =>
              logFatalf "Error creating monitoring service: %v" [AErr (Some err)]
          | None => mret tt
          end
      end
  end.

(** [main], observed for its first [n] scrape cycles. *)
Definition main (w : World) (n : nat) : Run unit :=
  startup w ;;
  CreateMetricDescriptors (monitorAt w 0) metricDescriptions ;;
  scrapeLoop w 0 n.

End Gce.

(* ===================================================================== *)
(** ** Variant [Prom]: gcloud in, Prometheus gauges out                    *)
(* ===================================================================== *)

Module Prom.

(** The host during one cycle: what the [gcloud] subprocess answers
    ([CombinedOutput]), what [json.Unmarshal] makes of an output for each
    target type, and the runtime. *)
Record Host := {
  gcloud : list string → string * option error;
  unmarshalFirewalls : string → Res (list Firewall);
  unmarshalTargetPools : string → Res (list TargetPool);
  unmarshalForwardingRules : string → Res (list ForwardingRule);
  unmarshalAddresses : string → Res (list Address);
  unmarshalNetworks : string → Res (list Network);
  unmarshalRoutes : string → Res (list Route);
  runtime : Runtime
}.

Record World := {
  flag_project : string;
  flag_port : Z;
  flag_scrape_period : Z;
  hostAt : nat → Host
}.

Definition checkArgs (project : string) : Run unit :=
  if decide (project = "")
  then logFatalf "Error: Empty project. A project name must be specified." []
  else mret tt.

(** The arguments [getRawResource] passes to [gcloud]. *)
Definition gcloudArgs (project resource : string) : list string :=
  [ "--project=" +:+ project; "compute"; resource; "list";
    "--format=json"; "--quiet" ].

Definition getRawResource (h : Host) (project resource : string)
    : Run (string * option error) :=
  let args := gcloudArgs project resource in
  logPrintf "Running: gcloud %s" [AArgs args] ;;
  emit (Exec "gcloud" args) ;;
  mret (gcloud h args).

Definition processFirewallRules (h : Host) (project : string) : Run unit :=
  '(out, err) ← getRawResource h project "firewall-rules";
  match err with
  | Some e => logPrintf "WARN: Error calling gcloud(%v): %s\n" [AErr (Some e); AStr out]
  | None =>
      match unmarshalFirewalls h out with
      | Err e => logPrintf "WARN: Error json decoding firewalls: %v\n" [AErr (Some e)]
      | Ok firewalls =>
          logPrintf "Num firewalls: %d" [AInt (len firewalls)] ;;
          let metrics := Aggregate.countBy fw_Network firewalls in
          forEach (λ '(s, c), emit (GaugeSet "gce_firewall_rules" [s] (float64_of_int c)))
                  (rangeOrder (runtime h) metrics)
      end
  end.

Definition processTargetPools (h : Host) (project : string) : Run unit :=
  '(out, err) ← getRawResource h project "target-pools";
  match err with
  | Some e => logPrintf "WARN: Error calling gcloud(%v): %s\n" [AErr (Some e); AStr out]
  | None =>
      match unmarshalTargetPools h out with
      | Err e => logPrintf "WARN: Error json decoding targetPools: %v\n" [AErr (Some e)]
      | Ok targetPools =>
          logPrintf "Num targetPools: %d" [AInt (len targetPools)] ;;
          emit (GaugeSet "gce_target_pools" [] (float64_of_int (len targetPools)))
      end
  end.

Definition processForwadingRules (h : Host) (project : string) : Run unit :=
  '(out, err) ← getRawResource h project "forwarding-rules";
  match err with
  | Some e => logPrintf "WARN: Error calling gcloud(%v): %s\n" [AErr (Some e); AStr out]
  | None =>
      match unmarshalForwardingRules h out with
      | Err e => logPrintf "WARN: Error json decoding fwdRules: %v\n" [AErr (Some e)]
      | Ok fwdRules =>
          logPrintf "Num fwdRules: %d" [AInt (len fwdRules)] ;;
          emit (GaugeSet "gce_forwarding_rules" [] (float64_of_int (len fwdRules)))
      end
  end.

Definition processAddresses (h : Host) (project : string) : Run unit :=
  '(out, err) ← getRawResource h project "addresses";
  match err with
  | Some e => logPrintf "WARN: Error calling gcloud(%v): %s\n" [AErr (Some e); AStr out]
  | None =>
      match unmarshalAddresses h out with
      | Err e => logPrintf "WARN: Error json decoding addresses: %v\n" [AErr (Some e)]
      | Ok addresses =>
          logPrintf "Num addresses: %d" [AInt (len addresses)] ;;
          let metrics := Aggregate.countBy addr_Status addresses in
          forEach (λ '(s, c), emit (GaugeSet "gce_ip_addresses" [s] (float64_of_int c)))
                  (rangeOrder (runtime h) metrics)
      end
  end.

Definition processNetworks (h : Host) (project : string) : Run unit :=
  '(out, err) ← getRawResource h project "networks";
  match err with
  | Some e => logPrintf "WARN: Error calling gcloud(%v): %s\n" [AErr (Some e); AStr out]
  | None =>
      match unmarshalNetworks h out with
      | Err e => logPrintf "WARN: Error json decoding networks: %v\n" [AErr (Some e)]
      | Ok networks =>
          logPrintf "Num networks: %d" [AInt (len networks)] ;;
          emit (GaugeSet "gce_networks" [] (float64_of_int (len networks)))
      end
  end.

Definition processRoutes (h : Host) (project : string) : Run unit :=
  '(out, err) ← getRawResource h project "routes";
  match err with
  | Some e => logPrintf "WARN: Error fetching routes(%v): %s\n" [AErr (Some e); AStr out]
  | None =>
      match unmarshalRoutes h out with
      | Err e => logPrintf "WARN: Error json decoding routes: %v\n" [AErr (Some e)]
      | Ok routes =>
          logPrintf "Num routes: %d" [AInt (len routes)] ;;
          emit (GaugeSet "gce_routes" [] (float64_of_int (len routes)))
      end
  end.

(** One iteration of the loop of [runScraper]. *)
Definition scrapeCycle (h : Host) (project : string) (period : Z) : Run unit :=
  logPrintf "INFO: Starting scrape loop." [] ;;
  processFirewallRules h project ;;
  processForwadingRules h project ;;
  processTargetPools h project ;;
  processRoutes h project ;;
  processNetworks h project ;;
  processAddresses h project ;;
  emit (Sleep period).

(** The first [n] iterations of [runScraper], from cycle [i]. *)
Fixpoint runScraper (hostAt : nat → Host) (project : string) (period : Z)
    (i n : nat) : Run unit :=
  match n with
  | O => mret tt
  | S n' => scrapeCycle (hostAt i) project period ;;
            runScraper hostAt project period (S i) n'
  end.

(** [main], observed for its first [n] scrape cycles. *)
Definition main (w : World) (n : nat) : Run unit :=
  checkArgs (flag_project w) ;;
  emit (Register "gce_firewall_rules") ;;
  emit (Register "gce_target_pools") ;;
  emit (Register "gce_forwarding_rules") ;;
  emit (Register "gce_ip_addresses") ;;
  emit (Register "gce_networks") ;;
  emit (Register "gce_routes") ;;
  emit (GoServe (flag_port w)) ;;
  runScraper (hostAt w) (flag_project w) (flag_scrape_period w) 0 n.

End Prom.

(* ===================================================================== *)
(** ** What a metric kind owes to the cycle                                 *)
(* ===================================================================== *)

(** An observation reported under a metric name, with label keys drawn
    from the namespaced form of the given plain keys. *)
Definition reportsAs (name : string) (keys : list string) (p : TimeseriesPoint)
    : Prop :=
  tsd_Metric (tp_TimeseriesDesc p) = customName name
  ∧ labelKeys p ⊆ customName <$> keys.

(** A metric kind that returns to its caller whatever happened, makes its
    one list call, never exits, and reports under its own name only. *)
Definition metricContract {A} (api name : string) (keys : list string)
    (r : Run A) : Prop :=
  is_Some (result r)
  ∧ listCalls (trace r) = [api]
  ∧ exits (trace r) = []
  ∧ Forall (reportsAs name keys) (observations (trace r)).

(** The same for a metric kind of the Prometheus variant: it returns, runs
    [gcloud] once for its resource, never exits, and sets no gauge but its
    own. *)
Definition gaugeContract (resource metric : string) (r : Run unit) : Prop :=
  result r = Some tt
  ∧ listCalls (trace r) = [resource]
  ∧ exits (trace r) = []
  ∧ Forall (λ g, g.1.1 = metric) (gaugeSets (trace r)).

(** A trace in which no scraping has begun: no list call, no write, no
    gauge update. *)
Definition before_scraping (tr : list Event) : Prop :=
  listCalls tr = [] ∧ writes tr = [] ∧ gaugeSets tr = [].

(* ===================================================================== *)
(** ** Sample surroundings                                                  *)
(* ===================================================================== *)

(** A project in which every list call succeeds; it holds the given
    firewalls and nothing else. *)
Definition projectWith (firewalls : list Firewall) : ComputeService :=
  {| Firewalls_List := λ _, Ok firewalls;
     TargetPools_AggregatedList := λ _, Ok ∅;
     ForwardingRules_AggregatedList := λ _, Ok ∅;
     GlobalForwardingRules_List := λ _, Ok [];
     Addresses_AggregatedList := λ _, Ok ∅;
     GlobalAddresses_List := λ _, Ok [];
     Networks_List := λ _, Ok [];
     Routes_List := λ _, Ok [] |}.

(** The same project when the routes call fails in transport. *)
Definition routesDown (firewalls : list Firewall) : ComputeService :=
  {| Firewalls_List := λ _, Ok firewalls;
     TargetPools_AggregatedList := λ _, Ok ∅;
     ForwardingRules_AggregatedList := λ _, Ok ∅;
     GlobalForwardingRules_List := λ _, Ok [];
     Addresses_AggregatedList := λ _, Ok ∅;
     GlobalAddresses_List := λ _, Ok [];
     Networks_List := λ _, Ok [];
     Routes_List := λ _, Err "transport error" |}.

(** A monitoring API that accepts everything, and one that rejects every
    registration. *)
Definition acceptingSink : MonitoringService :=
  {| MetricDescriptors_Create := λ _ _, None;
     Timeseries_Write := λ _ _, None |}.

Definition rejectingSink : MonitoringService :=
  {| MetricDescriptors_Create := λ _ _, Some "permission denied";
     Timeseries_Write := λ _ _, None |}.

(** A host on which [gcloud] succeeds and prints an empty JSON array, which
    every decoder reads as the empty list. *)
Definition emptyHost : Prom.Host :=
  {| Prom.gcloud := λ _, ("[]", None);
     Prom.unmarshalFirewalls := λ _, Ok [];
     Prom.unmarshalTargetPools := λ _, Ok [];
     Prom.unmarshalForwardingRules := λ _, Ok [];
     Prom.unmarshalAddresses := λ _, Ok [];
     Prom.unmarshalNetworks := λ _, Ok [];
     Prom.unmarshalRoutes := λ _, Ok [];
     Prom.runtime := listOrderRuntime "2016-01-01T00:00:00Z" |}.

Definition sampleRuntime : Runtime := listOrderRuntime "2016-01-01T00:00:00Z".

Definition threeFirewalls : list Firewall :=
  [ {| fw_Name := "f1"; fw_Network := "a" |};
    {| fw_Name := "f2"; fw_Network := "a" |};
    {| fw_Name := "f3"; fw_Network := "b" |} ].

(** Worlds around the sample project: one whose monitoring API rejects
    every registration, and one in which the routes call fails in every
    cycle. *)
Definition rejectedCustomWorld : Custom.World :=
  {| Custom.flag_project := "p";
     Custom.flag_scrape_period := 300;
     Custom.google_DefaultClient := None;
     Custom.compute_New := None;
     Custom.cloudmonitoring_New := None;
     Custom.computeAt := λ _, projectWith threeFirewalls;
     Custom.monitoringAt := λ _, rejectingSink;
     Custom.runtimeAt := λ _, sampleRuntime |}.

Definition rejectedGceWorld : Gce.World :=
  {| Gce.flag_project := "p";
     Gce.flag_scrape_period := 300;
     Gce.google_DefaultClient := None;
     Gce.compute_New := None;
     Gce.cloudmonitoring_New := None;
     Gce.computeAt := λ _, projectWith threeFirewalls;
     Gce.monitoringAt := λ _, rejectingSink;
     Gce.runtimeAt := λ _, sampleRuntime |}.

Definition routesDownWorld : Custom.World :=
  {| Custom.flag_project := "p";
     Custom.flag_scrape_period := 300;
     Custom.google_DefaultClient := None;
     Custom.compute_New := None;
     Custom.cloudmonitoring_New := None;
     Custom.computeAt := λ _, routesDown threeFirewalls;
     Custom.monitoringAt := λ _, acceptingSink;
     Custom.runtimeAt := λ _, sampleRuntime |}.

(* ===================================================================== *)
(** ** Further readings of a trace, and further samples                      *)
(* ===================================================================== *)

(** The descriptors a trace registered with the monitoring API, and the
    pauses it made. *)
Definition creates (tr : list Event) : list MetricDescriptor :=
  omap (λ e, match e with CreateDescriptor _ md => Some md | _ => None end) tr.

Definition sleeps (tr : list Event) : list Z :=
  omap (λ e, match e with Sleep d => Some d | _ => None end) tr.

(** All items of an aggregated list, scope after scope. *)
Definition scopedItems {A} (items : gmap string (list A)) : list A :=
  mjoin (map_to_list items).*2.

(** A project with two zones: one reserved and one in-use address in the
    first, one in-use address in the second; its aggregated target-pool
    list has both zones and no pool in either. *)
Definition twoZones : ComputeService :=
  {| Firewalls_List := λ _, Ok threeFirewalls;
     TargetPools_AggregatedList :=
       λ _, Ok {[ "zones/z1" := []; "zones/z2" := [] ]};
     ForwardingRules_AggregatedList := λ _, Ok ∅;
     GlobalForwardingRules_List := λ _, Ok [];
     Addresses_AggregatedList :=
       λ _, Ok {[ "zones/z1" := [ {| addr_Name := "a1"; addr_Status := "RESERVED" |};
                                  {| addr_Name := "a2"; addr_Status := "IN_USE" |} ];
                  "zones/z2" := [ {| addr_Name := "a3"; addr_Status := "IN_USE" |} ] ]};
     GlobalAddresses_List := λ _, Ok [];
     Networks_List := λ _, Ok [];
     Routes_List := λ _, Ok [] |}.

(** A host on which [gcloud] succeeds and the firewall decoder reads the
    three sample rules. *)
Definition firewallHost : Prom.Host :=
  {| Prom.gcloud := λ _, ("[...]", None);
     Prom.unmarshalFirewalls := λ _, Ok threeFirewalls;
     Prom.unmarshalTargetPools := λ _, Ok [ {| tp_Name := "t1" |}; {| tp_Name := "t2" |} ];
     Prom.unmarshalForwardingRules := λ _, Ok [];
     Prom.unmarshalAddresses := λ _, Ok [];
     Prom.unmarshalNetworks := λ _, Ok [];
     Prom.unmarshalRoutes := λ _, Ok [];
     Prom.runtime := sampleRuntime |}.

(** Worlds in which every startup step succeeds. *)
Definition acceptedCustomWorld : Custom.World :=
  {| Custom.flag_project := "p";
     Custom.flag_scrape_period := 300;
     Custom.google_DefaultClient := None;
     Custom.compute_New := None;
     Custom.cloudmonitoring_New := None;
     Custom.computeAt := λ _, twoZones;
     Custom.monitoringAt := λ _, acceptingSink;
     Custom.runtimeAt := λ _, sampleRuntime |}.

Definition acceptedGceWorld : Gce.World :=
  {| Gce.flag_project := "p";
     Gce.flag_scrape_period := 300;
     Gce.google_DefaultClient := None;
     Gce.compute_New := None;
     Gce.cloudmonitoring_New := None;
     Gce.computeAt := λ _, twoZones;
     Gce.monitoringAt := λ _, acceptingSink;
     Gce.runtimeAt := λ _, sampleRuntime |}.

(** The run of a metric of the interface-based variant whose list call
    failed, as [main] sees and logs it; and of a kind of resource_metrics.go
    whose list call failed. *)
Definition failedMetric (api name project : string) (e : error) : Run unit :=
  MkRun [ ListCall api project;
          Log "ERROR: Error processing metric %s. Err: %v"
              [AStr name; AErr (Some e)] ]
        (Some tt).

Definition failedListing (api format project : string) (e : error) : Run unit :=
  MkRun [ ListCall api project; Log format [AErr (Some e)] ] (Some tt).

(** A well-formed point of a metric: its value is of the given kind, its
    interval is the instant of the report, and it names the metric and the
    project. *)
Definition pointOf (rt : Runtime) (project name : string)
    (mkValue : Z → PointValue) (p : TimeseriesPoint) : Prop :=
  (∃ v, pt_Value (tp_Point p) = mkValue v)
  ∧ pt_Start (tp_Point p) = now rt
  ∧ pt_End (tp_Point p) = now rt
  ∧ tsd_Metric (tp_TimeseriesDesc p) = customName name
  ∧ tsd_Project (tp_TimeseriesDesc p) = project.

(** The three ways a pass of a metric of the interface-based variant can
    go: the list call fails; there is nothing to report; or one write of at
    least one point is made and its answer returned. *)
Definition passShape (rt : Runtime) (m : Custom.Monitor) (api name : string)
    (r : Run (option error)) : Prop :=
  (∃ e, r = MkRun [ListCall api (Custom.Project m)] (Some (Some e)))
  ∨ (∃ format n,
       r = MkRun [ListCall api (Custom.Project m); Log format [AInt n]] (Some None))
  ∨ (∃ format n v values labels,
       let req := {| Timeseries := buildPoints rt (Custom.Project m) name Int64Value
                                     (v :: values) labels |} in
       let err := Timeseries_Write (Custom.Monitoring m) (Custom.Project m) req in
       r = MkRun [ ListCall api (Custom.Project m); Log format [AInt n];
                   WriteTimeseries (Custom.Project m) req; respLog err ]
                 (Some err)).

(** The two ways a pass of a kind of resource_metrics.go can go: the list
    call fails and is logged; or one write is made, of as many points as
    there are values, and a rejected write is logged after it. *)
Definition gcePassShape (rt : Runtime) (m : Gce.Monitor) (api name : string)
    (r : Run unit) : Prop :=
  (∃ format e, r = failedListing api format (Gce.Project m) e)
  ∨ (∃ format n values labels,
       let req := {| Timeseries := buildPoints rt (Gce.Project m) name DoubleValue
                                     values labels |} in
       let err := Timeseries_Write (Gce.Monitoring m) (Gce.Project m) req in
       r = MkRun ([ ListCall api (Gce.Project m); Log format [AInt n];
                    WriteTimeseries (Gce.Project m) req; respLog err ]
                    ++ match err with
                       | Some e => [Log "Err: %v\n" [AErr (Some e)]]
                       | None => []
                       end)
                 (Some tt)).

(* ===================================================================== *)
(** ** Properties of the scalars                                           *)
(* ===================================================================== *)

Lemma wrap64_small z : minInt ≤ z ≤ maxInt → wrap64 z = z.
Proof.
  unfold wrap64, minInt, maxInt. intros Hz.
  rewrite Z.mod_small by lia. lia.
Qed.

Lemma wrap64_idemp_add a b : wrap64 (wrap64 a + b) = wrap64 (a + b).
Proof.
  unfold wrap64. f_equal.
  replace ((a + 2 ^ 63) `mod` 2 ^ 64 - 2 ^ 63 + b + 2 ^ 63)
    with ((a + 2 ^ 63) `mod` 2 ^ 64 + b) by lia.
  rewrite Zplus_mod_idemp_l. f_equal. lia.
Qed.

Lemma float64_of_int_exact c : Z.abs c < 2 ^ 53 → float64_of_int c = c.
Proof.
  intros Hc. unfold float64_of_int.
  destruct (Z.eq_dec c 0) as [->|Hne]; [reflexivity|].
  assert (Z.log2 (Z.abs c) < 53) by (apply Z.log2_lt_pow2; lia).
  destruct (Z.leb_spec (Z.log2 (Z.abs c) - 52) 0); [reflexivity | lia].
Qed.

(* ===================================================================== *)
(** ** Properties of the aggregation                                       *)
(* ===================================================================== *)

Section aggregate_facts.
Import Aggregate.
Context {A : Type} (sel : A → string).

Lemma incr_lookup k j (m : gmap string Z) :
  incr k m !! j =
    if decide (k = j) then Some (wrap64 (default 0 (m !! k) + 1)) else m !! j.
Proof. unfold incr. apply lookup_insert. Qed.

Lemma bucket_cons k a items :
  bucket sel k (a :: items) =
    if decide (sel a = k) then a :: bucket sel k items else bucket sel k items.
Proof. unfold bucket. rewrite filter_cons. reflexivity. Qed.

Lemma elem_of_bucket k a items : a ∈ bucket sel k items ↔ a ∈ items ∧ k = sel a.
Proof. unfold bucket. rewrite list_elem_of_filter. split; intros [? ?]; done. Qed.

(** What the counting loop leaves under a key: the old entry when no record
    selects the key, otherwise the old count plus the size of the bucket,
    wrapped. *)
Lemma countInto_lookup (m : gmap string Z) items k :
  countInto sel m items !! k =
    if decide (bucket sel k items = []) then m !! k
    else Some (wrap64 (default 0 (m !! k) + len (bucket sel k items))).
Proof.
  revert m. induction items as [|a items IH]; intros m.
  { unfold bucket. rewrite filter_nil. by rewrite decide_True. }
  unfold countInto in *. cbn [foldl]. rewrite IH, bucket_cons, incr_lookup.
  destruct (decide (sel a = k)) as [Heq|Hne].
  - subst k. rewrite (decide_False (P := a :: _ = [])) by done.
    unfold len. cbn [length from_option id].
    case_decide as Hb.
    + rewrite Hb. reflexivity.
    + f_equal. rewrite wrap64_idemp_add. f_equal. lia.
  - case_decide; [done|]. reflexivity.
Qed.

Lemma countBy_lookup items k :
  countBy sel items !! k =
    if decide (bucket sel k items = []) then None
    else Some (wrap64 (len (bucket sel k items))).
Proof.
  unfold countBy. rewrite countInto_lookup, lookup_empty. reflexivity.
Qed.

Lemma len_bucket_le k items : len (bucket sel k items) ≤ len items.
Proof. unfold len, bucket. pose proof (length_filter (λ a, sel a = k) items). lia. Qed.

Lemma countBy_perm items items' :
  items ≡ₚ items' → countBy sel items = countBy sel items'.
Proof.
  intros Hp. apply map_eq; intros k. rewrite !countBy_lookup.
  assert (bucket sel k items ≡ₚ bucket sel k items') as Hb
    by (unfold bucket; rewrite Hp; reflexivity).
  pose proof (Permutation_length Hb) as Hl.
  unfold len. rewrite Hl.
  destruct (bucket sel k items), (bucket sel k items'); try done.
Qed.

End aggregate_facts.

Section total_facts.
Import Aggregate.

Lemma total_empty : total ∅ = 0.
Proof. unfold total. apply map_fold_empty. Qed.

Lemma total_insert_fresh (m : gmap string Z) k v :
  m !! k = None → total (<[k := v]> m) = v + total m.
Proof.
  intros Hk. unfold total. rewrite map_fold_insert_L; [done| |done].
  intros. lia.
Qed.

Lemma total_delete (m : gmap string Z) k v :
  m !! k = Some v → total m = v + total (delete k m).
Proof.
  intros Hk. unfold total. rewrite (map_fold_delete_L _ _ k v m); [done| |done].
  intros. lia.
Qed.

Lemma total_insert (m : gmap string Z) k v :
  total (<[k := v]> m) = total m - default 0 (m !! k) + v.
Proof.
  destruct (m !! k) as [x|] eqn:Hk; cbn.
  - rewrite (total_delete m k x Hk), <- insert_delete_eq.
    rewrite total_insert_fresh by apply lookup_delete_eq. lia.
  - rewrite total_insert_fresh by done. lia.
Qed.

Lemma total_bounds (m : gmap string Z) :
  counts_nonneg m → 0 ≤ total m ∧ ∀ k v, m !! k = Some v → v ≤ total m.
Proof.
  induction m as [|i x m Hi IH] using map_ind; intros Hm.
  - rewrite total_empty. split; [lia|]. intros k v. by rewrite lookup_empty.
  - assert (counts_nonneg m) as Hm'.
    { intros k v Hk. apply (Hm k v). rewrite lookup_insert_ne; [done|].
      intros ->. congruence. }
    destruct (IH Hm') as [H0 Hle].
    assert (0 ≤ x) by (apply (Hm i x), lookup_insert_eq).
    rewrite total_insert_fresh by done. split; [lia|].
    intros k v. rewrite lookup_insert. case_decide.
    + intros [= ->]. lia.
    + intros Hk. specialize (Hle k v Hk). lia.
Qed.

Lemma incr_total (m : gmap string Z) k :
  counts_nonneg m → total m < maxInt →
  total (incr k m) = total m + 1 ∧ counts_nonneg (incr k m).
Proof.
  intros Hm Hlt. destruct (total_bounds m Hm) as [H0 Hle].
  assert (0 ≤ default 0 (m !! k) ≤ total m) as Hd.
  { destruct (m !! k) as [v|] eqn:Hk; cbn; [|lia].
    split; [by apply (Hm k v) | by apply (Hle k v)]. }
  assert (wrap64 (default 0 (m !! k) + 1) = default 0 (m !! k) + 1) as Hw.
  { apply wrap64_small. unfold minInt, maxInt in *. lia. }
  split.
  - unfold incr. rewrite total_insert, Hw. lia.
  - intros j v. rewrite incr_lookup, Hw. case_decide.
    + intros [= <-]. lia.
    + apply Hm.
Qed.

Lemma countInto_total {A} (sel : A → string) (m : gmap string Z) items :
  counts_nonneg m → total m + len items ≤ maxInt →
  total (countInto sel m items) = total m + len items
  ∧ counts_nonneg (countInto sel m items).
Proof.
  revert m. induction items as [|a items IH]; intros m Hm Hle.
  - unfold len. cbn. split; [lia|done].
  - unfold len in *. cbn [length] in Hle.
    destruct (incr_total m (sel a) Hm) as [Ht Hn]; [lia|].
    unfold countInto in *. cbn [foldl length].
    destruct (IH (incr (sel a) m) Hn) as [IHt IHn]; [lia|].
    split; [lia|done].
Qed.

End total_facts.

(** C1. Every record of a fetched list is counted into exactly one bucket
    (the one its field selects), the count map holds exactly the non-empty
    buckets with their sizes, and the bucket counts sum to the length of the
    list. The bound is the one every Go slice satisfies. *)
Theorem aggregate_counts_every_record_once
    {A} (sel : A → string) (items : list A) :
  len items ≤ maxInt →
  (∀ a k, a ∈ items → (a ∈ Aggregate.bucket sel k items ↔ k = sel a))
  ∧ (∀ k, Aggregate.countBy sel items !! k =
            if decide (Aggregate.bucket sel k items = []) then None
            else Some (len (Aggregate.bucket sel k items)))
  ∧ Aggregate.total (Aggregate.countBy sel items) = len items.
Proof.
  intros Hlen. split; [|split].
  - intros a k Ha. rewrite elem_of_bucket. split; [by intros [_ ?]|done].
  - intros k. rewrite countBy_lookup. case_decide; [done|].
    f_equal. apply wrap64_small.
    pose proof (len_bucket_le sel k items).
    unfold len, minInt, maxInt in *. lia.
  - unfold Aggregate.countBy.
    destruct (countInto_total sel ∅ items) as [Ht _].
    + intros k v. by rewrite lookup_empty.
    + rewrite total_empty. lia.
    + rewrite Ht, total_empty. lia.
Qed.

Lemma aggregate_counts_every_record_once_witness :
  len threeFirewalls ≤ maxInt
  ∧ Aggregate.total (Aggregate.countBy fw_Network threeFirewalls) = len threeFirewalls.
Proof.
  assert (len threeFirewalls ≤ maxInt) as H by (vm_compute; discriminate).
  split; [exact H|].
  apply (aggregate_counts_every_record_once fw_Network threeFirewalls H).
Defined.

(** C5. Aggregation does not depend on the order of the records. *)
Theorem aggregate_permutation_invariant
    {A} (sel : A → string) (items items' : list A) :
  items ≡ₚ items' →
  Aggregate.countBy sel items = Aggregate.countBy sel items'.
Proof. apply countBy_perm. Qed.

Lemma aggregate_permutation_invariant_witness :
  threeFirewalls ≡ₚ reverse threeFirewalls
  ∧ Aggregate.countBy fw_Network threeFirewalls =
      Aggregate.countBy fw_Network (reverse threeFirewalls).
Proof.
  assert (threeFirewalls ≡ₚ reverse threeFirewalls) as H
    by (symmetry; apply reverse_Permutation).
  split; [exact H|].
  apply (aggregate_permutation_invariant fw_Network _ _ H).
Defined.

(* ===================================================================== *)
(** ** Properties of runs and traces                                       *)
(* ===================================================================== *)

Section run_facts.
Context {A B : Type}.

Lemma bind_returns (p : Run A) (k : A → Run B) a :
  result p = Some a →
  trace (p ≫= k) = trace p ++ trace (k a) ∧ result (p ≫= k) = result (k a).
Proof. intros Hp. unfold mbind, run_bind. rewrite Hp. done. Qed.

Lemma bind_exits (p : Run A) (k : A → Run B) :
  result p = None → trace (p ≫= k) = trace p ∧ result (p ≫= k) = None.
Proof. intros Hp. unfold mbind, run_bind. rewrite Hp. done. Qed.

End run_facts.

Lemma run_eq {A} (p q : Run A) :
  trace p = trace q ∧ result p = result q → p = q.
Proof. destruct p, q. cbn. by intros [-> ->]. Qed.

Lemma forEach_returns {A} (body : A → Run unit) (xs : list A) :
  (∀ x, x ∈ xs → result (body x) = Some tt) →
  result (forEach body xs) = Some tt
  ∧ trace (forEach body xs) = xs ≫= (λ x, trace (body x)).
Proof.
  induction xs as [|x xs IH]; intros Hxs; [done|].
  destruct IH as [IHr IHt]; [intros y Hy; apply Hxs; by right|].
  cbn [forEach].
  destruct (bind_returns (body x) (λ _, forEach body xs) tt) as [Ht Hr];
    [apply Hxs; by left|].
  rewrite Ht, Hr, IHt. done.
Qed.

(** A loop whose body exits at some element exits: it has run the bodies
    of the elements before the first exiting one, which returned, and that
    one. *)
Lemma forEach_exits {A} (body : A → Run unit) (xs : list A) x :
  x ∈ xs → result (body x) = None →
  ∃ ys y,
    (ys ++ [y]) `prefix_of` xs
    ∧ Forall (λ z, result (body z) = Some tt) ys
    ∧ result (body y) = None
    ∧ forEach body xs = MkRun ((ys ≫= λ z, trace (body z)) ++ trace (body y)) None.
Proof.
  induction xs as [|z xs IH]; intros Hx Hexit; [by apply elem_of_nil in Hx|].
  cbn [forEach]. destruct (result (body z)) as [[]|] eqn:Hz.
  - apply elem_of_cons in Hx as [->|Hx]; [congruence|].
    destruct (IH Hx Hexit) as (ys & y & Hpre & Hys & Hy & Hrun).
    exists (z :: ys), y. split; [by apply prefix_cons|].
    split; [by constructor|]. split; [done|].
    unfold mbind at 1, run_bind. rewrite Hz, Hrun. cbn [trace result].
    by rewrite bind_cons, app_assoc.
  - exists [], z. split; [by exists xs|]. split; [constructor|]. split; [done|].
    unfold mbind at 1, run_bind. by rewrite Hz.
Qed.

Lemma writes_app tr1 tr2 : writes (tr1 ++ tr2) = writes tr1 ++ writes tr2.
Proof. apply omap_app. Qed.

Lemma observations_app tr1 tr2 :
  observations (tr1 ++ tr2) = observations tr1 ++ observations tr2.
Proof. unfold observations. by rewrite writes_app, bind_app. Qed.

Lemma gaugeSets_app tr1 tr2 : gaugeSets (tr1 ++ tr2) = gaugeSets tr1 ++ gaugeSets tr2.
Proof. apply omap_app. Qed.

Lemma listCalls_app tr1 tr2 : listCalls (tr1 ++ tr2) = listCalls tr1 ++ listCalls tr2.
Proof. apply omap_app. Qed.

Lemma exits_app tr1 tr2 : exits (tr1 ++ tr2) = exits tr1 ++ exits tr2.
Proof. apply omap_app. Qed.

Lemma gaugeStore_no_sets tr1 tr2 :
  gaugeSets tr2 = [] → gaugeStore (tr1 ++ tr2) = gaugeStore tr1.
Proof.
  intros H2. unfold gaugeStore. by rewrite gaugeSets_app, H2, app_nil_r.
Qed.

(* ===================================================================== *)
(** ** Properties of the label translation and of the points built         *)
(* ===================================================================== *)

Lemma labelDescriptors_map ls :
  labelDescriptors ls = (λ l, {| ld_Key := customName l; ld_Description := l |}) <$> ls.
Proof.
  unfold labelDescriptors.
  induction ls as [|l ls IH] using rev_ind; [done|].
  by rewrite foldl_snoc, IH, fmap_snoc.
Qed.

Global Instance customName_inj : Inj (=) (=) customName.
Proof. unfold customName. apply _. Qed.

Lemma foldl_insert_kmap (its : list (string * string)) :
  NoDup its.*1 →
  foldl (λ (munged : gmap string string) '(l, v), <[customName l := v]> munged) ∅ its
  = kmap customName (list_to_map its : gmap string string).
Proof.
  induction its as [|[l v] its IH] using rev_ind; intros Hnd.
  - cbn. by rewrite kmap_empty.
  - rewrite fmap_app in Hnd. apply NoDup_app in Hnd as (Hnd & Hl & _).
    rewrite foldl_snoc, IH by done.
    rewrite list_to_map_snoc.
    + rewrite kmap_insert; [done | apply customName_inj].
    + intros Hin. apply (Hl l Hin). cbn. by left.
Qed.

(** The translation renames every key under the custom prefix and leaves
    the values alone, whatever the order of the iteration. *)
Lemma fixLabels_kmap rt (ls : gmap string string) :
  fixLabels rt (Some ls) = Some (kmap customName ls).
Proof.
  unfold fixLabels. f_equal.
  pose proof (range_visits_all rt ls) as Hp.
  assert (NoDup (rangeOrder rt ls).*1) as Hnd.
  { rewrite Hp. apply NoDup_fst_map_to_list. }
  rewrite foldl_insert_kmap by done. f_equal.
  rewrite (list_to_map_proper _ (map_to_list ls)) by done.
  apply list_to_map_to_list.
Qed.

Lemma valuesAndLabels_eq rt conv key (metrics : gmap string Z) :
  valuesAndLabels rt conv key metrics =
    ((λ sc, conv sc.2) <$> rangeOrder rt metrics,
     (λ sc, Some {[ key := sc.1 ]}) <$> rangeOrder rt metrics).
Proof.
  unfold valuesAndLabels. generalize (rangeOrder rt metrics) as its.
  induction its as [|[s c] its IH] using rev_ind; [done|].
  by rewrite foldl_snoc, IH, !fmap_snoc.
Qed.

(** The points built from the two slices of a labeled metric: one per
    bucket, in the order of the iteration, labeled under the namespaced
    key. *)
Lemma buildPoints_labeled rt project name mk conv key (metrics : gmap string Z) :
  buildPoints rt project name mk
    (valuesAndLabels rt conv key metrics).1 (valuesAndLabels rt conv key metrics).2
  = bucketPoints rt project name key (mk ∘ conv) metrics.
Proof.
  rewrite valuesAndLabels_eq. cbn [fst snd]. unfold bucketPoints.
  generalize (rangeOrder rt metrics) as its. intros its.
  apply list_eq; intros i. unfold buildPoints.
  rewrite list_lookup_imap, !list_lookup_fmap.
  destruct (its !! i) as [[s c]|] eqn:Hi; [|done]. cbn.
  f_equal. unfold labeledPoint. do 2 f_equal.
  rewrite decide_True by (rewrite length_fmap; by eapply lookup_lt_Some).
  change (fixLabels rt (Some {[ key := s ]}) = Some {[ customName key := s ]}).
  by rewrite fixLabels_kmap, kmap_singleton.
Qed.

Lemma buildPoints_unlabeled rt project name mk v :
  buildPoints rt project name mk [v] [] = [unlabeledPoint rt project name (mk v)].
Proof. reflexivity. Qed.

Lemma labelKeys_labeled rt project name key value s :
  labelKeys (labeledPoint rt project name key value s) = [customName key].
Proof. unfold labelKeys. cbn. by rewrite map_to_list_singleton. Qed.

Lemma rangeOrder_nil_iff rt {V} (m : gmap string V) : rangeOrder rt m = [] ↔ m = ∅.
Proof.
  rewrite <- map_to_list_empty_iff. pose proof (range_visits_all rt m) as Hp.
  split; intros Hnil; rewrite Hnil in Hp.
  - by apply Permutation_nil_l in Hp.
  - by apply Permutation_nil_r in Hp.
Qed.

Lemma rangeOrder_length rt {V} (m : gmap string V) :
  length (rangeOrder rt m) = size m.
Proof. by rewrite (range_visits_all rt m), length_map_to_list. Qed.

(* ===================================================================== *)
(** ** The reporters of the push-style variants                            *)
(* ===================================================================== *)

Section custom_reporter.
Import Custom.
Context (rt : Runtime) (m : Monitor).

Lemma Custom_report_nothing name labels :
  ReportLabeledTimeseries rt m name [] labels = mret None.
Proof. reflexivity. Qed.

Lemma Custom_report_some name v values labels :
  ReportLabeledTimeseries rt m name (v :: values) labels =
    let req := {| Timeseries := buildPoints rt (Project m) name Int64Value
                                  (v :: values) labels |} in
    MkRun [ WriteTimeseries (Project m) req;
            respLog (Timeseries_Write (Monitoring m) (Project m) req) ]
          (Some (Timeseries_Write (Monitoring m) (Project m) req)).
Proof.
  unfold ReportLabeledTimeseries.
  rewrite decide_False; [reflexivity|]. unfold len. cbn [length]. lia.
Qed.

Lemma returning_same (r : Run (option error)) :
  trace (returning r) = trace r ∧ result (returning r) = result r.
Proof.
  destruct r as [tr [[e|]|]]; cbn; by rewrite ?app_nil_r.
Qed.

(** What a labeled metric sends for its count map: nothing when the map is
    empty, otherwise one write with one point per bucket. *)
Lemma Custom_reportCounts_run name key (metrics : gmap string Z) :
  reportCounts rt m name key metrics =
    if decide (metrics = ∅) then mret None
    else
      let req := {| Timeseries := bucketPoints rt (Project m) name key
                                    (Int64Value ∘ int64_of_int) metrics |} in
      let err := Timeseries_Write (Monitoring m) (Project m) req in
      MkRun [WriteTimeseries (Project m) req; respLog err] (Some err).
Proof.
  unfold reportCounts.
  pose proof (buildPoints_labeled rt (Project m) name Int64Value int64_of_int
                key metrics) as Hpts.
  pose proof (valuesAndLabels_eq rt int64_of_int key metrics) as Hvl.
  destruct (valuesAndLabels rt int64_of_int key metrics) as [values labels].
  cbn [fst snd] in Hpts. injection Hvl as Hv Hl.
  apply run_eq. destruct (returning_same (ReportLabeledTimeseries rt m name values labels))
    as [-> ->].
  destruct (decide (metrics = ∅)) as [Hempty|Hne].
  - apply (rangeOrder_nil_iff rt) in Hempty. rewrite Hempty in Hv. subst values.
    done.
  - destruct values as [|v values].
    + exfalso. apply Hne, (rangeOrder_nil_iff rt).
      symmetry in Hv. by apply fmap_nil_inv in Hv.
    + rewrite Custom_report_some. cbn zeta. rewrite Hpts. done.
Qed.

Lemma Custom_reportTimeseries_run name v :
  ReportTimeseries rt m name v =
    let req := {| Timeseries := [unlabeledPoint rt (Project m) name (Int64Value v)] |} in
    MkRun [ WriteTimeseries (Project m) req;
            respLog (Timeseries_Write (Monitoring m) (Project m) req) ]
          (Some (Timeseries_Write (Monitoring m) (Project m) req)).
Proof. reflexivity. Qed.

End custom_reporter.

Section gce_reporter.
Import Gce.
Context (rt : Runtime) (m : Monitor).

(** The log line of a failed report. *)
Lemma Gce_logging_run (tr : list Event) (err : option error) :
  logging (MkRun tr (Some err)) =
    MkRun (tr ++ match err with
                 | Some e => [Log "Err: %v\n" [AErr (Some e)]]
                 | None => []
                 end)
          (Some tt).
Proof. by destruct err. Qed.

Lemma Gce_report_run name values labels :
  reportLabeledTimeseries rt m name values labels =
    let req := {| Timeseries := buildPoints rt (Project m) name DoubleValue
                                  values labels |} in
    let err := Timeseries_Write (Monitoring m) (Project m) req in
    MkRun [WriteTimeseries (Project m) req; respLog err] (Some err).
Proof. reflexivity. Qed.

(** This variant writes whatever the count map holds, also when it holds
    nothing. *)
Lemma Gce_reportCounts_run name key (metrics : gmap string Z) :
  reportCounts rt m name key metrics =
    let req := {| Timeseries := bucketPoints rt (Project m) name key
                                  (DoubleValue ∘ float64_of_int) metrics |} in
    let err := Timeseries_Write (Monitoring m) (Project m) req in
    MkRun ([WriteTimeseries (Project m) req; respLog err]
             ++ match err with
                | Some e => [Log "Err: %v\n" [AErr (Some e)]]
                | None => []
                end)
          (Some tt).
Proof.
  unfold reportCounts.
  pose proof (buildPoints_labeled rt (Project m) name DoubleValue float64_of_int
                key metrics) as Hpts.
  destruct (valuesAndLabels rt float64_of_int key metrics) as [values labels].
  cbn [fst snd] in Hpts.
  rewrite Gce_report_run. cbn zeta. rewrite Hpts. apply Gce_logging_run.
Qed.

Lemma Gce_reportTimeseries_run name v :
  logging (reportTimeseries rt m name v) =
    let req := {| Timeseries := [unlabeledPoint rt (Project m) name (DoubleValue v)] |} in
    let err := Timeseries_Write (Monitoring m) (Project m) req in
    MkRun ([WriteTimeseries (Project m) req; respLog err]
             ++ match err with
                | Some e => [Log "Err: %v\n" [AErr (Some e)]]
                | None => []
                end)
          (Some tt).
Proof. unfold reportTimeseries. rewrite Gce_report_run. apply Gce_logging_run. Qed.

End gce_reporter.

(** The gauge updates of a labeled Prometheus metric. *)
Lemma forEach_gaugeSet name (f : Z → Z) (its : list (string * Z)) :
  forEach (λ '(s, c), emit (GaugeSet name [s] (f c))) its =
    MkRun ((λ sc, GaugeSet name [sc.1] (f sc.2)) <$> its) (Some tt).
Proof.
  induction its as [|[s c] its IH]; [done|].
  cbn [forEach]. rewrite IH. reflexivity.
Qed.

(* ===================================================================== *)
(** ** Stepping through a run                                              *)
(* ===================================================================== *)

Lemma emit_bind {A} e (k : Run A) : (emit e ;; k) = MkRun (e :: trace k) (result k).
Proof. reflexivity. Qed.

Lemma logPrintf_bind {A} format args (k : Run A) :
  (logPrintf format args ;; k) = MkRun (Log format args :: trace k) (result k).
Proof. reflexivity. Qed.

Lemma mkrun_bind {A B} tr (a : A) (k : A → Run B) :
  (MkRun tr (Some a) ≫= k) = MkRun (tr ++ trace (k a)) (result (k a)).
Proof. reflexivity. Qed.

Lemma mret_bind {A B} (a : A) (k : A → Run B) :
  (mret a ≫= k) = MkRun (trace (k a)) (result (k a)).
Proof. reflexivity. Qed.

Lemma getRawResource_run h project resource :
  Prom.getRawResource h project resource =
    MkRun [ Log "Running: gcloud %s" [AArgs (Prom.gcloudArgs project resource)];
            Exec "gcloud" (Prom.gcloudArgs project resource) ]
          (Some (Prom.gcloud h (Prom.gcloudArgs project resource))).
Proof. reflexivity. Qed.

Lemma observations_nil : observations [] = [].
Proof. reflexivity. Qed.

Lemma observations_write project req tr :
  observations (WriteTimeseries project req :: tr) = Timeseries req ++ observations tr.
Proof. reflexivity. Qed.

Lemma observations_log format args tr :
  observations (Log format args :: tr) = observations tr.
Proof. reflexivity. Qed.

Lemma observations_listCall api project tr :
  observations (ListCall api project :: tr) = observations tr.
Proof. reflexivity. Qed.

Lemma observations_sleep d tr : observations (Sleep d :: tr) = observations tr.
Proof. reflexivity. Qed.

Lemma listCalls_nil : listCalls [] = [].
Proof. reflexivity. Qed.

Lemma listCalls_listCall api project tr :
  listCalls (ListCall api project :: tr) = api :: listCalls tr.
Proof. reflexivity. Qed.

Lemma listCalls_log format args tr : listCalls (Log format args :: tr) = listCalls tr.
Proof. reflexivity. Qed.

Lemma listCalls_write project req tr :
  listCalls (WriteTimeseries project req :: tr) = listCalls tr.
Proof. reflexivity. Qed.

Lemma listCalls_sleep d tr : listCalls (Sleep d :: tr) = listCalls tr.
Proof. reflexivity. Qed.

Lemma exits_nil : exits [] = [].
Proof. reflexivity. Qed.

Lemma exits_listCall api project tr : exits (ListCall api project :: tr) = exits tr.
Proof. reflexivity. Qed.

Lemma exits_log format args tr : exits (Log format args :: tr) = exits tr.
Proof. reflexivity. Qed.

Lemma exits_write project req tr : exits (WriteTimeseries project req :: tr) = exits tr.
Proof. reflexivity. Qed.

Lemma exits_sleep d tr : exits (Sleep d :: tr) = exits tr.
Proof. reflexivity. Qed.

Lemma listCalls_gcloud project resource tr :
  listCalls (Exec "gcloud" (Prom.gcloudArgs project resource) :: tr)
  = resource :: listCalls tr.
Proof. reflexivity. Qed.

Lemma listCalls_gaugeSet name ls v tr :
  listCalls (GaugeSet name ls v :: tr) = listCalls tr.
Proof. reflexivity. Qed.

Lemma exits_exec cmd args tr : exits (Exec cmd args :: tr) = exits tr.
Proof. reflexivity. Qed.

Lemma exits_gaugeSet name ls v tr : exits (GaugeSet name ls v :: tr) = exits tr.
Proof. reflexivity. Qed.

Lemma gaugeSets_nil : gaugeSets [] = [].
Proof. reflexivity. Qed.

Lemma gaugeSets_log format args tr : gaugeSets (Log format args :: tr) = gaugeSets tr.
Proof. reflexivity. Qed.

Lemma gaugeSets_exec cmd args tr : gaugeSets (Exec cmd args :: tr) = gaugeSets tr.
Proof. reflexivity. Qed.

Lemma gaugeSets_set name ls v tr :
  gaugeSets (GaugeSet name ls v :: tr) = (name, ls, v) :: gaugeSets tr.
Proof. reflexivity. Qed.

Lemma gaugeSets_sleep d tr : gaugeSets (Sleep d :: tr) = gaugeSets tr.
Proof. reflexivity. Qed.

(** Sequencing after a run that returns. *)
Lemma seq_returns {B} (p : Run unit) (k : Run B) :
  result p = Some tt → (p ;; k) = MkRun (trace p ++ trace k) (result k).
Proof. intros Hp. unfold mbind, run_bind. by rewrite Hp. Qed.

Create Rewrite HintDb run.
Hint Rewrite @emit_bind @logPrintf_bind @mkrun_bind observations_nil observations_write
  observations_log observations_listCall observations_sleep
  listCalls_nil listCalls_listCall listCalls_log listCalls_write listCalls_sleep
  exits_nil exits_listCall exits_log exits_write exits_sleep
  listCalls_gcloud listCalls_gaugeSet exits_exec exits_gaugeSet
  gaugeSets_nil gaugeSets_log gaugeSets_exec gaugeSets_set gaugeSets_sleep
  @app_nil_r : run.

(** Unfolds one sequencing step after the other and reads off the trace. *)
Ltac run_steps :=
  repeat first
    [ progress autorewrite with run
    | progress cbn [trace result mret run_ret app] ].

(* ===================================================================== *)
(** ** Empty lists: labeled and unlabeled metrics                          *)
(* ===================================================================== *)

Lemma countBy_nil {A} (sel : A → string) : Aggregate.countBy sel [] = ∅.
Proof. reflexivity. Qed.

Lemma bucketPoints_empty rt project name key mk :
  bucketPoints rt project name key mk ∅ = [].
Proof.
  unfold bucketPoints.
  by rewrite (proj2 (rangeOrder_nil_iff rt (∅ : gmap string Z)) eq_refl).
Qed.

(** C3. An empty record list gives a labeled metric an empty count map and
    no observation at all, and gives an unlabeled metric one observation of
    value zero; so in the Prometheus variant and in both push variants. *)
Theorem empty_list_labeled_vs_unlabeled
    (h : Prom.Host) (rt : Runtime) (cs : ComputeService) (ms : MonitoringService)
    (project out1 out2 : string) :
  Prom.gcloud h (Prom.gcloudArgs project "firewall-rules") = (out1, None) →
  Prom.unmarshalFirewalls h out1 = Ok [] →
  Prom.gcloud h (Prom.gcloudArgs project "target-pools") = (out2, None) →
  Prom.unmarshalTargetPools h out2 = Ok [] →
  Firewalls_List cs project = Ok [] →
  Networks_List cs project = Ok [] →
  let gm := {| Gce.Project := project; Gce.Compute := cs; Gce.Monitoring := ms |} in
  let cm := {| Custom.Project := project; Custom.Compute := cs;
               Custom.Monitoring := ms |} in
  Aggregate.countBy fw_Network [] = ∅
  ∧ gaugeSets (trace (Prom.processFirewallRules h project)) = []
  ∧ gaugeSets (trace (Prom.processTargetPools h project)) =
      [("gce_target_pools", [], 0)]
  ∧ observations (trace (Gce.ProcessFirewallRules rt gm)) = []
  ∧ observations (trace (Gce.ProcessNetworks rt gm)) =
      [unlabeledPoint rt project "gce_networks" (DoubleValue 0)]
  ∧ observations (trace (Custom.ProcessMetric Custom.FirewallRules rt cm)) = []
  ∧ observations (trace (Custom.ProcessMetric Custom.Networks rt cm)) =
      [unlabeledPoint rt project "gce_networks" (Int64Value 0)].
Proof.
  intros Hg1 Hd1 Hg2 Hd2 Hfw Hnet gm cm. repeat split.
  - unfold Prom.processFirewallRules.
    rewrite getRawResource_run, Hg1. run_steps. rewrite Hd1. run_steps.
    rewrite countBy_nil, forEach_gaugeSet.
    by rewrite (proj2 (rangeOrder_nil_iff _ (∅ : gmap string Z)) eq_refl).
  - unfold Prom.processTargetPools.
    rewrite getRawResource_run, Hg2. run_steps. rewrite Hd2. reflexivity.
  - unfold Gce.ProcessFirewallRules. cbn [Gce.Project Gce.Compute gm].
    rewrite Hfw. rewrite countBy_nil, Gce_reportCounts_run.
    run_steps. rewrite bucketPoints_empty.
    cbn. by destruct (Timeseries_Write ms project _).
  - unfold Gce.ProcessNetworks. cbn [Gce.Project Gce.Compute gm].
    rewrite Hnet. rewrite Gce_reportTimeseries_run.
    cbn. by destruct (Timeseries_Write ms project _).
  - cbn [Custom.ProcessMetric Custom.FirewallRules Custom.Project Custom.Compute cm].
    rewrite Hfw. rewrite countBy_nil, Custom_reportCounts_run.
    by rewrite decide_True.
  - cbn [Custom.ProcessMetric Custom.Networks Custom.Project Custom.Compute cm].
    rewrite Hnet. run_steps.
    by rewrite (proj1 (returning_same _)).
Qed.

Lemma empty_list_labeled_vs_unlabeled_witness :
  gaugeSets (trace (Prom.processFirewallRules emptyHost "p")) = []
  ∧ gaugeSets (trace (Prom.processTargetPools emptyHost "p")) =
      [("gce_target_pools", [], 0)]
  ∧ observations (trace (Gce.ProcessFirewallRules sampleRuntime
                           {| Gce.Project := "p"; Gce.Compute := projectWith [];
                              Gce.Monitoring := acceptingSink |})) = []
  ∧ observations (trace (Gce.ProcessNetworks sampleRuntime
                           {| Gce.Project := "p"; Gce.Compute := projectWith [];
                              Gce.Monitoring := acceptingSink |})) =
      [unlabeledPoint sampleRuntime "p" "gce_networks" (DoubleValue 0)].
Proof.
  destruct (empty_list_labeled_vs_unlabeled emptyHost sampleRuntime
              (projectWith []) acceptingSink "p" "[]" "[]"
              eq_refl eq_refl eq_refl eq_refl eq_refl eq_refl)
    as (_ & H1 & H2 & H3 & H4 & _).
  exact (conj H1 (conj H2 (conj H3 H4))).
Defined.

(* ===================================================================== *)
(** ** The reporter, bucket by bucket                                      *)
(* ===================================================================== *)

Lemma bucketPoints_perm rt project name key mk (metrics : gmap string Z) :
  bucketPoints rt project name key mk metrics ≡ₚ
    (λ sc, labeledPoint rt project name key (mk sc.2) sc.1) <$> map_to_list metrics.
Proof. unfold bucketPoints. by rewrite (range_visits_all rt metrics). Qed.

Lemma bucketPoints_length rt project name key mk (metrics : gmap string Z) :
  length (bucketPoints rt project name key mk metrics) = size metrics.
Proof. unfold bucketPoints. by rewrite length_fmap, rangeOrder_length. Qed.

(** The interface-based variant sends one observation per bucket, in one
    write, and nothing at all for an empty count map. *)
Lemma Custom_reporter_one_per_bucket rt m name key (metrics : gmap string Z) :
  observations (trace (Custom.reportCounts rt m name key metrics)) ≡ₚ
    (λ sc, labeledPoint rt (Custom.Project m) name key (Int64Value sc.2) sc.1)
      <$> map_to_list metrics
  ∧ length (observations (trace (Custom.reportCounts rt m name key metrics))) =
      size metrics
  ∧ (metrics = ∅ → trace (Custom.reportCounts rt m name key metrics) = []).
Proof.
  rewrite Custom_reportCounts_run. destruct (decide (metrics = ∅)) as [->|Hne].
  - rewrite map_to_list_empty. done.
  - cbn zeta. run_steps.
    split; [apply bucketPoints_perm|].
    split; [apply bucketPoints_length|done].
Qed.

(** The variant of resource_metrics.go sends one observation per bucket as
    well, but its write goes out even when there is no bucket. *)
Lemma Gce_reporter_one_per_bucket rt m name key (metrics : gmap string Z) :
  observations (trace (Gce.reportCounts rt m name key metrics)) ≡ₚ
    (λ sc, labeledPoint rt (Gce.Project m) name key
             (DoubleValue (float64_of_int sc.2)) sc.1)
      <$> map_to_list metrics
  ∧ length (writes (trace (Gce.reportCounts rt m name key metrics))) = 1%nat.
Proof.
  rewrite Gce_reportCounts_run. cbn zeta. cbn [trace].
  rewrite observations_app, writes_app.
  set (err := Timeseries_Write _ _ _).
  assert (observations match err with
                       | Some e => [Log "Err: %v\n" [AErr (Some e)]]
                       | None => []
                       end = []) as -> by by destruct err.
  assert (writes match err with
                 | Some e => [Log "Err: %v\n" [AErr (Some e)]]
                 | None => []
                 end = []) as -> by by destruct err.
  run_steps. split; [apply bucketPoints_perm|done].
Qed.

(** C2 (as the code of resource_metrics.go has it). The labeled reporter of
    this variant has no guard for an empty batch: called with no values it
    still issues one write call, carrying zero points. A project without
    firewall rules takes [ProcessFirewallRules] there, a project without
    global addresses [ProcessIPAddresses]. The interface-based variant
    returns before the write. *)
Theorem Gce_empty_mapping_still_writes :
  (∀ rt m name labels,
     writes (trace (Gce.reportLabeledTimeseries rt m name [] labels)) =
       [ {| Timeseries := [] |} ])
  ∧ writes (trace (Gce.ProcessFirewallRules sampleRuntime
                     {| Gce.Project := "p"; Gce.Compute := projectWith [];
                        Gce.Monitoring := acceptingSink |})) =
      [ {| Timeseries := [] |} ]
  ∧ writes (trace (Gce.ProcessIPAddresses sampleRuntime
                     {| Gce.Project := "p"; Gce.Compute := projectWith threeFirewalls;
                        Gce.Monitoring := acceptingSink |})) =
      [ {| Timeseries := [] |} ]
  ∧ (∀ rt m name labels,
       trace (Custom.ReportLabeledTimeseries rt m name [] labels) = [])
  ∧ writes (trace (Custom.ProcessMetric Custom.FirewallRules sampleRuntime
                     {| Custom.Project := "p"; Custom.Compute := projectWith [];
                        Custom.Monitoring := acceptingSink |})) = [].
Proof.
  split; [intros; reflexivity|]. split; [reflexivity|]. split; [reflexivity|].
  split; [intros; by rewrite Custom_report_nothing|reflexivity].
Qed.

(** The order in which the runtime ranges over the count map decides the
    order of the points and nothing else. *)
Example iteration_order_only_reorders :
  observations
    (trace (Custom.ProcessMetric Custom.FirewallRules
              (reverseOrderRuntime "2016-01-01T00:00:00Z")
              {| Custom.Project := "p"; Custom.Compute := projectWith threeFirewalls;
                 Custom.Monitoring := acceptingSink |}))
  = reverse
      (observations
         (trace (Custom.ProcessMetric Custom.FirewallRules sampleRuntime
                   {| Custom.Project := "p";
                      Custom.Compute := projectWith threeFirewalls;
                      Custom.Monitoring := acceptingSink |}))).
Proof. reflexivity. Qed.

(* ===================================================================== *)
(** ** The scenario of three firewall rules on two networks                *)
(* ===================================================================== *)

(** C6. Firewall rules on networks a, a and b are counted as a: 2, b: 1, and
    both push variants send exactly the two observations (a, 2) and (b, 1),
    in either order. *)
Theorem three_firewalls_two_observations
    (rt : Runtime) (cs : ComputeService) (ms : MonitoringService)
    (project n1 n2 n3 : string) :
  let items := [ {| fw_Name := n1; fw_Network := "a" |};
                 {| fw_Name := n2; fw_Network := "a" |};
                 {| fw_Name := n3; fw_Network := "b" |} ] in
  Firewalls_List cs project = Ok items →
  Aggregate.countBy fw_Network items = {[ "a" := 2; "b" := 1 ]}
  ∧ observations
      (trace (Gce.ProcessFirewallRules rt
                {| Gce.Project := project; Gce.Compute := cs;
                   Gce.Monitoring := ms |}))
    ≡ₚ [ labeledPoint rt project "gce_firewall_rules" "network" (DoubleValue 2) "a";
         labeledPoint rt project "gce_firewall_rules" "network" (DoubleValue 1) "b" ]
  ∧ observations
      (trace (Custom.ProcessMetric Custom.FirewallRules rt
                {| Custom.Project := project; Custom.Compute := cs;
                   Custom.Monitoring := ms |}))
    ≡ₚ [ labeledPoint rt project "gce_firewall_rules" "network" (Int64Value 2) "a";
         labeledPoint rt project "gce_firewall_rules" "network" (Int64Value 1) "b" ].
Proof.
  intros items Hfw.
  assert (Aggregate.countBy fw_Network items = {[ "a" := 2; "b" := 1 ]}) as Hcount
    by reflexivity.
  assert (map_to_list ({[ "a" := 2; "b" := 1 ]} : gmap string Z)
          = [("a", 2); ("b", 1)]) as Hlist by reflexivity.
  split; [exact Hcount|]. split.
  - unfold Gce.ProcessFirewallRules. cbn [Gce.Project Gce.Compute].
    rewrite Hfw, Hcount. run_steps.
    destruct (Gce_reporter_one_per_bucket rt
                {| Gce.Project := project; Gce.Compute := cs; Gce.Monitoring := ms |}
                "gce_firewall_rules" "network" {[ "a" := 2; "b" := 1 ]}) as [Hobs _].
    rewrite Hobs, Hlist. reflexivity.
  - cbn [Custom.ProcessMetric Custom.FirewallRules Custom.Project Custom.Compute].
    rewrite Hfw, Hcount. run_steps.
    destruct (Custom_reporter_one_per_bucket rt
                {| Custom.Project := project; Custom.Compute := cs;
                   Custom.Monitoring := ms |}
                "gce_firewall_rules" "network" {[ "a" := 2; "b" := 1 ]}) as [Hobs _].
    rewrite Hobs, Hlist. reflexivity.
Qed.

Lemma three_firewalls_two_observations_witness :
  Firewalls_List (projectWith threeFirewalls) "p" = Ok threeFirewalls
  ∧ observations
      (trace (Custom.ProcessMetric Custom.FirewallRules sampleRuntime
                {| Custom.Project := "p"; Custom.Compute := projectWith threeFirewalls;
                   Custom.Monitoring := acceptingSink |}))
    ≡ₚ [ labeledPoint sampleRuntime "p" "gce_firewall_rules" "network"
           (Int64Value 2) "a";
         labeledPoint sampleRuntime "p" "gce_firewall_rules" "network"
           (Int64Value 1) "b" ].
Proof.
  split; [reflexivity|].
  apply (three_firewalls_two_observations sampleRuntime
           (projectWith threeFirewalls) acceptingSink "p" "f1" "f2" "f3" eq_refl).
Defined.

(* ===================================================================== *)
(** ** Label keys at registration and at report time                       *)
(* ===================================================================== *)

Lemma descriptor_label_keys project valueType metric :
  ld_Key <$> mdr_Labels (buildDescriptor project valueType metric)
  = customName <$> Labels metric.
Proof.
  unfold buildDescriptor. cbn [mdr_Labels]. case_decide as Hlen.
  - rewrite labelDescriptors_map, <- list_fmap_compose. reflexivity.
  - destruct (Labels metric); [done|].
    unfold len in Hlen. cbn [length] in Hlen. lia.
Qed.

Lemma reportsAs_labeled rt project name key value s :
  reportsAs name [key] (labeledPoint rt project name key value s).
Proof.
  split; [reflexivity|]. rewrite labelKeys_labeled. reflexivity.
Qed.

Lemma reportsAs_unlabeled rt project name keys value :
  reportsAs name keys (unlabeledPoint rt project name value).
Proof. split; [reflexivity|]. apply list_subseteq_nil. Qed.

Lemma Forall_bucketPoints rt project name key mk (metrics : gmap string Z) :
  Forall (reportsAs name [key]) (bucketPoints rt project name key mk metrics).
Proof.
  unfold bucketPoints. apply Forall_fmap, Forall_forall.
  intros [s c] _. apply reportsAs_labeled.
Qed.

Section custom_metrics.
Import Custom.
Context (rt : Runtime) (m : Monitor).

Lemma Custom_reportCounts_contract name key (metrics : gmap string Z) :
  is_Some (result (reportCounts rt m name key metrics))
  ∧ listCalls (trace (reportCounts rt m name key metrics)) = []
  ∧ exits (trace (reportCounts rt m name key metrics)) = []
  ∧ Forall (reportsAs name [key])
           (observations (trace (reportCounts rt m name key metrics))).
Proof.
  rewrite Custom_reportCounts_run. case_decide.
  - repeat split; [by eexists|constructor].
  - cbn zeta. run_steps.
    repeat split; [by eexists|apply Forall_bucketPoints].
Qed.

Lemma Custom_reportTimeseries_contract name keys v :
  is_Some (result (returning (ReportTimeseries rt m name v)))
  ∧ listCalls (trace (returning (ReportTimeseries rt m name v))) = []
  ∧ exits (trace (returning (ReportTimeseries rt m name v))) = []
  ∧ Forall (reportsAs name keys)
           (observations (trace (returning (ReportTimeseries rt m name v))))
  ∧ Forall (λ p, tsd_Labels (tp_TimeseriesDesc p) = None)
           (observations (trace (returning (ReportTimeseries rt m name v)))).
Proof.
  destruct (returning_same (ReportTimeseries rt m name v)) as [-> ->].
  rewrite Custom_reportTimeseries_run. cbn zeta. run_steps.
  repeat split; [by eexists| |].
  - repeat constructor. apply list_subseteq_nil.
  - by repeat constructor.
Qed.

End custom_metrics.

(** Splits a goal about a metric kind into the failed and the successful
    list call and steps to the report. *)
Ltac metric_cases fetch :=
  run_steps; destruct fetch; run_steps.

(** Every metric of [customMetrics] keeps the contract, under the name and
    the label keys of its own description. *)
Lemma Custom_metric_contract rt m cm api :
  (cm, api) ∈ zip Custom.customMetrics
                  [ "Firewalls.List"; "TargetPools.AggregatedList";
                    "ForwardingRules.AggregatedList"; "GlobalForwardingRules.List";
                    "Addresses.AggregatedList"; "GlobalAddresses.List";
                    "Networks.List"; "Routes.List" ] →
  metricContract api (Name (Custom.MetricDescription' cm))
                 (Labels (Custom.MetricDescription' cm))
                 (Custom.ProcessMetric cm rt m).
Proof.
  intros Hin. cbn [zip zip_with Custom.customMetrics] in Hin.
  rewrite !elem_of_cons, elem_of_nil in Hin.
  unfold metricContract.
  destruct_or!; try done; injection Hin as -> ->;
    cbn [Custom.ProcessMetric Custom.MetricDescription' Name Labels
         Custom.FirewallRules Custom.TargetPools Custom.ForwardingRules
         Custom.GlobalForwardingRules Custom.Addresses Custom.GlobalAddresses
         Custom.Networks Custom.Routes].
  - metric_cases (Firewalls_List (Custom.Compute m) (Custom.Project m)).
    + destruct (Custom_reportCounts_contract rt m "gce_firewall_rules" "network"
                  (Aggregate.countBy fw_Network a)) as (Hr & Hl & He & Ho).
      rewrite Hl, He. done.
    + repeat split; [by eexists|constructor].
  - metric_cases (TargetPools_AggregatedList (Custom.Compute m) (Custom.Project m)).
    + destruct (Custom_reportTimeseries_contract rt m "gce_target_pools" []
                  (int64_of_int (Z.of_nat (size a)))) as (Hr & Hl & He & Ho & _).
      rewrite Hl, He. done.
    + repeat split; [by eexists|constructor].
  - metric_cases (ForwardingRules_AggregatedList (Custom.Compute m) (Custom.Project m)).
    + destruct (Custom_reportTimeseries_contract rt m "gce_forwarding_rules" []
                  (int64_of_int (Z.of_nat (size a)))) as (Hr & Hl & He & Ho & _).
      rewrite Hl, He. done.
    + repeat split; [by eexists|constructor].
  - metric_cases (GlobalForwardingRules_List (Custom.Compute m) (Custom.Project m)).
    + destruct (Custom_reportTimeseries_contract rt m "gce_global_forwarding_rules" []
                  (int64_of_int (len a))) as (Hr & Hl & He & Ho & _).
      rewrite Hl, He. done.
    + repeat split; [by eexists|constructor].
  - metric_cases (Addresses_AggregatedList (Custom.Compute m) (Custom.Project m)).
    + match goal with
      | |- context [Custom.reportCounts rt m ?n ?k ?mm] =>
          destruct (Custom_reportCounts_contract rt m n k mm) as (Hr & Hl & He & Ho)
      end.
      rewrite Hl, He. done.
    + repeat split; [by eexists|constructor].
  - metric_cases (GlobalAddresses_List (Custom.Compute m) (Custom.Project m)).
    + destruct (Custom_reportCounts_contract rt m "gce_global_addresses" "status"
                  (Aggregate.countBy addr_Status a)) as (Hr & Hl & He & Ho).
      rewrite Hl, He. done.
    + repeat split; [by eexists|constructor].
  - metric_cases (Networks_List (Custom.Compute m) (Custom.Project m)).
    + destruct (Custom_reportTimeseries_contract rt m "gce_networks" ["network"]
                  (int64_of_int (len a))) as (Hr & Hl & He & Ho & _).
      rewrite Hl, He. done.
    + repeat split; [by eexists|constructor].
  - metric_cases (Routes_List (Custom.Compute m) (Custom.Project m)).
    + destruct (Custom_reportTimeseries_contract rt m "gce_routes" ["network"]
                  (int64_of_int (len a))) as (Hr & Hl & He & Ho & _).
      rewrite Hl, He. done.
    + repeat split; [by eexists|constructor].
Qed.

(* ===================================================================== *)
(** ** The scrape cycle of the interface-based variant                     *)
(* ===================================================================== *)

Section custom_cycle.
Import Custom.

(** The list call each metric of [customMetrics] makes. *)
Lemma customMetrics_api cm :
  cm ∈ customMetrics →
  ∃ api, (cm, api) ∈ zip customMetrics
                         [ "Firewalls.List"; "TargetPools.AggregatedList";
                           "ForwardingRules.AggregatedList";
                           "GlobalForwardingRules.List";
                           "Addresses.AggregatedList"; "GlobalAddresses.List";
                           "Networks.List"; "Routes.List" ].
Proof.
  unfold customMetrics. cbn [zip zip_with].
  rewrite !elem_of_cons, elem_of_nil. intros Hin.
  destruct_or!; try done; subst cm; eexists;
    rewrite !elem_of_cons; eauto 10.
Qed.

(** The inner loop body: the error of a metric, if any, ends in the log and
    nowhere else. *)
Lemma scrapeOne_run rt mon cm err :
  result (ProcessMetric cm rt mon) = Some err →
  scrapeOne rt mon cm =
    MkRun (trace (ProcessMetric cm rt mon)
             ++ match err with
                | Some e => [Log "ERROR: Error processing metric %s. Err: %v"
                               [AStr (Name (MetricDescription' cm)); AErr (Some e)]]
                | None => []
                end)
          (Some tt).
Proof.
  intros Hr. unfold scrapeOne. apply run_eq.
  destruct (bind_returns (ProcessMetric cm rt mon)
              (λ err, match err with
                      | Some e =>
                          logPrintf "ERROR: Error processing metric %s. Err: %v"
                            [AStr (Name (MetricDescription' cm)); AErr (Some e)]
                      | None => mret tt
                      end) err Hr) as [-> ->].
  by destruct err.
Qed.

Lemma scrapeOne_contract rt mon cm api :
  (cm, api) ∈ zip customMetrics
                  [ "Firewalls.List"; "TargetPools.AggregatedList";
                    "ForwardingRules.AggregatedList"; "GlobalForwardingRules.List";
                    "Addresses.AggregatedList"; "GlobalAddresses.List";
                    "Networks.List"; "Routes.List" ] →
  result (scrapeOne rt mon cm) = Some tt
  ∧ metricContract api (Name (MetricDescription' cm)) (Labels (MetricDescription' cm))
                   (scrapeOne rt mon cm).
Proof.
  intros Hin.
  destruct (Custom_metric_contract rt mon cm api Hin) as ([err Hr] & Hl & He & Ho).
  rewrite (scrapeOne_run rt mon cm err Hr). cbn [trace result].
  split; [done|]. unfold metricContract. cbn [trace result].
  rewrite listCalls_app, exits_app, observations_app, Hl, He.
  destruct err; run_steps; repeat split; eauto.
Qed.

Lemma scrapeOne_returns rt mon cm :
  cm ∈ customMetrics → result (scrapeOne rt mon cm) = Some tt.
Proof.
  intros Hin. destruct (customMetrics_api cm Hin) as [api Hapi].
  by destruct (scrapeOne_contract rt mon cm api Hapi).
Qed.

(** One cycle: the opening log line, the run of every metric in turn, the
    sleep. *)
Lemma scrapeCycle_run w i :
  scrapeCycle w i =
    MkRun (Log "INFO: Starting scrape loop." []
             :: (customMetrics ≫= λ cm,
                   trace (scrapeOne (runtimeAt w (S i)) (monitorAt w (S i)) cm))
             ++ [Sleep (flag_scrape_period w)])
          (Some tt).
Proof.
  unfold scrapeCycle. rewrite logPrintf_bind.
  destruct (forEach_returns
              (scrapeOne (runtimeAt w (S i)) (monitorAt w (S i))) customMetrics)
    as [Hr Ht]; [intros cm Hcm; by apply scrapeOne_returns|].
  destruct (bind_returns
              (forEach (scrapeOne (runtimeAt w (S i)) (monitorAt w (S i)))
                       customMetrics)
              (λ _, emit (Sleep (flag_scrape_period w))) tt Hr) as [-> ->].
  by rewrite Ht.
Qed.

(** The list calls of a sequence of runs, each of which makes its own. *)
Lemma listCalls_each {X} (f : X → list Event) (xs : list X) (apis : list string) :
  length xs = length apis →
  (∀ x api, (x, api) ∈ zip xs apis → listCalls (f x) = [api] ∧ exits (f x) = []) →
  listCalls (xs ≫= f) = apis ∧ exits (xs ≫= f) = [].
Proof.
  revert apis. induction xs as [|x xs IH]; intros [|api apis] Hlen Hall;
    try done.
  rewrite bind_cons, listCalls_app, exits_app.
  destruct (Hall x api) as [-> ->]; [by left|].
  destruct (IH apis) as [-> ->]; [cbn [length] in Hlen; lia| |done].
  intros y a Hin. apply Hall. by right.
Qed.

Lemma scrapeCycle_listCalls w i :
  listCalls (trace (scrapeCycle w i)) =
    [ "Firewalls.List"; "TargetPools.AggregatedList";
      "ForwardingRules.AggregatedList"; "GlobalForwardingRules.List";
      "Addresses.AggregatedList"; "GlobalAddresses.List";
      "Networks.List"; "Routes.List" ]
  ∧ exits (trace (scrapeCycle w i)) = [].
Proof.
  rewrite scrapeCycle_run. cbn [trace]. run_steps.
  rewrite listCalls_app, exits_app.
  destruct (listCalls_each
              (λ cm, trace (scrapeOne (runtimeAt w (S i)) (monitorAt w (S i)) cm))
              customMetrics
              [ "Firewalls.List"; "TargetPools.AggregatedList";
                "ForwardingRules.AggregatedList"; "GlobalForwardingRules.List";
                "Addresses.AggregatedList"; "GlobalAddresses.List";
                "Networks.List"; "Routes.List" ]) as [-> ->]; [done| |done].
  intros cm api Hin.
  by destruct (scrapeOne_contract (runtimeAt w (S i)) (monitorAt w (S i)) cm api Hin)
    as (_ & _ & Hl & He & _).
Qed.

(** Any number of cycles: the loop goes on, and every cycle makes all its
    list calls. *)
Lemma scrapeLoop_run w i n :
  result (scrapeLoop w i n) = Some tt
  ∧ exits (trace (scrapeLoop w i n)) = []
  ∧ length (listCalls (trace (scrapeLoop w i n))) = (8 * n)%nat.
Proof.
  revert i. induction n as [|n IH]; intros i; [done|].
  cbn [scrapeLoop]. destruct (IH (S i)) as (IHr & IHe & IHl).
  destruct (scrapeCycle_listCalls w i) as [Hl He].
  rewrite scrapeCycle_run in *. rewrite mkrun_bind. cbn [trace result] in *.
  rewrite exits_app, listCalls_app, !length_app.
  rewrite IHr, IHe, IHl, Hl, He. cbn [length]. repeat split; lia.
Qed.

End custom_cycle.

(* ===================================================================== *)
(** ** The scrape cycle of the Prometheus variant                          *)
(* ===================================================================== *)

Section prom_cycle.
Import Prom.
Context (h : Host) (project : string).

Lemma labeled_gauges name (its : list (string * Z)) :
  listCalls ((λ sc, GaugeSet name [sc.1] (float64_of_int sc.2)) <$> its) = []
  ∧ exits ((λ sc, GaugeSet name [sc.1] (float64_of_int sc.2)) <$> its) = []
  ∧ gaugeSets ((λ sc, GaugeSet name [sc.1] (float64_of_int sc.2)) <$> its)
    = (λ sc, (name, [sc.1], float64_of_int sc.2)) <$> its.
Proof.
  induction its as [|[s c] its (IHl & IHe & IHg)]; [done|].
  rewrite !fmap_cons. run_steps. by rewrite IHl, IHe, IHg.
Qed.

(** Splits on the answer of [gcloud] and on the answer of the decoder. *)
Ltac gcloud_cases resource decode :=
  unfold gaugeContract;
  rewrite getRawResource_run; run_steps;
  destruct (gcloud h (gcloudArgs project resource)) as [out [e|]]; run_steps;
  [ | destruct (decode h out); run_steps ];
  try (repeat split; by repeat constructor).

Lemma processFirewallRules_contract :
  gaugeContract "firewall-rules" "gce_firewall_rules"
                (processFirewallRules h project).
Proof.
  unfold processFirewallRules. gcloud_cases "firewall-rules" unmarshalFirewalls.
  rewrite forEach_gaugeSet. run_steps.
  destruct (labeled_gauges "gce_firewall_rules"
              (rangeOrder (runtime h) (Aggregate.countBy fw_Network a)))
    as (-> & -> & ->).
  repeat split. apply Forall_fmap, Forall_forall. done.
Qed.

Lemma processAddresses_contract :
  gaugeContract "addresses" "gce_ip_addresses" (processAddresses h project).
Proof.
  unfold processAddresses. gcloud_cases "addresses" unmarshalAddresses.
  rewrite forEach_gaugeSet. run_steps.
  destruct (labeled_gauges "gce_ip_addresses"
              (rangeOrder (runtime h) (Aggregate.countBy addr_Status a)))
    as (-> & -> & ->).
  repeat split. apply Forall_fmap, Forall_forall. done.
Qed.

Lemma processTargetPools_contract :
  gaugeContract "target-pools" "gce_target_pools" (processTargetPools h project).
Proof. unfold processTargetPools. gcloud_cases "target-pools" unmarshalTargetPools. Qed.

Lemma processForwadingRules_contract :
  gaugeContract "forwarding-rules" "gce_forwarding_rules"
                (processForwadingRules h project).
Proof.
  unfold processForwadingRules.
  gcloud_cases "forwarding-rules" unmarshalForwardingRules.
Qed.

Lemma processNetworks_contract :
  gaugeContract "networks" "gce_networks" (processNetworks h project).
Proof. unfold processNetworks. gcloud_cases "networks" unmarshalNetworks. Qed.

Lemma processRoutes_contract :
  gaugeContract "routes" "gce_routes" (processRoutes h project).
Proof. unfold processRoutes. gcloud_cases "routes" unmarshalRoutes. Qed.

(** A failed fetch or decode of the routes is logged and sets no gauge. *)
Lemma processRoutes_failure :
  (∀ out e, gcloud h (gcloudArgs project "routes") = (out, Some e) →
     processRoutes h project =
       MkRun [ Log "Running: gcloud %s" [AArgs (gcloudArgs project "routes")];
               Exec "gcloud" (gcloudArgs project "routes");
               Log "WARN: Error fetching routes(%v): %s\n" [AErr (Some e); AStr out] ]
             (Some tt))
  ∧ (∀ out e, gcloud h (gcloudArgs project "routes") = (out, None) →
       unmarshalRoutes h out = Err e →
       processRoutes h project =
         MkRun [ Log "Running: gcloud %s" [AArgs (gcloudArgs project "routes")];
                 Exec "gcloud" (gcloudArgs project "routes");
                 Log "WARN: Error json decoding routes: %v\n" [AErr (Some e)] ]
               (Some tt)).
Proof.
  split; intros out e Hg; [|intros Hd]; unfold processRoutes;
    rewrite getRawResource_run, Hg; run_steps; [done|].
  rewrite Hd. reflexivity.
Qed.

Lemma Prom_scrapeCycle_run period :
  result (scrapeCycle h project period) = Some tt
  ∧ listCalls (trace (scrapeCycle h project period)) =
      [ "firewall-rules"; "forwarding-rules"; "target-pools"; "routes";
        "networks"; "addresses" ]
  ∧ exits (trace (scrapeCycle h project period)) = []
  ∧ trace (scrapeCycle h project period) =
      Log "INFO: Starting scrape loop." []
        :: trace (processFirewallRules h project)
        ++ trace (processForwadingRules h project)
        ++ trace (processTargetPools h project)
        ++ trace (processRoutes h project)
        ++ trace (processNetworks h project)
        ++ trace (processAddresses h project)
        ++ [Sleep period].
Proof.
  destruct processFirewallRules_contract as (R1 & L1 & E1 & _).
  destruct processForwadingRules_contract as (R2 & L2 & E2 & _).
  destruct processTargetPools_contract as (R3 & L3 & E3 & _).
  destruct processRoutes_contract as (R4 & L4 & E4 & _).
  destruct processNetworks_contract as (R5 & L5 & E5 & _).
  destruct processAddresses_contract as (R6 & L6 & E6 & _).
  unfold scrapeCycle.
  rewrite logPrintf_bind, (seq_returns _ _ R1), (seq_returns _ _ R2),
    (seq_returns _ _ R3), (seq_returns _ _ R4), (seq_returns _ _ R5),
    (seq_returns _ _ R6).
  cbn [trace result emit]. run_steps.
  rewrite !listCalls_app, !exits_app, L1, L2, L3, L4, L5, L6, E1, E2, E3, E4, E5, E6.
  done.
Qed.

End prom_cycle.

Lemma Prom_runScraper_run hostAt project period i n :
  result (Prom.runScraper hostAt project period i n) = Some tt
  ∧ exits (trace (Prom.runScraper hostAt project period i n)) = []
  ∧ length (listCalls (trace (Prom.runScraper hostAt project period i n)))
    = (6 * n)%nat.
Proof.
  revert i. induction n as [|n IH]; intros i; [done|].
  cbn [Prom.runScraper]. destruct (IH (S i)) as (IHr & IHe & IHl).
  destruct (Prom_scrapeCycle_run (hostAt i) project period) as (Hr & Hl & He & _).
  rewrite (seq_returns _ _ Hr). cbn [trace result].
  rewrite exits_app, listCalls_app, !length_app.
  rewrite IHr, IHe, IHl, Hl, He. cbn [length]. repeat split; lia.
Qed.

(* ===================================================================== *)
(** ** The scrape cycle of resource_metrics.go                             *)
(* ===================================================================== *)

Section gce_cycle.
Import Gce.
Context (rt : Runtime) (m : Monitor).

Lemma Gce_reportCounts_contract name key (metrics : gmap string Z) :
  result (reportCounts rt m name key metrics) = Some tt
  ∧ listCalls (trace (reportCounts rt m name key metrics)) = []
  ∧ exits (trace (reportCounts rt m name key metrics)) = []
  ∧ Forall (reportsAs name [key])
           (observations (trace (reportCounts rt m name key metrics))).
Proof.
  rewrite Gce_reportCounts_run. cbn zeta. cbn [trace result].
  destruct (Timeseries_Write _ _ _); run_steps;
    repeat split; apply Forall_bucketPoints.
Qed.

Lemma Gce_reportTimeseries_contract name keys v :
  result (logging (reportTimeseries rt m name v)) = Some tt
  ∧ listCalls (trace (logging (reportTimeseries rt m name v))) = []
  ∧ exits (trace (logging (reportTimeseries rt m name v))) = []
  ∧ Forall (reportsAs name keys)
           (observations (trace (logging (reportTimeseries rt m name v)))).
Proof.
  rewrite Gce_reportTimeseries_run. cbn zeta. cbn [trace result].
  destruct (Timeseries_Write _ _ _); run_steps;
    repeat split; repeat constructor; apply list_subseteq_nil.
Qed.

(** Finishes a metric kind from the contract of its report. *)
Ltac by_report H :=
  destruct H as (Hr & Hl & He & Ho);
  unfold metricContract; rewrite ?Hr; run_steps; rewrite ?Hl, ?He;
  repeat split; eauto.

Ltac failed_call :=
  unfold metricContract; repeat split; eauto; constructor.

Lemma ProcessFirewallRules_contract :
  metricContract "Firewalls.List" "gce_firewall_rules" ["network"]
                 (ProcessFirewallRules rt m).
Proof.
  unfold ProcessFirewallRules.
  metric_cases (Firewalls_List (Compute m) (Project m)); [|failed_call].
  by_report (Gce_reportCounts_contract "gce_firewall_rules" "network"
               (Aggregate.countBy fw_Network a)).
Qed.

Lemma ProcessIPAddresses_contract :
  metricContract "GlobalAddresses.List" "gce_ip_addresses" ["status"]
                 (ProcessIPAddresses rt m).
Proof.
  unfold ProcessIPAddresses.
  metric_cases (GlobalAddresses_List (Compute m) (Project m)); [|failed_call].
  by_report (Gce_reportCounts_contract "gce_ip_addresses" "status"
               (Aggregate.countBy addr_Status a)).
Qed.

Lemma ProcessForwardingRules_contract :
  metricContract "GlobalForwardingRules.List" "gce_forwarding_rules" []
                 (ProcessForwardingRules rt m).
Proof.
  unfold ProcessForwardingRules.
  metric_cases (GlobalForwardingRules_List (Compute m) (Project m)); [|failed_call].
  by_report (Gce_reportTimeseries_contract "gce_forwarding_rules" []
               (float64_of_int (len a))).
Qed.

Lemma ProcessNetworks_contract :
  metricContract "Networks.List" "gce_networks" ["network"] (ProcessNetworks rt m).
Proof.
  unfold ProcessNetworks.
  metric_cases (Networks_List (Compute m) (Project m)); [|failed_call].
  by_report (Gce_reportTimeseries_contract "gce_networks" ["network"]
               (float64_of_int (len a))).
Qed.

Lemma ProcessRoutes_contract :
  metricContract "Routes.List" "gce_routes" ["network"] (ProcessRoutes rt m).
Proof.
  unfold ProcessRoutes.
  metric_cases (Routes_List (Compute m) (Project m)); [|failed_call].
  by_report (Gce_reportTimeseries_contract "gce_routes" ["network"]
               (float64_of_int (len a))).
Qed.

Lemma ProcessTargetPools_contract :
  metricContract "TargetPools.AggregatedList" "gce_target_pools" []
                 (ProcessTargetPools rt m).
Proof.
  unfold ProcessTargetPools.
  metric_cases (TargetPools_AggregatedList (Compute m) (Project m)); [|failed_call].
  by_report (Gce_reportTimeseries_contract "gce_target_pools" []
               (float64_of_int (Z.of_nat (size a)))).
Qed.

End gce_cycle.

Lemma contract_returns api name keys (r : Run unit) :
  metricContract api name keys r → result r = Some tt.
Proof. intros ([[] Hr] & _). done. Qed.

Lemma declared_metric name description labels p :
  {| Name := name; Description := description; Labels := labels |}
    ∈ Gce.metricDescriptions →
  reportsAs name labels p →
  ∃ metric, metric ∈ Gce.metricDescriptions
            ∧ reportsAs (Name metric) (Labels metric) p.
Proof. intros Hin Hp. eexists. split; [exact Hin|exact Hp]. Qed.

(** One cycle of resource_metrics.go: all six kinds run, whatever each of
    them met, and each observation belongs to a declared metric. *)
Lemma Gce_scrapeCycle_run w i :
  result (Gce.scrapeCycle w i) = Some tt
  ∧ listCalls (trace (Gce.scrapeCycle w i)) =
      [ "Firewalls.List"; "GlobalAddresses.List"; "GlobalForwardingRules.List";
        "Networks.List"; "Routes.List"; "TargetPools.AggregatedList" ]
  ∧ exits (trace (Gce.scrapeCycle w i)) = []
  ∧ Forall (λ p, ∃ metric, metric ∈ Gce.metricDescriptions
                            ∧ reportsAs (Name metric) (Labels metric) p)
           (observations (trace (Gce.scrapeCycle w i))).
Proof.
  pose proof (ProcessFirewallRules_contract (Gce.runtimeAt w (S i))
                (Gce.monitorAt w (S i))) as C1.
  pose proof (ProcessIPAddresses_contract (Gce.runtimeAt w (S i))
                (Gce.monitorAt w (S i))) as C2.
  pose proof (ProcessForwardingRules_contract (Gce.runtimeAt w (S i))
                (Gce.monitorAt w (S i))) as C3.
  pose proof (ProcessNetworks_contract (Gce.runtimeAt w (S i))
                (Gce.monitorAt w (S i))) as C4.
  pose proof (ProcessRoutes_contract (Gce.runtimeAt w (S i))
                (Gce.monitorAt w (S i))) as C5.
  pose proof (ProcessTargetPools_contract (Gce.runtimeAt w (S i))
                (Gce.monitorAt w (S i))) as C6.
  unfold Gce.scrapeCycle.
  rewrite logPrintf_bind,
    (seq_returns _ _ (contract_returns _ _ _ _ C1)),
    (seq_returns _ _ (contract_returns _ _ _ _ C2)),
    (seq_returns _ _ (contract_returns _ _ _ _ C3)),
    (seq_returns _ _ (contract_returns _ _ _ _ C4)),
    (seq_returns _ _ (contract_returns _ _ _ _ C5)),
    (seq_returns _ _ (contract_returns _ _ _ _ C6)).
  destruct C1 as (_ & L1 & E1 & O1), C2 as (_ & L2 & E2 & O2),
    C3 as (_ & L3 & E3 & O3), C4 as (_ & L4 & E4 & O4),
    C5 as (_ & L5 & E5 & O5), C6 as (_ & L6 & E6 & O6).
  cbn [trace result emit]. run_steps.
  rewrite !listCalls_app, !exits_app, !observations_app,
    L1, L2, L3, L4, L5, L6, E1, E2, E3, E4, E5, E6.
  repeat split. run_steps.
  repeat (apply Forall_app; split);
    (eapply Forall_impl; [eassumption|]);
    intros p Hp; (eapply declared_metric; [|exact Hp]);
    unfold Gce.metricDescriptions;
    repeat first [ apply list_elem_of_here | apply list_elem_of_further ].
Qed.

Lemma Gce_scrapeLoop_run w i n :
  result (Gce.scrapeLoop w i n) = Some tt
  ∧ exits (trace (Gce.scrapeLoop w i n)) = []
  ∧ length (listCalls (trace (Gce.scrapeLoop w i n))) = (6 * n)%nat.
Proof.
  revert i. induction n as [|n IH]; intros i; [done|].
  cbn [Gce.scrapeLoop]. destruct (IH (S i)) as (IHr & IHe & IHl).
  destruct (Gce_scrapeCycle_run w i) as (Hr & Hl & He & _).
  rewrite (seq_returns _ _ Hr). cbn [trace result].
  rewrite exits_app, listCalls_app, !length_app.
  rewrite IHr, IHe, IHl, Hl, He. cbn [length]. repeat split; lia.
Qed.

(* ===================================================================== *)
(** ** Label keys: registration against report                             *)
(* ===================================================================== *)

Lemma lookup_fixLabels rt (ls : gmap string string) (fixed : gmap string string) :
  fixLabels rt (Some ls) = Some fixed →
  (∀ l, fixed !! customName l = ls !! l)
  ∧ (∀ k, is_Some (fixed !! k) → ∃ l, k = customName l ∧ is_Some (ls !! l)).
Proof.
  rewrite fixLabels_kmap. intros [= <-]. split.
  - intros l. apply (lookup_kmap customName).
  - intros k [v Hk]. apply (lookup_kmap_Some customName) in Hk as (l & -> & Hl).
    by exists l.
Qed.

(** C7. The label keys of an observation are the keys of registration: both
    are the custom-metric prefix followed by the plain label name. The
    translation of the reporter renames every key so and keeps every value;
    and whatever a metric of either push variant reports carries only keys
    that its own descriptor declared. *)
Theorem label_keys_match_registration :
  (∀ project valueType metric,
     ld_Key <$> mdr_Labels (buildDescriptor project valueType metric)
     = (λ l, customPrefix +:+ l) <$> Labels metric)
  ∧ fixLabels sampleRuntime None = None
  ∧ (∀ rt (ls : gmap string string),
       ∃ fixed : gmap string string,
         fixLabels rt (Some ls) = Some fixed
         ∧ (∀ l, fixed !! (customPrefix +:+ l) = ls !! l)
         ∧ (∀ k, is_Some (fixed !! k) →
                 ∃ l, k = customPrefix +:+ l ∧ is_Some (ls !! l)))
  ∧ (∀ rt m cm p k,
       cm ∈ Custom.customMetrics →
       p ∈ observations (trace (Custom.ProcessMetric cm rt m)) →
       k ∈ labelKeys p →
       k ∈ ld_Key <$> mdr_Labels (buildDescriptor (Custom.Project m) "int64"
                                    (Custom.MetricDescription' cm)))
  ∧ (∀ w i p k,
       p ∈ observations (trace (Gce.scrapeCycle w i)) →
       k ∈ labelKeys p →
       ∃ metric,
         metric ∈ Gce.metricDescriptions
         ∧ tsd_Metric (tp_TimeseriesDesc p)
           = mdr_Name (buildDescriptor (Gce.flag_project w) "double" metric)
         ∧ k ∈ ld_Key <$> mdr_Labels (buildDescriptor (Gce.flag_project w)
                                        "double" metric)).
Proof.
  split; [apply descriptor_label_keys|]. split; [reflexivity|]. split; [|split].
  - intros rt ls. exists (kmap customName ls). split; [apply fixLabels_kmap|].
    apply (lookup_fixLabels rt), fixLabels_kmap.
  - intros rt m cm p k Hcm Hp Hk.
    destruct (customMetrics_api cm Hcm) as [api Hapi].
    destruct (Custom_metric_contract rt m cm api Hapi) as (_ & _ & _ & Ho).
    rewrite Forall_forall in Ho. destruct (Ho p Hp) as [_ Hkeys].
    rewrite descriptor_label_keys. by apply Hkeys.
  - intros w i p k Hp Hk.
    destruct (Gce_scrapeCycle_run w i) as (_ & _ & _ & Ho).
    rewrite Forall_forall in Ho.
    destruct (Ho p Hp) as (metric & Hin & Hname & Hkeys).
    exists metric. rewrite descriptor_label_keys.
    split; [done|]. split; [exact Hname|by apply Hkeys].
Qed.

(* ===================================================================== *)
(** ** The networks and routes metrics of the interface-based variant      *)
(* ===================================================================== *)

(** C10. [gce_networks] and [gce_routes] are declared with the label key
    "network", registered under its namespaced form, and yet every
    observation they send goes through the unlabeled report and carries no
    label map. *)
Theorem networks_and_routes_never_labeled :
  Labels (Custom.MetricDescription' Custom.Networks) = ["network"]
  ∧ Labels (Custom.MetricDescription' Custom.Routes) = ["network"]
  ∧ (∀ project,
       ld_Key <$> mdr_Labels (buildDescriptor project "int64"
                                (Custom.MetricDescription' Custom.Networks))
       = [customName "network"]
       ∧ ld_Key <$> mdr_Labels (buildDescriptor project "int64"
                                  (Custom.MetricDescription' Custom.Routes))
         = [customName "network"])
  ∧ (∀ rt m name value,
       Custom.ReportTimeseries rt m name value
       = Custom.ReportLabeledTimeseries rt m name [value] []
       ∧ observations (trace (Custom.ReportTimeseries rt m name value))
         = [unlabeledPoint rt (Custom.Project m) name (Int64Value value)])
  ∧ (∀ rt m,
       Forall (λ p, tsd_Labels (tp_TimeseriesDesc p) = None)
              (observations (trace (Custom.ProcessMetric Custom.Networks rt m)))
       ∧ Forall (λ p, tsd_Labels (tp_TimeseriesDesc p) = None)
                (observations (trace (Custom.ProcessMetric Custom.Routes rt m)))).
Proof.
  split; [reflexivity|]. split; [reflexivity|]. split; [by intros; split|].
  split; [by intros; split|].
  intros rt m. split.
  - cbn [Custom.ProcessMetric Custom.Networks].
    metric_cases (Networks_List (Custom.Compute m) (Custom.Project m));
      [|constructor].
    by destruct (Custom_reportTimeseries_contract rt m "gce_networks" []
                   (int64_of_int (len a))) as (_ & _ & _ & _ & Hn).
  - cbn [Custom.ProcessMetric Custom.Routes].
    metric_cases (Routes_List (Custom.Compute m) (Custom.Project m));
      [|constructor].
    by destruct (Custom_reportTimeseries_contract rt m "gce_routes" []
                   (int64_of_int (len a))) as (_ & _ & _ & _ & Hn).
Qed.

(* ===================================================================== *)
(** ** Startup: the project flag and registration                          *)
(* ===================================================================== *)

Lemma requireProject_run project :
  requireProject project =
    if decide (project = "")
    then MkRun [Log "Error: Empty project. A project name must be specified." [];
                Exit 1] None
    else mret tt.
Proof. reflexivity. Qed.

Lemma before_scraping_app tr1 tr2 :
  before_scraping tr1 → before_scraping tr2 → before_scraping (tr1 ++ tr2).
Proof.
  intros (L1 & W1 & G1) (L2 & W2 & G2). unfold before_scraping.
  by rewrite listCalls_app, writes_app, gaugeSets_app, L1, L2, W1, W2, G1, G2.
Qed.

(** The startup checks either pass silently or exit with status 1. *)
Lemma Custom_startup_run w :
  (Custom.startup w = mret tt ∧ Custom.flag_project w ≠ "")
  ∨ (result (Custom.startup w) = None
     ∧ exits (trace (Custom.startup w)) = [1]
     ∧ before_scraping (trace (Custom.startup w))).
Proof.
  unfold Custom.startup. rewrite requireProject_run.
  case_decide; [by right|].
  destruct (Custom.google_DefaultClient w); [by right|].
  destruct (Custom.compute_New w); [by right|].
  destruct (Custom.cloudmonitoring_New w); [by right|by left].
Qed.

Lemma Gce_startup_run w :
  (Gce.startup w = mret tt ∧ Gce.flag_project w ≠ "")
  ∨ (result (Gce.startup w) = None
     ∧ exits (trace (Gce.startup w)) = [1]
     ∧ before_scraping (trace (Gce.startup w))).
Proof.
  unfold Gce.startup. rewrite requireProject_run.
  case_decide; [by right|].
  destruct (Gce.google_DefaultClient w); [by right|].
  destruct (Gce.compute_New w); [by right|].
  destruct (Gce.cloudmonitoring_New w); [by right|by left].
Qed.

(** Registering one descriptor: accepted and logged, or fatal. *)
Lemma createMetricDescriptor_run m metric :
  Custom.createMetricDescriptor m metric =
    let md := buildDescriptor (Custom.Project m) "int64" metric in
    match MetricDescriptors_Create (Custom.Monitoring m) (Custom.Project m) md with
    | Some err =>
        MkRun [ CreateDescriptor (Custom.Project m) md;
                Log "Error creating firewall metric: %v" [AErr (Some err)];
                Exit 1 ] None
    | None =>
        MkRun [ CreateDescriptor (Custom.Project m) md;
                Log "Created metric: %s\n" [AResp] ] (Some tt)
    end.
Proof.
  unfold Custom.createMetricDescriptor. cbn zeta.
  by destruct (MetricDescriptors_Create _ _ _).
Qed.

(** A registration loop that meets a rejected descriptor exits with status 1
    before anything is scraped. *)
Lemma registration_exits {X} (register : X → Run unit) (xs : list X) x :
  (∀ z, (result (register z) = Some tt
         ∧ exits (trace (register z)) = []
         ∧ before_scraping (trace (register z)))
        ∨ (result (register z) = None
           ∧ exits (trace (register z)) = [1]
           ∧ before_scraping (trace (register z)))) →
  x ∈ xs → result (register x) = None →
  result (forEach register xs) = None
  ∧ exits (trace (forEach register xs)) = [1]
  ∧ before_scraping (trace (forEach register xs)).
Proof.
  intros Hreg Hx Hexit.
  destruct (forEach_exits register xs x Hx Hexit)
    as (ys & y & _ & Hys & Hy & ->).
  cbn [trace result]. split; [done|].
  assert (exits (ys ≫= λ z, trace (register z)) = []
          ∧ before_scraping (ys ≫= λ z, trace (register z))) as [He Hb].
  { clear Hx Hexit Hy. induction Hys as [|z ys Hz _ [IHe IHb]]; [done|].
    rewrite bind_cons, exits_app, IHe.
    destruct (Hreg z) as [(_ & Hze & Hzb)|(Hzr & _)]; [|congruence].
    rewrite Hze. split; [done|by apply before_scraping_app]. }
  destruct (Hreg y) as [(Hyr & _)|(_ & Hye & Hyb)]; [congruence|].
  rewrite exits_app, He, Hye. split; [done|by apply before_scraping_app].
Qed.

Lemma Custom_register_cases m metric :
  (result (Custom.createMetricDescriptor m metric) = Some tt
   ∧ exits (trace (Custom.createMetricDescriptor m metric)) = []
   ∧ before_scraping (trace (Custom.createMetricDescriptor m metric)))
  ∨ (result (Custom.createMetricDescriptor m metric) = None
     ∧ exits (trace (Custom.createMetricDescriptor m metric)) = [1]
     ∧ before_scraping (trace (Custom.createMetricDescriptor m metric))).
Proof.
  rewrite createMetricDescriptor_run. cbn zeta.
  destruct (MetricDescriptors_Create _ _ _); [by right|by left].
Qed.

(** The body of the loop of [Gce.CreateMetricDescriptors]. *)
Lemma Gce_register_cases (m : Gce.Monitor) metric :
  let register metric :=
    (let md := buildDescriptor (Gce.Project m) "double" metric in
     emit (CreateDescriptor (Gce.Project m) md) ;;
     match MetricDescriptors_Create (Gce.Monitoring m) (Gce.Project m) md with
     | Some err => logFatalf "Error creating firewall metric: %v" [AErr (Some err)]
     | None => logPrintf "Created metric: %s\n" [AResp]
     end) : Run unit in
  (result (register metric) = Some tt
   ∧ exits (trace (register metric)) = []
   ∧ before_scraping (trace (register metric)))
  ∨ (result (register metric) = None
     ∧ exits (trace (register metric)) = [1]
     ∧ before_scraping (trace (register metric))).
Proof.
  intros register. unfold register. rewrite emit_bind.
  destruct (MetricDescriptors_Create _ _ _); [by right|by left].
Qed.

(** C8. When the monitoring API rejects the descriptor of any declared
    metric at startup, [main] exits with status 1: it never returns to its
    loop, and no list call, write or gauge update happens, however many
    cycles one waits for; so in both push variants. *)
Theorem registration_failure_is_fatal
    (cw : Custom.World) (gw : Gce.World) (n : nat)
    (cm : Custom.CustomGaugeMetric) (metric : MetricDescription) (e1 e2 : error) :
  cm ∈ Custom.customMetrics →
  MetricDescriptors_Create (Custom.monitoringAt cw 0) (Custom.flag_project cw)
    (buildDescriptor (Custom.flag_project cw) "int64" (Custom.MetricDescription' cm))
  = Some e1 →
  metric ∈ Gce.metricDescriptions →
  MetricDescriptors_Create (Gce.monitoringAt gw 0) (Gce.flag_project gw)
    (buildDescriptor (Gce.flag_project gw) "double" metric)
  = Some e2 →
  (result (Custom.main cw n) = None
   ∧ exits (trace (Custom.main cw n)) = [1]
   ∧ before_scraping (trace (Custom.main cw n)))
  ∧ (result (Gce.main gw n) = None
     ∧ exits (trace (Gce.main gw n)) = [1]
     ∧ before_scraping (trace (Gce.main gw n))).
Proof.
  intros Hcm Hc Hmetric Hg. split.
  - unfold Custom.main.
    destruct (Custom_startup_run cw) as [[Hs _]|(Hr & He & Hb)].
    + rewrite Hs, mret_bind.
      destruct (registration_exits
                  (λ m, Custom.createMetricDescriptor (Custom.monitorAt cw 0)
                          (Custom.MetricDescription' m))
                  Custom.customMetrics cm) as (Hr & He & Hb).
      * intros z. apply Custom_register_cases.
      * exact Hcm.
      * rewrite createMetricDescriptor_run. cbn zeta.
        cbn [Custom.monitorAt Custom.Project Custom.Monitoring]. by rewrite Hc.
      * fold (Custom.registerAll cw) in Hr, He, Hb.
        destruct (bind_exits (Custom.registerAll cw)
                    (λ _, Custom.scrapeLoop cw 0 n) Hr) as [Ht Hres].
        cbn [trace result]. by rewrite Ht, Hres.
    + destruct (bind_exits (Custom.startup cw)
                  (λ _, Custom.registerAll cw ;; Custom.scrapeLoop cw 0 n) Hr)
        as [Ht Hres].
      by rewrite Ht, Hres.
  - unfold Gce.main.
    destruct (Gce_startup_run gw) as [[Hs _]|(Hr & He & Hb)].
    + rewrite Hs, mret_bind. unfold Gce.CreateMetricDescriptors.
      match goal with
      | |- context [forEach ?body Gce.metricDescriptions] =>
          destruct (registration_exits body Gce.metricDescriptions metric)
            as (Hr & He & Hb)
      end.
      * intros z. apply (Gce_register_cases (Gce.monitorAt gw 0) z).
      * exact Hmetric.
      * cbn zeta. cbn [Gce.monitorAt Gce.Project Gce.Monitoring].
        rewrite emit_bind, Hg. reflexivity.
      * match goal with
        | |- context [forEach ?body Gce.metricDescriptions ≫= ?k] =>
            destruct (bind_exits (forEach body Gce.metricDescriptions) k Hr)
              as [Ht Hres]
        end.
        cbn [trace result]. by rewrite Ht, Hres.
    + destruct (bind_exits (Gce.startup gw)
                  (λ _, Gce.CreateMetricDescriptors (Gce.monitorAt gw 0)
                          Gce.metricDescriptions ;; Gce.scrapeLoop gw 0 n) Hr)
        as [Ht Hres].
      by rewrite Ht, Hres.
Qed.

Lemma registration_failure_is_fatal_witness :
  result (Custom.main rejectedCustomWorld 2) = None
  ∧ exits (trace (Custom.main rejectedCustomWorld 2)) = [1]
  ∧ result (Gce.main rejectedGceWorld 2) = None
  ∧ exits (trace (Gce.main rejectedGceWorld 2)) = [1].
Proof.
  destruct (registration_failure_is_fatal rejectedCustomWorld rejectedGceWorld 2
              Custom.FirewallRules
              {| Name := "gce_firewall_rules";
                 Description :=
                   "Count of firewall rules in the project, labeled by network";
                 Labels := ["network"] |}
              "permission denied" "permission denied"
              (list_elem_of_here _ _) eq_refl (list_elem_of_here _ _) eq_refl)
    as [(H1 & H2 & _) (H3 & H4 & _)].
  exact (conj H1 (conj H2 (conj H3 H4))).
Defined.

(** C9. With an empty project flag every variant prints the error and exits
    with status 1 as its first and only act: no registration, no server, no
    scrape. With any other project the check returns silently, and the
    Prometheus variant goes on to register its gauges and to scrape. *)
Theorem empty_project_is_fatal :
  (∀ w n, Prom.flag_project w = "" →
     Prom.main w n =
       MkRun [Log "Error: Empty project. A project name must be specified." [];
              Exit 1] None)
  ∧ (∀ w n, Gce.flag_project w = "" →
       Gce.main w n =
         MkRun [Log "Error: Empty project. A project name must be specified." [];
                Exit 1] None)
  ∧ (∀ w n, Custom.flag_project w = "" →
       Custom.main w n =
         MkRun [Log "Error: Empty project. A project name must be specified." [];
                Exit 1] None)
  ∧ (∀ project, project ≠ "" →
       Prom.checkArgs project = mret tt ∧ requireProject project = mret tt)
  ∧ (∀ w n, Prom.flag_project w ≠ "" →
       Prom.main w n =
         MkRun ([ Register "gce_firewall_rules"; Register "gce_target_pools";
                  Register "gce_forwarding_rules"; Register "gce_ip_addresses";
                  Register "gce_networks"; Register "gce_routes";
                  GoServe (Prom.flag_port w) ]
                  ++ trace (Prom.runScraper (Prom.hostAt w) (Prom.flag_project w)
                              (Prom.flag_scrape_period w) 0 n))
               (Some tt)).
Proof.
  split; [|split; [|split; [|split]]].
  - intros w n Hp. unfold Prom.main, Prom.checkArgs. by rewrite Hp.
  - intros w n Hp. unfold Gce.main, Gce.startup, requireProject. by rewrite Hp.
  - intros w n Hp. unfold Custom.main, Custom.startup, requireProject. by rewrite Hp.
  - intros project Hp. unfold Prom.checkArgs, requireProject.
    by rewrite decide_False.
  - intros w n Hp. unfold Prom.main, Prom.checkArgs.
    rewrite decide_False by done. rewrite mret_bind. run_steps.
    by destruct (Prom_runScraper_run (Prom.hostAt w) (Prom.flag_project w)
                   (Prom.flag_scrape_period w) 0 n) as (-> & _).
Qed.

(* ===================================================================== *)
(** ** Failures stay with their metric                                     *)
(* ===================================================================== *)

(** C4. A cycle outlives every failure of a metric kind. In the
    interface-based variant every [ProcessMetric] returns; its error, if
    any, is logged by the loop and goes nowhere else; the trace of a cycle
    is the opening line, the runs of all eight kinds in turn, each as if run
    alone, and the sleep; all eight list calls are made, nothing exits, and
    the loop goes on for any number of cycles. In the Prometheus variant all
    six kinds run in every cycle, and a failed fetch or decode of the routes
    writes one warning and leaves every gauge as it was. The cycle of
    resource_metrics.go, whose kinds log their own errors, runs all six
    kinds and never exits either. *)
Theorem cycle_survives_metric_failures :
  (∀ rt mon cm,
     cm ∈ Custom.customMetrics →
     ∃ err,
       result (Custom.ProcessMetric cm rt mon) = Some err
       ∧ Custom.scrapeOne rt mon cm =
           MkRun (trace (Custom.ProcessMetric cm rt mon)
                    ++ match err with
                       | Some e =>
                           [Log "ERROR: Error processing metric %s. Err: %v"
                              [AStr (Name (Custom.MetricDescription' cm));
                               AErr (Some e)]]
                       | None => []
                       end)
                 (Some tt))
  ∧ (∀ w i,
       Custom.scrapeCycle w i =
         MkRun (Log "INFO: Starting scrape loop." []
                  :: (Custom.customMetrics ≫= λ cm,
                        trace (Custom.scrapeOne (Custom.runtimeAt w (S i))
                                 (Custom.monitorAt w (S i)) cm))
                  ++ [Sleep (Custom.flag_scrape_period w)])
               (Some tt)
       ∧ listCalls (trace (Custom.scrapeCycle w i)) =
           [ "Firewalls.List"; "TargetPools.AggregatedList";
             "ForwardingRules.AggregatedList"; "GlobalForwardingRules.List";
             "Addresses.AggregatedList"; "GlobalAddresses.List";
             "Networks.List"; "Routes.List" ]
       ∧ exits (trace (Custom.scrapeCycle w i)) = [])
  ∧ (∀ w n,
       result (Custom.scrapeLoop w 0 n) = Some tt
       ∧ exits (trace (Custom.scrapeLoop w 0 n)) = []
       ∧ length (listCalls (trace (Custom.scrapeLoop w 0 n))) = (8 * n)%nat)
  ∧ (∀ h project period,
       result (Prom.scrapeCycle h project period) = Some tt
       ∧ listCalls (trace (Prom.scrapeCycle h project period)) =
           [ "firewall-rules"; "forwarding-rules"; "target-pools"; "routes";
             "networks"; "addresses" ]
       ∧ exits (trace (Prom.scrapeCycle h project period)) = []
       ∧ trace (Prom.scrapeCycle h project period) =
           Log "INFO: Starting scrape loop." []
             :: trace (Prom.processFirewallRules h project)
             ++ trace (Prom.processForwadingRules h project)
             ++ trace (Prom.processTargetPools h project)
             ++ trace (Prom.processRoutes h project)
             ++ trace (Prom.processNetworks h project)
             ++ trace (Prom.processAddresses h project)
             ++ [Sleep period])
  ∧ (∀ h project out e tr,
       Prom.gcloud h (Prom.gcloudArgs project "routes") = (out, Some e)
       ∨ (Prom.gcloud h (Prom.gcloudArgs project "routes") = (out, None)
          ∧ Prom.unmarshalRoutes h out = Err e) →
       result (Prom.processRoutes h project) = Some tt
       ∧ (∃ warning, trace (Prom.processRoutes h project) =
            [ Log "Running: gcloud %s" [AArgs (Prom.gcloudArgs project "routes")];
              Exec "gcloud" (Prom.gcloudArgs project "routes");
              warning ])
       ∧ gaugeStore (tr ++ trace (Prom.processRoutes h project)) = gaugeStore tr)
  ∧ (∀ hostAt project period n,
       result (Prom.runScraper hostAt project period 0 n) = Some tt
       ∧ exits (trace (Prom.runScraper hostAt project period 0 n)) = []
       ∧ length (listCalls (trace (Prom.runScraper hostAt project period 0 n)))
         = (6 * n)%nat)
  ∧ (∀ w i n,
       result (Gce.scrapeCycle w i) = Some tt
       ∧ listCalls (trace (Gce.scrapeCycle w i)) =
           [ "Firewalls.List"; "GlobalAddresses.List"; "GlobalForwardingRules.List";
             "Networks.List"; "Routes.List"; "TargetPools.AggregatedList" ]
       ∧ exits (trace (Gce.scrapeCycle w i)) = []
       ∧ result (Gce.scrapeLoop w 0 n) = Some tt
       ∧ exits (trace (Gce.scrapeLoop w 0 n)) = []).
Proof.
  split; [|split; [|split; [|split; [|split; [|split]]]]].
  - intros rt mon cm Hcm. destruct (customMetrics_api cm Hcm) as [api Hapi].
    destruct (Custom_metric_contract rt mon cm api Hapi) as ([err Hr] & _).
    exists err. split; [exact Hr|by apply scrapeOne_run].
  - intros w i. split; [apply scrapeCycle_run|apply scrapeCycle_listCalls].
  - intros w n. apply scrapeLoop_run.
  - intros h project period. apply Prom_scrapeCycle_run.
  - intros h project out e tr Hfail.
    destruct (processRoutes_failure h project) as [Hfetch Hdecode].
    destruct Hfail as [Hg|[Hg Hd]].
    + rewrite (Hfetch out e Hg). cbn [trace result].
      split; [done|]. split; [by eexists|by apply gaugeStore_no_sets].
    + rewrite (Hdecode out e Hg Hd). cbn [trace result].
      split; [done|]. split; [by eexists|by apply gaugeStore_no_sets].
  - intros hostAt project period n. apply Prom_runScraper_run.
  - intros w i n.
    destruct (Gce_scrapeCycle_run w i) as (Hr & Hl & He & _).
    destruct (Gce_scrapeLoop_run w 0 n) as (Hlr & Hle & _).
    done.
Qed.

(** The scenario of the routes call failing in transport: the cycle logs the
    error of [gce_routes], makes all eight list calls, still reports the
    firewall rules per network and a count for every other kind, and
    sleeps. *)
Example routes_down_cycle :
  listCalls (trace (Custom.scrapeCycle routesDownWorld 0)) =
    [ "Firewalls.List"; "TargetPools.AggregatedList";
      "ForwardingRules.AggregatedList"; "GlobalForwardingRules.List";
      "Addresses.AggregatedList"; "GlobalAddresses.List";
      "Networks.List"; "Routes.List" ]
  ∧ (λ p, (tsd_Metric (tp_TimeseriesDesc p), pt_Value (tp_Point p)))
      <$> observations (trace (Custom.scrapeCycle routesDownWorld 0)) =
    [ (customName "gce_firewall_rules", Int64Value 2);
      (customName "gce_firewall_rules", Int64Value 1);
      (customName "gce_target_pools", Int64Value 0);
      (customName "gce_forwarding_rules", Int64Value 0);
      (customName "gce_global_forwarding_rules", Int64Value 0);
      (customName "gce_networks", Int64Value 0) ]
  ∧ Log "ERROR: Error processing metric %s. Err: %v"
        [AStr "gce_routes"; AErr (Some "transport error")]
    ∈ trace (Custom.scrapeCycle routesDownWorld 0)
  ∧ last (trace (Custom.scrapeCycle routesDownWorld 0)) = Some (Sleep 300)
  ∧ result (Custom.scrapeCycle routesDownWorld 0) = Some tt.
Proof.
  split; [reflexivity|]. split; [reflexivity|]. split; [|split; reflexivity].
  vm_compute. repeat first [apply list_elem_of_here | apply list_elem_of_further].
Qed.

(* ===================================================================== *)
(** ** More on the aggregation                                             *)
(* ===================================================================== *)

Lemma countInto_app {A} (sel : A → string) (m : gmap string Z) l1 l2 :
  Aggregate.countInto sel m (l1 ++ l2)
  = Aggregate.countInto sel (Aggregate.countInto sel m l1) l2.
Proof. unfold Aggregate.countInto. apply foldl_app. Qed.

(** The nested loops over the scopes of an aggregated list count the items
    of all scopes, scope after scope. *)
Lemma countInto_scopes {A} (sel : A → string) (m : gmap string Z)
    (its : list (string * list A)) :
  foldl (λ metrics '(_, scopedList), Aggregate.countInto sel metrics scopedList) m its
  = Aggregate.countInto sel m (mjoin its.*2).
Proof.
  revert m. induction its as [|[scope l] its IH]; intros m; [done|].
  cbn [foldl fmap list_fmap snd mjoin list_join]. by rewrite IH, countInto_app.
Qed.

Lemma countInto_perm {A} (sel : A → string) (m : gmap string Z) items items' :
  items ≡ₚ items' →
  Aggregate.countInto sel m items = Aggregate.countInto sel m items'.
Proof.
  intros Hp. apply map_eq; intros k. rewrite !countInto_lookup.
  assert (Aggregate.bucket sel k items ≡ₚ Aggregate.bucket sel k items') as Hb
    by (unfold Aggregate.bucket; rewrite Hp; reflexivity).
  pose proof (Permutation_length Hb) as Hl.
  unfold len. rewrite Hl.
  destruct (Aggregate.bucket sel k items), (Aggregate.bucket sel k items');
    try done.
Qed.

Lemma scoped_counts rt {A} (sel : A → string) (items : gmap string (list A)) :
  foldl (λ metrics '(_, scopedList), Aggregate.countInto sel metrics scopedList)
        ∅ (rangeOrder rt items)
  = Aggregate.countBy sel (scopedItems items).
Proof.
  rewrite countInto_scopes. unfold Aggregate.countBy, scopedItems.
  apply countInto_perm. by rewrite (range_visits_all rt items).
Qed.

(** X1. The addresses metric of the interface-based variant, which walks an
    aggregated list scope by scope, counts the addresses of all scopes
    together per status: whatever the order in which the scopes are
    visited, it sends one observation per status that occurs in any scope,
    valued with the number of addresses of that status over all scopes. *)
Theorem addresses_counted_across_scopes
    (rt : Runtime) (m : Custom.Monitor) (items : gmap string (list Address)) :
  Addresses_AggregatedList (Custom.Compute m) (Custom.Project m) = Ok items →
  observations (trace (Custom.ProcessMetric Custom.Addresses rt m)) ≡ₚ
    (λ sc, labeledPoint rt (Custom.Project m) "gce_addresses" "status"
             (Int64Value sc.2) sc.1)
      <$> map_to_list (Aggregate.countBy addr_Status (scopedItems items))
  ∧ ∀ status,
      Aggregate.countBy addr_Status (scopedItems items) !! status =
        if decide (Aggregate.bucket addr_Status status (scopedItems items) = [])
        then None
        else Some (wrap64 (len (Aggregate.bucket addr_Status status
                                  (scopedItems items)))).
Proof.
  intros Hlist. split; [|intros status; apply countBy_lookup].
  cbn [Custom.ProcessMetric Custom.Addresses]. rewrite Hlist. run_steps.
  rewrite scoped_counts.
  by destruct (Custom_reporter_one_per_bucket rt m "gce_addresses" "status"
                 (Aggregate.countBy addr_Status (scopedItems items))) as [Hobs _].
Qed.

Lemma addresses_counted_across_scopes_witness :
  (λ p, pt_Value (tp_Point p))
    <$> observations
          (trace (Custom.ProcessMetric Custom.Addresses sampleRuntime
                    (Custom.monitorAt acceptedCustomWorld 1)))
  ≡ₚ [Int64Value 2; Int64Value 1].
Proof.
  destruct (addresses_counted_across_scopes sampleRuntime
              (Custom.monitorAt acceptedCustomWorld 1) _ eq_refl) as [Hobs _].
  rewrite Hobs.
  assert ((λ p, pt_Value (tp_Point p))
            <$> ((λ sc : string * Z,
                    labeledPoint sampleRuntime
                      (Custom.Project (Custom.monitorAt acceptedCustomWorld 1))
                      "gce_addresses" "status" (Int64Value sc.2) sc.1)
                   <$> map_to_list
                         (Aggregate.countBy addr_Status
                            (scopedItems
                               ({[ "zones/z1" :=
                                     [ {| addr_Name := "a1"; addr_Status := "RESERVED" |};
                                       {| addr_Name := "a2"; addr_Status := "IN_USE" |} ];
                                   "zones/z2" :=
                                     [ {| addr_Name := "a3"; addr_Status := "IN_USE" |} ] ]}
                                  : gmap string (list Address)))))
          = [Int64Value 2; Int64Value 1]) as -> by (vm_compute; reflexivity).
  reflexivity.
Defined.

(** X2. The kinds that use an aggregated list call without walking it
    (target pools and forwarding rules in the interface-based variant,
    target pools in resource_metrics.go) report the length of the [Items]
    map of the answer, that is the number of scopes in it, whatever the
    scopes hold. *)
Theorem aggregated_kinds_report_scope_count
    (rt : Runtime) (cs : ComputeService) (ms : MonitoringService) (project : string)
    (pools : gmap string (list TargetPool))
    (rules : gmap string (list ForwardingRule)) :
  TargetPools_AggregatedList cs project = Ok pools →
  ForwardingRules_AggregatedList cs project = Ok rules →
  observations
    (trace (Custom.ProcessMetric Custom.TargetPools rt
              {| Custom.Project := project; Custom.Compute := cs;
                 Custom.Monitoring := ms |}))
  = [unlabeledPoint rt project "gce_target_pools"
       (Int64Value (Z.of_nat (size pools)))]
  ∧ observations
      (trace (Custom.ProcessMetric Custom.ForwardingRules rt
                {| Custom.Project := project; Custom.Compute := cs;
                   Custom.Monitoring := ms |}))
    = [unlabeledPoint rt project "gce_forwarding_rules"
         (Int64Value (Z.of_nat (size rules)))]
  ∧ observations
      (trace (Gce.ProcessTargetPools rt
                {| Gce.Project := project; Gce.Compute := cs;
                   Gce.Monitoring := ms |}))
    = [unlabeledPoint rt project "gce_target_pools"
         (DoubleValue (float64_of_int (Z.of_nat (size pools))))].
Proof.
  intros Hpools Hrules. split; [|split].
  - cbn [Custom.ProcessMetric Custom.TargetPools Custom.Project Custom.Compute].
    rewrite Hpools. run_steps. by rewrite (proj1 (returning_same _)).
  - cbn [Custom.ProcessMetric Custom.ForwardingRules Custom.Project Custom.Compute].
    rewrite Hrules. run_steps. by rewrite (proj1 (returning_same _)).
  - unfold Gce.ProcessTargetPools. cbn [Gce.Project Gce.Compute].
    rewrite Hpools, Gce_reportTimeseries_run. cbn zeta.
    match goal with
    | |- context [Timeseries_Write ?s ?p ?r] => destruct (Timeseries_Write s p r)
    end; reflexivity.
Qed.

Lemma aggregated_kinds_report_scope_count_witness :
  scopedItems ({[ "zones/z1" := []; "zones/z2" := [] ]}
                 : gmap string (list TargetPool)) = []
  ∧ observations
      (trace (Custom.ProcessMetric Custom.TargetPools sampleRuntime
                {| Custom.Project := "p"; Custom.Compute := twoZones;
                   Custom.Monitoring := acceptingSink |}))
    = [unlabeledPoint sampleRuntime "p" "gce_target_pools" (Int64Value 2)].
Proof.
  split; [reflexivity|].
  apply (aggregated_kinds_report_scope_count sampleRuntime twoZones acceptingSink
           "p" _ _ eq_refl eq_refl).
Defined.

Lemma countInto_size {A} (sel : A → string) (m : gmap string Z) items :
  (size (Aggregate.countInto sel m items) ≤ size m + length items)%nat.
Proof.
  revert m. induction items as [|a items IH]; intros m.
  { unfold Aggregate.countInto. cbn [foldl length]. lia. }
  unfold Aggregate.countInto in *. cbn [foldl length].
  specialize (IH (Aggregate.incr (sel a) m)).
  assert (size (Aggregate.incr (sel a) m) ≤ S (size m))%nat.
  { unfold Aggregate.incr. rewrite map_size_insert.
    destruct (m !! sel a); unfold id; lia. }
  lia.
Qed.

Lemma countBy_nonempty {A} (sel : A → string) a items :
  Aggregate.countBy sel (a :: items) ≠ ∅.
Proof.
  intros Hempty.
  pose proof (countBy_lookup sel (a :: items) (sel a)) as Hk.
  rewrite Hempty, lookup_empty, bucket_cons in Hk.
  rewrite (decide_True (P := sel a = sel a)) in Hk by done.
  by case_decide.
Qed.

(** X3. A labeled metric never sends more observations than it was given
    records, and sends at least one when it was given any: the firewall
    metric of both push variants sends as many observations as there are
    distinct networks among the rules. *)
Theorem observations_bounded_by_records
    (rt : Runtime) (cs : ComputeService) (ms : MonitoringService) (project : string)
    (items : list Firewall) :
  Firewalls_List cs project = Ok items →
  let sent := observations
                (trace (Custom.ProcessMetric Custom.FirewallRules rt
                          {| Custom.Project := project; Custom.Compute := cs;
                             Custom.Monitoring := ms |})) in
  let sent' := observations
                 (trace (Gce.ProcessFirewallRules rt
                           {| Gce.Project := project; Gce.Compute := cs;
                              Gce.Monitoring := ms |})) in
  length sent = size (Aggregate.countBy fw_Network items)
  ∧ length sent' = length sent
  ∧ (length sent ≤ length items)%nat
  ∧ (items ≠ [] → (1 ≤ length sent)%nat).
Proof.
  intros Hlist sent sent'.
  assert (length sent = size (Aggregate.countBy fw_Network items)) as Hsent.
  { unfold sent.
    cbn [Custom.ProcessMetric Custom.FirewallRules Custom.Project Custom.Compute].
    rewrite Hlist. run_steps.
    by destruct (Custom_reporter_one_per_bucket rt
                   {| Custom.Project := project; Custom.Compute := cs;
                      Custom.Monitoring := ms |}
                   "gce_firewall_rules" "network"
                   (Aggregate.countBy fw_Network items)) as (_ & Hlen & _). }
  assert (length sent' = size (Aggregate.countBy fw_Network items)) as Hsent'.
  { unfold sent', Gce.ProcessFirewallRules. cbn [Gce.Project Gce.Compute].
    rewrite Hlist. run_steps.
    destruct (Gce_reporter_one_per_bucket rt
                {| Gce.Project := project; Gce.Compute := cs; Gce.Monitoring := ms |}
                "gce_firewall_rules" "network"
                (Aggregate.countBy fw_Network items)) as [Hobs _].
    by rewrite Hobs, length_fmap, length_map_to_list. }
  split; [exact Hsent|]. split; [congruence|]. rewrite Hsent. split.
  - pose proof (countInto_size fw_Network ∅ items) as Hsize.
    rewrite map_size_empty in Hsize. exact Hsize.
  - intros Hne. destruct items as [|a items]; [done|].
    pose proof (countBy_nonempty fw_Network a items) as Hnonempty.
    rewrite <- map_size_empty_iff in Hnonempty. lia.
Qed.

Lemma observations_bounded_by_records_witness :
  length (observations
            (trace (Custom.ProcessMetric Custom.FirewallRules sampleRuntime
                      {| Custom.Project := "p";
                         Custom.Compute := projectWith threeFirewalls;
                         Custom.Monitoring := acceptingSink |}))) = 2%nat
  ∧ length threeFirewalls = 3%nat.
Proof.
  destruct (observations_bounded_by_records sampleRuntime
              (projectWith threeFirewalls) acceptingSink "p" threeFirewalls eq_refl)
    as (Hsent & _).
  split; [rewrite Hsent; reflexivity|reflexivity].
Defined.

(* ===================================================================== *)
(** ** The gauge store of the Prometheus variant                           *)
(* ===================================================================== *)

Section gauge_store.
Implicit Types (st : gmap (string * list string) Z)
               (sets : list (string * list string * Z)).

Lemma gaugeStore_app tr1 tr2 :
  gaugeStore (tr1 ++ tr2) =
    foldl (λ st '(n, ls, v), <[(n, ls) := v]> st) (gaugeStore tr1) (gaugeSets tr2).
Proof. unfold gaugeStore. by rewrite gaugeSets_app, foldl_app. Qed.

(** A gauge that no update names keeps its value. *)
Lemma store_untouched st sets key :
  key ∉ sets.*1 →
  foldl (λ st '(n, ls, v), <[(n, ls) := v]> st) st sets !! key = st !! key.
Proof.
  revert st. induction sets as [|[[n ls] v] sets IH]; intros st Hkey; [done|].
  cbn [foldl]. rewrite IH.
  - apply lookup_insert_ne. intros <-. apply Hkey. by left.
  - intros Hin. apply Hkey. by right.
Qed.

(** A gauge that exactly one update names holds the value of that update. *)
Lemma store_set st sets key v :
  NoDup sets.*1 → (key, v) ∈ sets →
  foldl (λ st '(n, ls, v), <[(n, ls) := v]> st) st sets !! key = Some v.
Proof.
  revert st. induction sets as [|[[n ls] v0] sets IH]; intros st Hnd Hin.
  { by apply elem_of_nil in Hin. }
  cbn [fmap list_fmap fst] in Hnd. apply NoDup_cons in Hnd as [Hfresh Hnd].
  cbn [foldl]. apply elem_of_cons in Hin as [[= -> ->]|Hin].
  - rewrite store_untouched by done. apply lookup_insert_eq.
  - by apply IH.
Qed.

Lemma labeled_sets_keys (name : string) (f : Z → Z) rt (metrics : gmap string Z) :
  NoDup ((λ sc : string * Z, (name, [sc.1], f sc.2)) <$> rangeOrder rt metrics).*1.
Proof.
  assert (NoDup (rangeOrder rt metrics).*1) as Hnd.
  { rewrite (range_visits_all rt metrics). apply NoDup_fst_map_to_list. }
  assert (((λ sc : string * Z, (name, [sc.1], f sc.2)) <$> rangeOrder rt metrics).*1
          = (λ s : string, (name, [s])) <$> (rangeOrder rt metrics).*1) as ->.
  { rewrite <- !list_fmap_compose. by apply list_fmap_ext. }
  apply NoDup_fmap_2; [|done]. by intros s1 s2 [= ->].
Qed.

Lemma elem_of_rangeOrder rt {V} (m : gmap string V) s c :
  (s, c) ∈ rangeOrder rt m ↔ m !! s = Some c.
Proof. rewrite (range_visits_all rt m). apply elem_of_map_to_list. Qed.

(** What the updates of a labeled metric leave in the store. *)
Lemma labeled_store (name : string) (f : Z → Z) rt (metrics : gmap string Z) st s :
  foldl (λ st '(n, ls, v), <[(n, ls) := v]> st) st
        ((λ sc : string * Z, (name, [sc.1], f sc.2)) <$> rangeOrder rt metrics)
    !! (name, [s])
  = match metrics !! s with
    | Some c => Some (f c)
    | None => st !! (name, [s])
    end.
Proof.
  destruct (metrics !! s) as [c|] eqn:Hs.
  - apply store_set; [apply labeled_sets_keys|].
    apply list_elem_of_fmap. exists (s, c). split; [done|].
    by apply elem_of_rangeOrder.
  - apply store_untouched. rewrite <- list_fmap_compose.
    intros Hin. apply list_elem_of_fmap in Hin as ([s' c'] & Heq & Hin).
    cbn in Heq. injection Heq as <-.
    apply elem_of_rangeOrder in Hin. congruence.
Qed.

End gauge_store.

Section prom_gauges.
Import Prom.
Context (h : Host) (project : string).

Lemma processFirewallRules_sets out firewalls :
  gcloud h (gcloudArgs project "firewall-rules") = (out, None) →
  unmarshalFirewalls h out = Ok firewalls →
  gaugeSets (trace (processFirewallRules h project)) =
    (λ sc : string * Z, ("gce_firewall_rules", [sc.1], float64_of_int sc.2))
      <$> rangeOrder (runtime h) (Aggregate.countBy fw_Network firewalls).
Proof.
  intros Hg Hd. unfold processFirewallRules.
  rewrite getRawResource_run, Hg. run_steps. rewrite Hd. run_steps.
  rewrite forEach_gaugeSet. run_steps.
  by destruct (labeled_gauges "gce_firewall_rules"
                 (rangeOrder (runtime h) (Aggregate.countBy fw_Network firewalls)))
    as (_ & _ & ->).
Qed.

Lemma processAddresses_sets out addresses :
  gcloud h (gcloudArgs project "addresses") = (out, None) →
  unmarshalAddresses h out = Ok addresses →
  gaugeSets (trace (processAddresses h project)) =
    (λ sc : string * Z, ("gce_ip_addresses", [sc.1], float64_of_int sc.2))
      <$> rangeOrder (runtime h) (Aggregate.countBy addr_Status addresses).
Proof.
  intros Hg Hd. unfold processAddresses.
  rewrite getRawResource_run, Hg. run_steps. rewrite Hd. run_steps.
  rewrite forEach_gaugeSet. run_steps.
  by destruct (labeled_gauges "gce_ip_addresses"
                 (rangeOrder (runtime h) (Aggregate.countBy addr_Status addresses)))
    as (_ & _ & ->).
Qed.

(** A run whose gauge updates all carry one metric name leaves the gauges
    of every other name alone. *)
Lemma other_gauges_untouched metric (r : Run unit) tr key :
  Forall (λ g, g.1.1 = metric) (gaugeSets (trace r)) →
  key.1 ≠ metric →
  gaugeStore (tr ++ trace r) !! key = gaugeStore tr !! key.
Proof.
  intros Hown Hkey. rewrite gaugeStore_app. apply store_untouched.
  intros Hin. apply list_elem_of_fmap in Hin as (g & -> & Hg).
  rewrite Forall_forall in Hown. by apply Hkey, Hown.
Qed.

End prom_gauges.

(** X4. After a successful pass of a labeled metric of the Prometheus
    variant, the gauge of every label value that occurs in the list holds
    its count, whatever it held before; the gauge of a label value that no
    longer occurs is not reset and keeps the value of an earlier cycle. *)
Theorem labeled_gauges_set_present_keep_absent
    (h : Prom.Host) (project out1 out2 : string) (tr : list Event)
    (firewalls : list Firewall) (addresses : list Address) :
  Prom.gcloud h (Prom.gcloudArgs project "firewall-rules") = (out1, None) →
  Prom.unmarshalFirewalls h out1 = Ok firewalls →
  Prom.gcloud h (Prom.gcloudArgs project "addresses") = (out2, None) →
  Prom.unmarshalAddresses h out2 = Ok addresses →
  (∀ network,
     gaugeStore (tr ++ trace (Prom.processFirewallRules h project))
       !! ("gce_firewall_rules", [network])
     = match Aggregate.countBy fw_Network firewalls !! network with
       | Some c => Some (float64_of_int c)
       | None => gaugeStore tr !! ("gce_firewall_rules", [network])
       end)
  ∧ (∀ status,
       gaugeStore (tr ++ trace (Prom.processAddresses h project))
         !! ("gce_ip_addresses", [status])
       = match Aggregate.countBy addr_Status addresses !! status with
         | Some c => Some (float64_of_int c)
         | None => gaugeStore tr !! ("gce_ip_addresses", [status])
         end).
Proof.
  intros Hg1 Hd1 Hg2 Hd2. split.
  - intros network.
    rewrite gaugeStore_app, (processFirewallRules_sets h project out1 firewalls)
      by done.
    apply labeled_store.
  - intros status.
    rewrite gaugeStore_app, (processAddresses_sets h project out2 addresses)
      by done.
    apply labeled_store.
Qed.

Lemma labeled_gauges_set_present_keep_absent_witness :
  gaugeStore ([GaugeSet "gce_firewall_rules" ["a"] 7;
               GaugeSet "gce_firewall_rules" ["gone"] 5]
                ++ trace (Prom.processFirewallRules firewallHost "p"))
    !! ("gce_firewall_rules", ["a"]) = Some 2
  ∧ gaugeStore ([GaugeSet "gce_firewall_rules" ["a"] 7;
                 GaugeSet "gce_firewall_rules" ["gone"] 5]
                  ++ trace (Prom.processFirewallRules firewallHost "p"))
      !! ("gce_firewall_rules", ["gone"]) = Some 5.
Proof.
  destruct (labeled_gauges_set_present_keep_absent firewallHost "p" "[...]" "[...]"
              [GaugeSet "gce_firewall_rules" ["a"] 7;
               GaugeSet "gce_firewall_rules" ["gone"] 5]
              threeFirewalls [] eq_refl eq_refl eq_refl eq_refl) as [Hfw _].
  split; [exact (Hfw "a")|exact (Hfw "gone")].
Defined.

(** X5. Whatever happens to it, a metric kind of the Prometheus variant
    touches no gauge but its own: every gauge under another metric name
    reads after the pass as it read before. *)
Theorem gauges_of_other_kinds_untouched
    (h : Prom.Host) (project : string) (tr : list Event)
    (key : string * list string) :
  (key.1 ≠ "gce_firewall_rules" →
     gaugeStore (tr ++ trace (Prom.processFirewallRules h project)) !! key
     = gaugeStore tr !! key)
  ∧ (key.1 ≠ "gce_forwarding_rules" →
       gaugeStore (tr ++ trace (Prom.processForwadingRules h project)) !! key
       = gaugeStore tr !! key)
  ∧ (key.1 ≠ "gce_target_pools" →
       gaugeStore (tr ++ trace (Prom.processTargetPools h project)) !! key
       = gaugeStore tr !! key)
  ∧ (key.1 ≠ "gce_routes" →
       gaugeStore (tr ++ trace (Prom.processRoutes h project)) !! key
       = gaugeStore tr !! key)
  ∧ (key.1 ≠ "gce_networks" →
       gaugeStore (tr ++ trace (Prom.processNetworks h project)) !! key
       = gaugeStore tr !! key)
  ∧ (key.1 ≠ "gce_ip_addresses" →
       gaugeStore (tr ++ trace (Prom.processAddresses h project)) !! key
       = gaugeStore tr !! key).
Proof.
  destruct (processFirewallRules_contract h project) as (_ & _ & _ & O1).
  destruct (processForwadingRules_contract h project) as (_ & _ & _ & O2).
  destruct (processTargetPools_contract h project) as (_ & _ & _ & O3).
  destruct (processRoutes_contract h project) as (_ & _ & _ & O4).
  destruct (processNetworks_contract h project) as (_ & _ & _ & O5).
  destruct (processAddresses_contract h project) as (_ & _ & _ & O6).
  repeat split; intros Hkey; eapply other_gauges_untouched; eauto.
Qed.

(** Runs a kind of the Prometheus variant whose fetch or decode failed. *)
Ltac failed_kind Hfail :=
  rewrite getRawResource_run; run_steps;
  destruct Hfail as [Hg|[Hg Hd]]; rewrite Hg; run_steps;
  [ | rewrite Hd; run_steps ];
  (split; [done|split; [done|by eexists]]).

(** X6. In the Prometheus variant a kind whose [gcloud] call fails, or whose
    output does not decode, returns after one warning without setting any
    gauge: the kind is skipped for the cycle, not reported as zero. So for
    every kind (the routes are C4's). *)
Theorem failed_kind_sets_no_gauge
    (h : Prom.Host) (project out : string) (e : error) :
  (Prom.gcloud h (Prom.gcloudArgs project "firewall-rules") = (out, Some e)
   ∨ (Prom.gcloud h (Prom.gcloudArgs project "firewall-rules") = (out, None)
      ∧ Prom.unmarshalFirewalls h out = Err e) →
   result (Prom.processFirewallRules h project) = Some tt
   ∧ gaugeSets (trace (Prom.processFirewallRules h project)) = []
   ∧ ∃ warning, trace (Prom.processFirewallRules h project) =
       [ Log "Running: gcloud %s" [AArgs (Prom.gcloudArgs project "firewall-rules")];
         Exec "gcloud" (Prom.gcloudArgs project "firewall-rules"); warning ])
  ∧ (Prom.gcloud h (Prom.gcloudArgs project "target-pools") = (out, Some e)
     ∨ (Prom.gcloud h (Prom.gcloudArgs project "target-pools") = (out, None)
        ∧ Prom.unmarshalTargetPools h out = Err e) →
     result (Prom.processTargetPools h project) = Some tt
     ∧ gaugeSets (trace (Prom.processTargetPools h project)) = []
     ∧ ∃ warning, trace (Prom.processTargetPools h project) =
         [ Log "Running: gcloud %s" [AArgs (Prom.gcloudArgs project "target-pools")];
           Exec "gcloud" (Prom.gcloudArgs project "target-pools"); warning ])
  ∧ (Prom.gcloud h (Prom.gcloudArgs project "forwarding-rules") = (out, Some e)
     ∨ (Prom.gcloud h (Prom.gcloudArgs project "forwarding-rules") = (out, None)
        ∧ Prom.unmarshalForwardingRules h out = Err e) →
     result (Prom.processForwadingRules h project) = Some tt
     ∧ gaugeSets (trace (Prom.processForwadingRules h project)) = []
     ∧ ∃ warning, trace (Prom.processForwadingRules h project) =
         [ Log "Running: gcloud %s"
             [AArgs (Prom.gcloudArgs project "forwarding-rules")];
           Exec "gcloud" (Prom.gcloudArgs project "forwarding-rules"); warning ])
  ∧ (Prom.gcloud h (Prom.gcloudArgs project "addresses") = (out, Some e)
     ∨ (Prom.gcloud h (Prom.gcloudArgs project "addresses") = (out, None)
        ∧ Prom.unmarshalAddresses h out = Err e) →
     result (Prom.processAddresses h project) = Some tt
     ∧ gaugeSets (trace (Prom.processAddresses h project)) = []
     ∧ ∃ warning, trace (Prom.processAddresses h project) =
         [ Log "Running: gcloud %s" [AArgs (Prom.gcloudArgs project "addresses")];
           Exec "gcloud" (Prom.gcloudArgs project "addresses"); warning ])
  ∧ (Prom.gcloud h (Prom.gcloudArgs project "networks") = (out, Some e)
     ∨ (Prom.gcloud h (Prom.gcloudArgs project "networks") = (out, None)
        ∧ Prom.unmarshalNetworks h out = Err e) →
     result (Prom.processNetworks h project) = Some tt
     ∧ gaugeSets (trace (Prom.processNetworks h project)) = []
     ∧ ∃ warning, trace (Prom.processNetworks h project) =
         [ Log "Running: gcloud %s" [AArgs (Prom.gcloudArgs project "networks")];
           Exec "gcloud" (Prom.gcloudArgs project "networks"); warning ]).
Proof.
  split; [|split; [|split; [|split]]]; intros Hfail.
  - unfold Prom.processFirewallRules. failed_kind Hfail.
  - unfold Prom.processTargetPools. failed_kind Hfail.
  - unfold Prom.processForwadingRules. failed_kind Hfail.
  - unfold Prom.processAddresses. failed_kind Hfail.
  - unfold Prom.processNetworks. failed_kind Hfail.
Qed.

(** X7. A successful pass of an unlabeled kind of the Prometheus variant
    leaves its gauge at exactly the number of items decoded, whatever the
    gauge held before: the latest cycle supersedes the earlier ones. The
    bound is where [float64] stops being exact. *)
Theorem unlabeled_gauge_holds_latest_count
    (h : Prom.Host) (project : string) (tr : list Event)
    (targetPools : list TargetPool) (fwdRules : list ForwardingRule)
    (networks : list Network) (routes : list Route) :
  (∀ resource, (Prom.gcloud h (Prom.gcloudArgs project resource)).2 = None) →
  Prom.unmarshalTargetPools h
    (Prom.gcloud h (Prom.gcloudArgs project "target-pools")).1 = Ok targetPools →
  Prom.unmarshalForwardingRules h
    (Prom.gcloud h (Prom.gcloudArgs project "forwarding-rules")).1 = Ok fwdRules →
  Prom.unmarshalNetworks h
    (Prom.gcloud h (Prom.gcloudArgs project "networks")).1 = Ok networks →
  Prom.unmarshalRoutes h
    (Prom.gcloud h (Prom.gcloudArgs project "routes")).1 = Ok routes →
  len targetPools < 2 ^ 53 → len fwdRules < 2 ^ 53 →
  len networks < 2 ^ 53 → len routes < 2 ^ 53 →
  gaugeStore (tr ++ trace (Prom.processTargetPools h project))
    !! ("gce_target_pools", []) = Some (len targetPools)
  ∧ gaugeStore (tr ++ trace (Prom.processForwadingRules h project))
      !! ("gce_forwarding_rules", []) = Some (len fwdRules)
  ∧ gaugeStore (tr ++ trace (Prom.processNetworks h project))
      !! ("gce_networks", []) = Some (len networks)
  ∧ gaugeStore (tr ++ trace (Prom.processRoutes h project))
      !! ("gce_routes", []) = Some (len routes).
Proof.
  intros Hok Hd1 Hd2 Hd3 Hd4 Hb1 Hb2 Hb3 Hb4.
  assert (∀ resource,
            Prom.gcloud h (Prom.gcloudArgs project resource)
            = ((Prom.gcloud h (Prom.gcloudArgs project resource)).1, None)) as Hg.
  { intros resource. specialize (Hok resource).
    destruct (Prom.gcloud h (Prom.gcloudArgs project resource)) as [out err].
    cbn in *. by subst. }
  assert (∀ n : Z, 0 ≤ n < 2 ^ 53 → float64_of_int n = n) as Hexact.
  { intros n Hn. apply float64_of_int_exact. lia. }
  repeat split; rewrite gaugeStore_app.
  - unfold Prom.processTargetPools.
    rewrite getRawResource_run, (Hg "target-pools"). run_steps.
    rewrite Hd1. run_steps. unfold emit. run_steps. cbn [foldl].
    rewrite lookup_insert_eq, Hexact; [done|unfold len in *; lia].
  - unfold Prom.processForwadingRules.
    rewrite getRawResource_run, (Hg "forwarding-rules"). run_steps.
    rewrite Hd2. run_steps. unfold emit. run_steps. cbn [foldl].
    rewrite lookup_insert_eq, Hexact; [done|unfold len in *; lia].
  - unfold Prom.processNetworks.
    rewrite getRawResource_run, (Hg "networks"). run_steps.
    rewrite Hd3. run_steps. unfold emit. run_steps. cbn [foldl].
    rewrite lookup_insert_eq, Hexact; [done|unfold len in *; lia].
  - unfold Prom.processRoutes.
    rewrite getRawResource_run, (Hg "routes"). run_steps.
    rewrite Hd4. run_steps. unfold emit. run_steps. cbn [foldl].
    rewrite lookup_insert_eq, Hexact; [done|unfold len in *; lia].
Qed.

Lemma unlabeled_gauge_holds_latest_count_witness :
  gaugeStore ([GaugeSet "gce_target_pools" [] 9]
                ++ trace (Prom.processTargetPools firewallHost "p"))
    !! ("gce_target_pools", []) = Some 2.
Proof.
  assert (∀ n : nat, (n < 10)%nat → Z.of_nat n < 2 ^ 53) as Hsmall
    by (intros n Hn; transitivity 10; [lia|reflexivity]).
  apply (unlabeled_gauge_holds_latest_count firewallHost "p"
           [GaugeSet "gce_target_pools" [] 9]
           [ {| tp_Name := "t1" |}; {| tp_Name := "t2" |} ] [] [] []
           (λ _, eq_refl) eq_refl eq_refl eq_refl eq_refl);
    apply Hsmall; cbn; lia.
Defined.

(* ===================================================================== *)
(** ** The shape of every pass of a push-style metric                      *)
(* ===================================================================== *)

Lemma buildPoints_pointOf rt project name mk values labels :
  Forall (pointOf rt project name mk) (buildPoints rt project name mk values labels).
Proof.
  apply Forall_lookup. intros i p. unfold buildPoints.
  rewrite list_lookup_imap. destruct (values !! i) as [v|]; [|done].
  intros [= <-]. unfold pointOf. cbn. eauto 10.
Qed.

Lemma buildPoints_values rt project name mk values labels :
  (λ p, pt_Value (tp_Point p)) <$> buildPoints rt project name mk values labels
  = mk <$> values.
Proof.
  apply list_eq. intros i. unfold buildPoints.
  rewrite !list_lookup_fmap, list_lookup_imap.
  by destruct (values !! i).
Qed.

Lemma buildPoints_labels rt project name mk values labels i p :
  buildPoints rt project name mk values labels !! i = Some p →
  tsd_Labels (tp_TimeseriesDesc p) =
    match labels !! i with
    | Some (Some ls) => Some (kmap customName ls)
    | _ => None
    end.
Proof.
  unfold buildPoints. rewrite list_lookup_imap.
  destruct (values !! i) as [v|]; [|done]. intros [= <-]. cbn.
  destruct (labels !! i) as [[ls|]|] eqn:Hi.
  - rewrite decide_True by by eapply lookup_lt_Some.
    apply fixLabels_kmap.
  - by case_decide.
  - rewrite decide_False; [done|]. apply lookup_ge_None in Hi. lia.
Qed.

Lemma returning_run tr (err : option error) :
  Custom.returning (MkRun tr (Some err)) = MkRun tr (Some err).
Proof. apply run_eq. by destruct err; cbn; rewrite app_nil_r. Qed.

Section custom_shape.
Import Custom.
Context (rt : Runtime) (m : Monitor).

Lemma reportCounts_shape api format n name key (metrics : gmap string Z) :
  passShape rt m api name
    (MkRun (ListCall api (Project m) :: Log format [AInt n]
              :: trace (reportCounts rt m name key metrics))
           (result (reportCounts rt m name key metrics))).
Proof.
  unfold reportCounts.
  destruct (valuesAndLabels rt int64_of_int key metrics) as [[|v values] labels].
  - right; left. by exists format, n.
  - right; right. exists format, n, v, values, labels. cbn zeta.
    by rewrite Custom_report_some, returning_run.
Qed.

Lemma reportTimeseries_shape api format n name v :
  passShape rt m api name
    (MkRun (ListCall api (Project m) :: Log format [AInt n]
              :: trace (returning (ReportTimeseries rt m name v)))
           (result (returning (ReportTimeseries rt m name v)))).
Proof.
  right; right. exists format, n, v, [], []. cbn zeta.
  unfold ReportTimeseries. by rewrite Custom_report_some, returning_run.
Qed.

Lemma failed_shape api name e :
  passShape rt m api name (MkRun [ListCall api (Project m)] (Some (Some e))).
Proof. left. by exists e. Qed.

Lemma Custom_metric_shape cm :
  cm ∈ customMetrics →
  ∃ api, passShape rt m api (Name (MetricDescription' cm)) (ProcessMetric cm rt m).
Proof.
  unfold customMetrics. rewrite !elem_of_cons, elem_of_nil. intros Hin.
  destruct_or!; try done; subst cm;
    cbn [ProcessMetric MetricDescription' Name FirewallRules TargetPools
         ForwardingRules GlobalForwardingRules Addresses GlobalAddresses
         Networks Routes];
    rewrite emit_bind;
    match goal with
    | |- context [ListCall ?api _] => exists api
    end.
  - destruct (Firewalls_List _ _); run_steps;
      [apply reportCounts_shape|apply failed_shape].
  - destruct (TargetPools_AggregatedList _ _); run_steps;
      [apply reportTimeseries_shape|apply failed_shape].
  - destruct (ForwardingRules_AggregatedList _ _); run_steps;
      [apply reportTimeseries_shape|apply failed_shape].
  - destruct (GlobalForwardingRules_List _ _); run_steps;
      [apply reportTimeseries_shape|apply failed_shape].
  - destruct (Addresses_AggregatedList _ _); run_steps;
      [apply reportCounts_shape|apply failed_shape].
  - destruct (GlobalAddresses_List _ _); run_steps;
      [apply reportCounts_shape|apply failed_shape].
  - destruct (Networks_List _ _); run_steps;
      [apply reportTimeseries_shape|apply failed_shape].
  - destruct (Routes_List _ _); run_steps;
      [apply reportTimeseries_shape|apply failed_shape].
Qed.

End custom_shape.

Lemma writes_nil : writes [] = [].
Proof. reflexivity. Qed.

Lemma writes_listCall api project tr : writes (ListCall api project :: tr) = writes tr.
Proof. reflexivity. Qed.

Lemma writes_log format args tr : writes (Log format args :: tr) = writes tr.
Proof. reflexivity. Qed.

Lemma writes_respLog err tr : writes (respLog err :: tr) = writes tr.
Proof. reflexivity. Qed.

Lemma writes_write project req tr :
  writes (WriteTimeseries project req :: tr) = req :: writes tr.
Proof. reflexivity. Qed.

Lemma writes_sleep d tr : writes (Sleep d :: tr) = writes tr.
Proof. reflexivity. Qed.

Hint Rewrite writes_nil writes_listCall writes_log writes_respLog writes_write
  writes_sleep : run.



(** X8. Every pass of every metric of the interface-based variant goes one
    of three ways. Its list call fails: then the pass is that call alone,
    nothing is written and the error is returned. Or the list call succeeds
    and there is nothing to report: the count is logged and nil returned.
    Or exactly one write goes out, with at least one point, all points
    under the name of the metric's own description, and the pass returns
    what the monitoring API answered to that write. *)
Theorem every_pass_has_one_of_three_shapes
    (rt : Runtime) (m : Custom.Monitor) (cm : Custom.CustomGaugeMetric) :
  cm ∈ Custom.customMetrics →
  ∃ api,
    passShape rt m api (Name (Custom.MetricDescription' cm))
              (Custom.ProcessMetric cm rt m).
Proof. apply Custom_metric_shape. Qed.

Lemma every_pass_has_one_of_three_shapes_witness :
  ∃ api,
    passShape sampleRuntime (Custom.monitorAt acceptedCustomWorld 1) api "gce_routes"
              (Custom.ProcessMetric Custom.Routes sampleRuntime
                 (Custom.monitorAt acceptedCustomWorld 1)).
Proof.
  apply (every_pass_has_one_of_three_shapes sampleRuntime
           (Custom.monitorAt acceptedCustomWorld 1) Custom.Routes).
  unfold Custom.customMetrics.
  repeat first [apply list_elem_of_here | apply list_elem_of_further].
Defined.


Section gce_shape.
Import Gce.
Context (rt : Runtime) (m : Monitor).

Lemma Gce_reportCounts_shape api format n name key (metrics : gmap string Z) :
  gcePassShape rt m api name
    (MkRun (ListCall api (Project m) :: Log format [AInt n]
              :: trace (reportCounts rt m name key metrics))
           (result (reportCounts rt m name key metrics))).
Proof.
  unfold reportCounts.
  destruct (valuesAndLabels rt float64_of_int key metrics) as [values labels].
  right. exists format, n, values, labels. cbn zeta.
  by rewrite Gce_report_run, Gce_logging_run.
Qed.

Lemma Gce_reportTimeseries_shape api format n name v :
  gcePassShape rt m api name
    (MkRun (ListCall api (Project m) :: Log format [AInt n]
              :: trace (logging (reportTimeseries rt m name v)))
           (result (logging (reportTimeseries rt m name v)))).
Proof.
  right. exists format, n, [v], []. cbn zeta.
  unfold reportTimeseries. by rewrite Gce_report_run, Gce_logging_run.
Qed.

Lemma Gce_failed_shape api format name e :
  gcePassShape rt m api name
    (MkRun [ListCall api (Project m); Log format [AErr (Some e)]] (Some tt)).
Proof. left. by exists format, e. Qed.

End gce_shape.

(** The shapes of the six kinds of resource_metrics.go. *)
Lemma Gce_pass_shapes (rt : Runtime) (m : Gce.Monitor) :
  gcePassShape rt m "Firewalls.List" "gce_firewall_rules"
    (Gce.ProcessFirewallRules rt m)
  ∧ gcePassShape rt m "GlobalAddresses.List" "gce_ip_addresses"
      (Gce.ProcessIPAddresses rt m)
  ∧ gcePassShape rt m "GlobalForwardingRules.List" "gce_forwarding_rules"
      (Gce.ProcessForwardingRules rt m)
  ∧ gcePassShape rt m "Networks.List" "gce_networks" (Gce.ProcessNetworks rt m)
  ∧ gcePassShape rt m "Routes.List" "gce_routes" (Gce.ProcessRoutes rt m)
  ∧ gcePassShape rt m "TargetPools.AggregatedList" "gce_target_pools"
      (Gce.ProcessTargetPools rt m).
Proof.
  repeat split.
  - unfold Gce.ProcessFirewallRules. rewrite emit_bind.
    destruct (Firewalls_List _ _); run_steps;
      [apply Gce_reportCounts_shape|apply Gce_failed_shape].
  - unfold Gce.ProcessIPAddresses. rewrite emit_bind.
    destruct (GlobalAddresses_List _ _); run_steps;
      [apply Gce_reportCounts_shape|apply Gce_failed_shape].
  - unfold Gce.ProcessForwardingRules. rewrite emit_bind.
    destruct (GlobalForwardingRules_List _ _); run_steps;
      [apply Gce_reportTimeseries_shape|apply Gce_failed_shape].
  - unfold Gce.ProcessNetworks. rewrite emit_bind.
    destruct (Networks_List _ _); run_steps;
      [apply Gce_reportTimeseries_shape|apply Gce_failed_shape].
  - unfold Gce.ProcessRoutes. rewrite emit_bind.
    destruct (Routes_List _ _); run_steps;
      [apply Gce_reportTimeseries_shape|apply Gce_failed_shape].
  - unfold Gce.ProcessTargetPools. rewrite emit_bind.
    destruct (TargetPools_AggregatedList _ _); run_steps;
      [apply Gce_reportTimeseries_shape|apply Gce_failed_shape].
Qed.

(** X10. Every pass of every kind of resource_metrics.go goes one of two
    ways: its list call fails, which is logged and nothing is written; or
    exactly one write goes out, of double values, one point per value
    (possibly none), under the name the kind was declared with, and a
    rejected write is logged after it. Either way the kind returns. *)
Theorem gce_pass_has_one_of_two_shapes (rt : Runtime) (m : Gce.Monitor) :
  gcePassShape rt m "Firewalls.List" "gce_firewall_rules"
    (Gce.ProcessFirewallRules rt m)
  ∧ gcePassShape rt m "GlobalAddresses.List" "gce_ip_addresses"
      (Gce.ProcessIPAddresses rt m)
  ∧ gcePassShape rt m "GlobalForwardingRules.List" "gce_forwarding_rules"
      (Gce.ProcessForwardingRules rt m)
  ∧ gcePassShape rt m "Networks.List" "gce_networks" (Gce.ProcessNetworks rt m)
  ∧ gcePassShape rt m "Routes.List" "gce_routes" (Gce.ProcessRoutes rt m)
  ∧ gcePassShape rt m "TargetPools.AggregatedList" "gce_target_pools"
      (Gce.ProcessTargetPools rt m).
Proof. apply Gce_pass_shapes. Qed.

(** Runs a kind of a push variant whose list call failed. *)
Ltac failed_list H :=
  first
    [ unfold Custom.scrapeOne;
      cbn [Custom.ProcessMetric Custom.FirewallRules Custom.TargetPools
           Custom.ForwardingRules Custom.GlobalForwardingRules Custom.Addresses
           Custom.GlobalAddresses Custom.Networks Custom.Routes
           Custom.Project Custom.Compute Custom.MetricDescription' Name];
      rewrite H; reflexivity
    | unfold Gce.ProcessFirewallRules, Gce.ProcessTargetPools,
        Gce.ProcessForwardingRules, Gce.ProcessIPAddresses, Gce.ProcessNetworks,
        Gce.ProcessRoutes;
      cbn [Gce.Project Gce.Compute]; rewrite H; reflexivity ].

(** X11. In both push variants a kind whose list call fails is skipped for
    the cycle: the pass consists of the list call and one error line (in the
    interface-based variant the line [main] prints, naming the metric), no
    write is made, and control returns to the cycle. *)
Theorem unreachable_kind_is_skipped
    (rt : Runtime) (cs : ComputeService) (ms : MonitoringService)
    (project : string) (e : error) :
  let cm := {| Custom.Project := project; Custom.Compute := cs;
               Custom.Monitoring := ms |} in
  let gm := {| Gce.Project := project; Gce.Compute := cs; Gce.Monitoring := ms |} in
  (Firewalls_List cs project = Err e →
     Custom.scrapeOne rt cm Custom.FirewallRules
     = failedMetric "Firewalls.List" "gce_firewall_rules" project e
     ∧ Gce.ProcessFirewallRules rt gm
       = failedListing "Firewalls.List" "ERROR: Listing firewall: %v\n" project e)
  ∧ (TargetPools_AggregatedList cs project = Err e →
       Custom.scrapeOne rt cm Custom.TargetPools
       = failedMetric "TargetPools.AggregatedList" "gce_target_pools" project e
       ∧ Gce.ProcessTargetPools rt gm
         = failedListing "TargetPools.AggregatedList"
             "ERROR: Listing target pools: %v\n" project e)
  ∧ (ForwardingRules_AggregatedList cs project = Err e →
       Custom.scrapeOne rt cm Custom.ForwardingRules
       = failedMetric "ForwardingRules.AggregatedList" "gce_forwarding_rules"
           project e)
  ∧ (GlobalForwardingRules_List cs project = Err e →
       Custom.scrapeOne rt cm Custom.GlobalForwardingRules
       = failedMetric "GlobalForwardingRules.List" "gce_global_forwarding_rules"
           project e
       ∧ Gce.ProcessForwardingRules rt gm
         = failedListing "GlobalForwardingRules.List"
             "ERROR: Listing forwarding rules: %v\n" project e)
  ∧ (Addresses_AggregatedList cs project = Err e →
       Custom.scrapeOne rt cm Custom.Addresses
       = failedMetric "Addresses.AggregatedList" "gce_addresses" project e)
  ∧ (GlobalAddresses_List cs project = Err e →
       Custom.scrapeOne rt cm Custom.GlobalAddresses
       = failedMetric "GlobalAddresses.List" "gce_global_addresses" project e
       ∧ Gce.ProcessIPAddresses rt gm
         = failedListing "GlobalAddresses.List" "ERROR: Listing addresses: %v\n"
             project e)
  ∧ (Networks_List cs project = Err e →
       Custom.scrapeOne rt cm Custom.Networks
       = failedMetric "Networks.List" "gce_networks" project e
       ∧ Gce.ProcessNetworks rt gm
         = failedListing "Networks.List" "ERROR: Listing Networks: %v\n" project e)
  ∧ (Routes_List cs project = Err e →
       Custom.scrapeOne rt cm Custom.Routes
       = failedMetric "Routes.List" "gce_routes" project e
       ∧ Gce.ProcessRoutes rt gm
         = failedListing "Routes.List" "ERROR: Listing routes: %v\n" project e).
Proof.
  intros cm gm.
  repeat split; intros; subst cm gm;
    match goal with
    | Hfail : _ = Err e |- _ => failed_list Hfail
    end.
Qed.

(* ===================================================================== *)
(** ** Startup, registration and the loop, end to end                      *)
(* ===================================================================== *)

(** X12. After the project check, the three client constructors are tried
    in order; the first that fails ends the process with status 1 and its
    own message, before any descriptor is registered. So in both push
    variants. *)
Theorem client_construction_failure_is_fatal :
  (∀ w n e,
     Custom.flag_project w ≠ "" → Custom.google_DefaultClient w = Some e →
     Custom.main w n =
       MkRun [Log "Error creating client: $v" [AErr (Some e)]; Exit 1] None)
  ∧ (∀ w n e,
       Custom.flag_project w ≠ "" → Custom.google_DefaultClient w = None →
       Custom.compute_New w = Some e →
       Custom.main w n =
         MkRun [Log "Error creating compute service: %v" [AErr (Some e)]; Exit 1]
               None)
  ∧ (∀ w n e,
       Custom.flag_project w ≠ "" → Custom.google_DefaultClient w = None →
       Custom.compute_New w = None → Custom.cloudmonitoring_New w = Some e →
       Custom.main w n =
         MkRun [Log "Error creating monitoring service: %v" [AErr (Some e)]; Exit 1]
               None)
  ∧ (∀ w n e,
       Gce.flag_project w ≠ "" → Gce.google_DefaultClient w = Some e →
       Gce.main w n =
         MkRun [Log "Error creating client: $v" [AErr (Some e)]; Exit 1] None)
  ∧ (∀ w n e,
       Gce.flag_project w ≠ "" → Gce.google_DefaultClient w = None →
       Gce.compute_New w = Some e →
       Gce.main w n =
         MkRun [Log "Error creating compute service: %v" [AErr (Some e)]; Exit 1]
               None)
  ∧ (∀ w n e,
       Gce.flag_project w ≠ "" → Gce.google_DefaultClient w = None →
       Gce.compute_New w = None → Gce.cloudmonitoring_New w = Some e →
       Gce.main w n =
         MkRun [Log "Error creating monitoring service: %v" [AErr (Some e)]; Exit 1]
               None).
Proof.
  repeat split; intros w n e Hp;
    [ intros H1 | intros H1 H2 | intros H1 H2 H3
    | intros H1 | intros H1 H2 | intros H1 H2 H3 ];
    unfold Custom.main, Custom.startup, Gce.main, Gce.startup;
    rewrite requireProject_run, decide_False by done;
    rewrite mret_bind, H1; try rewrite H2; try rewrite H3; reflexivity.
Qed.

Lemma creates_app tr1 tr2 : creates (tr1 ++ tr2) = creates tr1 ++ creates tr2.
Proof. apply omap_app. Qed.

Lemma creates_none_each {X} (f : X → list Event) (xs : list X) :
  (∀ x, x ∈ xs → creates (f x) = []) → creates (xs ≫= f) = [].
Proof.
  induction xs as [|x xs IH]; intros Hall; [done|].
  rewrite bind_cons, creates_app, Hall, IH; [done| |by left].
  intros y Hy. apply Hall. by right.
Qed.

Lemma Custom_scrapeOne_creates rt m cm :
  cm ∈ Custom.customMetrics → creates (trace (Custom.scrapeOne rt m cm)) = [].
Proof.
  intros Hcm. destruct (Custom_metric_shape rt m cm Hcm) as (api & Hshape).
  destruct Hshape as [[e Hr]|[(format & n & Hr)|(format & n & v & values & labels & Hr)]];
    cbn zeta in Hr;
    rewrite (scrapeOne_run rt m cm _ (f_equal result Hr)), Hr; cbn [trace];
    rewrite creates_app; try done.
  by destruct (Timeseries_Write _ _ _).
Qed.

Lemma Custom_scrapeLoop_creates w i n :
  creates (trace (Custom.scrapeLoop w i n)) = [].
Proof.
  revert i. induction n as [|n IH]; intros i; [done|].
  cbn [Custom.scrapeLoop]. rewrite scrapeCycle_run, mkrun_bind. cbn [trace].
  rewrite creates_app, IH, app_nil_r.
  change (creates (Log "INFO: Starting scrape loop." [] :: ?tr))
    with (creates tr).
  rewrite creates_app, creates_none_each; [done|].
  intros cm Hcm. by apply Custom_scrapeOne_creates.
Qed.

(** A loop whose every body returns with a known trace. *)
Lemma forEach_runs {X} (body : X → Run unit) (f : X → list Event) (xs : list X) :
  (∀ x, x ∈ xs → body x = MkRun (f x) (Some tt)) →
  forEach body xs = MkRun (xs ≫= f) (Some tt).
Proof.
  induction xs as [|x xs IH]; intros Hall; [done|].
  cbn [forEach]. rewrite (Hall x) by by left.
  rewrite IH by (intros y Hy; apply Hall; by right).
  reflexivity.
Qed.

Lemma registration_trace {X} (describe : X → MetricDescription)
    (valueType project : string) (xs : list X) :
  creates (xs ≫= λ x, [ CreateDescriptor project
                           (buildDescriptor project valueType (describe x));
                         Log "Created metric: %s\n" [AResp] ])
  = (λ x, buildDescriptor project valueType (describe x)) <$> xs
  ∧ before_scraping
      (xs ≫= λ x, [ CreateDescriptor project
                       (buildDescriptor project valueType (describe x));
                     Log "Created metric: %s\n" [AResp] ]).
Proof.
  induction xs as [|x xs [IHc IHb]]; [done|].
  rewrite bind_cons, creates_app, IHc. split; [done|].
  by apply before_scraping_app.
Qed.

Lemma Custom_startup_ok w :
  Custom.flag_project w ≠ "" →
  Custom.google_DefaultClient w = None →
  Custom.compute_New w = None →
  Custom.cloudmonitoring_New w = None →
  Custom.startup w = mret tt.
Proof.
  intros Hp H1 H2 H3. unfold Custom.startup.
  rewrite requireProject_run, decide_False by done.
  rewrite mret_bind, H1, H2, H3. reflexivity.
Qed.

(** X13. When the project is given, the clients are built and the
    monitoring API accepts every descriptor, [main] of the interface-based
    variant first registers the description of each of its eight metrics,
    once and in the order of [customMetrics], as an int64 gauge under the
    project; only then does it scrape, it registers nothing again, and it
    does not exit however long it runs. *)
Theorem accepted_registration_precedes_scraping (w : Custom.World) (n : nat) :
  Custom.flag_project w ≠ "" →
  Custom.google_DefaultClient w = None →
  Custom.compute_New w = None →
  Custom.cloudmonitoring_New w = None →
  (∀ md, MetricDescriptors_Create (Custom.monitoringAt w 0)
           (Custom.flag_project w) md = None) →
  ∃ registration,
    Custom.main w n =
      MkRun (registration ++ trace (Custom.scrapeLoop w 0 n)) (Some tt)
    ∧ creates registration =
        (λ cm, buildDescriptor (Custom.flag_project w) "int64"
                 (Custom.MetricDescription' cm)) <$> Custom.customMetrics
    ∧ before_scraping registration
    ∧ creates (trace (Custom.scrapeLoop w 0 n)) = []
    ∧ exits (trace (Custom.main w n)) = [].
Proof.
  intros Hp H1 H2 H3 Hok.
  assert (Custom.registerAll w =
            MkRun (Custom.customMetrics ≫= λ cm,
                     [ CreateDescriptor (Custom.flag_project w)
                         (buildDescriptor (Custom.flag_project w) "int64"
                            (Custom.MetricDescription' cm));
                       Log "Created metric: %s\n" [AResp] ])
                  (Some tt)) as Hreg.
  { unfold Custom.registerAll. apply forEach_runs. intros cm _.
    rewrite createMetricDescriptor_run. cbn zeta.
    cbn [Custom.monitorAt Custom.Project Custom.Monitoring].
    by rewrite Hok. }
  destruct (registration_trace Custom.MetricDescription' "int64"
              (Custom.flag_project w) Custom.customMetrics) as [Hc Hb].
  destruct (scrapeLoop_run w 0 n) as (Hr & He & _).
  assert (Custom.main w n =
            MkRun ((Custom.customMetrics ≫= λ cm,
                      [ CreateDescriptor (Custom.flag_project w)
                          (buildDescriptor (Custom.flag_project w) "int64"
                             (Custom.MetricDescription' cm));
                        Log "Created metric: %s\n" [AResp] ])
                     ++ trace (Custom.scrapeLoop w 0 n))
                  (Some tt)) as Hmain.
  { unfold Custom.main. rewrite (Custom_startup_ok w) by done.
    rewrite mret_bind, Hreg, mkrun_bind, Hr. reflexivity. }
  eexists. split; [|split; [exact Hc|split; [exact Hb|split]]].
  - exact Hmain.
  - apply Custom_scrapeLoop_creates.
  - rewrite Hmain. cbn [trace]. rewrite exits_app, He, app_nil_r.
    clear. induction Custom.customMetrics as [|cm cms IH]; [done|].
    by rewrite bind_cons, exits_app, IH.
Qed.

Lemma accepted_registration_precedes_scraping_witness :
  ∃ registration,
    Custom.main acceptedCustomWorld 2 =
      MkRun (registration ++ trace (Custom.scrapeLoop acceptedCustomWorld 0 2))
            (Some tt)
    ∧ length (creates registration) = 8%nat.
Proof.
  assert (Custom.flag_project acceptedCustomWorld ≠ "") as Hne by discriminate.
  destruct (accepted_registration_precedes_scraping acceptedCustomWorld 2
              Hne eq_refl eq_refl eq_refl (λ _, eq_refl))
    as (registration & Hmain & Hcreates & _).
  exists registration. split; [exact Hmain|].
  rewrite Hcreates. reflexivity.
Defined.

Lemma Gce_startup_ok w :
  Gce.flag_project w ≠ "" →
  Gce.google_DefaultClient w = None →
  Gce.compute_New w = None →
  Gce.cloudmonitoring_New w = None →
  Gce.startup w = mret tt.
Proof.
  intros Hp H1 H2 H3. unfold Gce.startup.
  rewrite requireProject_run, decide_False by done.
  rewrite mret_bind, H1, H2, H3. reflexivity.
Qed.

Lemma gcePassShape_quiet rt m api name r :
  gcePassShape rt m api name r →
  result r = Some tt ∧ creates (trace r) = [] ∧ exits (trace r) = []
  ∧ (length (writes (trace r)) ≤ 1)%nat.
Proof.
  intros [(format & e & ->)|(format & n & values & labels & Hr)].
  - repeat split. cbn. lia.
  - cbn zeta in Hr. rewrite Hr. cbn [trace result].
    rewrite creates_app, exits_app, writes_app.
    destruct (Timeseries_Write _ _ _); repeat split; cbn; lia.
Qed.

(** The trace of one cycle of resource_metrics.go. *)
Lemma Gce_scrapeCycle_trace w i :
  Gce.scrapeCycle w i =
    MkRun (Log "INFO: Starting scrape loop." []
             :: trace (Gce.ProcessFirewallRules (Gce.runtimeAt w (S i))
                         (Gce.monitorAt w (S i)))
             ++ trace (Gce.ProcessIPAddresses (Gce.runtimeAt w (S i))
                         (Gce.monitorAt w (S i)))
             ++ trace (Gce.ProcessForwardingRules (Gce.runtimeAt w (S i))
                         (Gce.monitorAt w (S i)))
             ++ trace (Gce.ProcessNetworks (Gce.runtimeAt w (S i))
                         (Gce.monitorAt w (S i)))
             ++ trace (Gce.ProcessRoutes (Gce.runtimeAt w (S i))
                         (Gce.monitorAt w (S i)))
             ++ trace (Gce.ProcessTargetPools (Gce.runtimeAt w (S i))
                         (Gce.monitorAt w (S i)))
             ++ [Sleep (Gce.flag_scrape_period w)])
          (Some tt).
Proof.
  destruct (Gce_pass_shapes (Gce.runtimeAt w (S i)) (Gce.monitorAt w (S i)))
    as (S1 & S2 & S3 & S4 & S5 & S6).
  apply gcePassShape_quiet in S1 as [R1 _], S2 as [R2 _], S3 as [R3 _],
    S4 as [R4 _], S5 as [R5 _], S6 as [R6 _].
  unfold Gce.scrapeCycle.
  rewrite logPrintf_bind, (seq_returns _ _ R1), (seq_returns _ _ R2),
    (seq_returns _ _ R3), (seq_returns _ _ R4), (seq_returns _ _ R5),
    (seq_returns _ _ R6).
  reflexivity.
Qed.

Lemma last_cons_snoc {X} (x y : X) l : last (x :: l ++ [y]) = Some y.
Proof. by rewrite app_comm_cons, last_snoc. Qed.

(** X14. The loop is its cycles, one after the other: the trace of [n]
    iterations from cycle [i] is the concatenation of the traces of the
    cycles [i], [i+1], ..., each of which opens with the same log line and
    ends with one sleep of the configured period, after all its work. So in
    all three variants. *)
Theorem loop_is_cycles_in_sequence :
  (∀ w i n,
     trace (Custom.scrapeLoop w i n) = seq i n ≫= λ j, trace (Custom.scrapeCycle w j))
  ∧ (∀ w j,
       head (trace (Custom.scrapeCycle w j))
       = Some (Log "INFO: Starting scrape loop." [])
       ∧ last (trace (Custom.scrapeCycle w j))
         = Some (Sleep (Custom.flag_scrape_period w)))
  ∧ (∀ w i n,
       trace (Gce.scrapeLoop w i n) = seq i n ≫= λ j, trace (Gce.scrapeCycle w j))
  ∧ (∀ w j,
       head (trace (Gce.scrapeCycle w j))
       = Some (Log "INFO: Starting scrape loop." [])
       ∧ last (trace (Gce.scrapeCycle w j))
         = Some (Sleep (Gce.flag_scrape_period w)))
  ∧ (∀ hostAt project period i n,
       trace (Prom.runScraper hostAt project period i n)
       = seq i n ≫= λ j, trace (Prom.scrapeCycle (hostAt j) project period))
  ∧ (∀ h project period,
       head (trace (Prom.scrapeCycle h project period))
       = Some (Log "INFO: Starting scrape loop." [])
       ∧ last (trace (Prom.scrapeCycle h project period)) = Some (Sleep period)).
Proof.
  split; [|split; [|split; [|split; [|split]]]].
  - intros w i n. revert i. induction n as [|n IH]; intros i; [done|].
    cbn [Custom.scrapeLoop seq]. rewrite bind_cons, <- IH.
    rewrite scrapeCycle_run, mkrun_bind. reflexivity.
  - intros w j. rewrite scrapeCycle_run. cbn [trace head].
    split; [done|apply last_cons_snoc].
  - intros w i n. revert i. induction n as [|n IH]; intros i; [done|].
    cbn [Gce.scrapeLoop seq]. rewrite bind_cons, <- IH.
    rewrite Gce_scrapeCycle_trace, mkrun_bind. reflexivity.
  - intros w j. rewrite Gce_scrapeCycle_trace. cbn [trace head].
    split; [done|]. rewrite !app_assoc. apply last_cons_snoc.
  - intros hostAt project period i n. revert i.
    induction n as [|n IH]; intros i; [done|].
    cbn [Prom.runScraper seq]. rewrite bind_cons, <- IH.
    destruct (Prom_scrapeCycle_run (hostAt i) project period) as (Hr & _).
    by rewrite (seq_returns _ _ Hr).
  - intros h project period.
    destruct (Prom_scrapeCycle_run h project period) as (_ & _ & _ & ->).
    cbn [head]. split; [done|]. rewrite !app_assoc. apply last_cons_snoc.
Qed.


(* ===================================================================== *)
(** ** The reporters as functions of their arguments                       *)
(* ===================================================================== *)

Lemma Custom_report_observations rt m name values labels :
  observations (trace (Custom.ReportLabeledTimeseries rt m name values labels))
  = buildPoints rt (Custom.Project m) name Int64Value values labels.
Proof.
  destruct values as [|v values]; [done|].
  rewrite Custom_report_some. cbn zeta. run_steps. reflexivity.
Qed.

Lemma Gce_report_observations rt m name values labels :
  observations (trace (Gce.reportLabeledTimeseries rt m name values labels))
  = buildPoints rt (Gce.Project m) name DoubleValue values labels.
Proof. rewrite Gce_report_run. cbn zeta. run_steps. reflexivity. Qed.

(** X15. Whatever slices they are handed, the labeled reporters of both
    push variants send the values in order, one point each, and give the
    point at an index the translated label map found at that index: a point
    beyond the end of the label slice, or one whose label map is nil, goes
    out unlabeled, and label maps beyond the last value are ignored. *)
Theorem reporter_pairs_values_with_labels
    (rt : Runtime) (cm : Custom.Monitor) (gm : Gce.Monitor) (name : string)
    (values : list Z) (labels : list gomap) :
  (λ p, pt_Value (tp_Point p))
    <$> observations
          (trace (Custom.ReportLabeledTimeseries rt cm name values labels))
  = Int64Value <$> values
  ∧ (λ p, pt_Value (tp_Point p))
      <$> observations
            (trace (Gce.reportLabeledTimeseries rt gm name values labels))
    = DoubleValue <$> values
  ∧ ∀ i p,
      observations
        (trace (Custom.ReportLabeledTimeseries rt cm name values labels)) !! i
      = Some p
      ∨ observations
          (trace (Gce.reportLabeledTimeseries rt gm name values labels)) !! i
        = Some p →
      tsd_Labels (tp_TimeseriesDesc p) =
        match labels !! i with
        | Some (Some ls) => Some (kmap customName ls)
        | _ => None
        end.
Proof.
  rewrite Custom_report_observations, Gce_report_observations.
  split; [apply buildPoints_values|]. split; [apply buildPoints_values|].
  intros i p [Hp|Hp]; by eapply buildPoints_labels.
Qed.

(* ===================================================================== *)
(** ** The label maps of one write                                         *)
(* ===================================================================== *)

Lemma bucketPoints_label_maps rt project name key mk (metrics : gmap string Z) :
  (λ p, tsd_Labels (tp_TimeseriesDesc p))
    <$> bucketPoints rt project name key mk metrics
  = (λ s : string, Some ({[ customName key := s ]} : gmap string string))
      <$> (rangeOrder rt metrics).*1.
Proof.
  unfold bucketPoints. rewrite <- !list_fmap_compose. by apply list_fmap_ext.
Qed.

Lemma singleton_label_inj (k s1 s2 : string) :
  Some ({[ k := s1 ]} : gmap string string) = Some {[ k := s2 ]} → s1 = s2.
Proof.
  intros Heq. apply (inj Some) in Heq.
  pose proof (f_equal (λ ls : gmap string string, ls !! k) Heq) as Hk.
  cbv beta in Hk. rewrite !lookup_singleton_eq in Hk. congruence.
Qed.

Lemma bucketPoints_label_maps_distinct rt project name key mk
    (metrics : gmap string Z) :
  NoDup ((λ p, tsd_Labels (tp_TimeseriesDesc p))
           <$> bucketPoints rt project name key mk metrics)
  ∧ Forall (λ p, ∃ s, is_Some (metrics !! s)
                      ∧ tsd_Labels (tp_TimeseriesDesc p)
                        = Some {[ customName key := s ]})
           (bucketPoints rt project name key mk metrics).
Proof.
  split.
  - rewrite bucketPoints_label_maps. apply NoDup_fmap_2.
    + intros s1 s2. apply singleton_label_inj.
    + rewrite (range_visits_all rt metrics). apply NoDup_fst_map_to_list.
  - unfold bucketPoints. apply Forall_fmap, Forall_forall. intros [s c] Hin.
    exists s. split; [|done]. exists c. by apply elem_of_rangeOrder in Hin.
Qed.

Lemma Custom_reportCounts_label_maps rt m name key (metrics : gmap string Z) :
  NoDup ((λ p, tsd_Labels (tp_TimeseriesDesc p))
           <$> observations (trace (Custom.reportCounts rt m name key metrics)))
  ∧ Forall (λ p, ∃ s, is_Some (metrics !! s)
                      ∧ tsd_Labels (tp_TimeseriesDesc p)
                        = Some {[ customName key := s ]})
           (observations (trace (Custom.reportCounts rt m name key metrics))).
Proof.
  rewrite Custom_reportCounts_run. case_decide.
  - split; constructor.
  - cbn zeta. run_steps. apply bucketPoints_label_maps_distinct.
Qed.

Lemma Gce_reportCounts_label_maps rt m name key (metrics : gmap string Z) :
  NoDup ((λ p, tsd_Labels (tp_TimeseriesDesc p))
           <$> observations (trace (Gce.reportCounts rt m name key metrics)))
  ∧ Forall (λ p, ∃ s, is_Some (metrics !! s)
                      ∧ tsd_Labels (tp_TimeseriesDesc p)
                        = Some {[ customName key := s ]})
           (observations (trace (Gce.reportCounts rt m name key metrics))).
Proof.
  rewrite Gce_reportCounts_run. cbn zeta. cbn [trace].
  rewrite observations_app.
  match goal with
  | |- context [Timeseries_Write ?s ?p ?r] => destruct (Timeseries_Write s p r)
  end; run_steps; apply bucketPoints_label_maps_distinct.
Qed.

(** X16. The points a labeled metric sends in one pass never collide: their
    label maps are pairwise distinct, and each holds exactly one entry, the
    namespaced key of the metric with a bucket as its value. So for the
    firewall, addresses and global-addresses metrics of the interface-based
    variant and the two labeled kinds of resource_metrics.go, whether the
    list call succeeds or not. *)
Theorem labeled_points_never_collide
    (rt : Runtime) (cm : Custom.Monitor) (gm : Gce.Monitor) :
  let distinct (key : string) (tr : list Event) :=
    NoDup ((λ p, tsd_Labels (tp_TimeseriesDesc p)) <$> observations tr)
    ∧ Forall (λ p, ∃ s, tsd_Labels (tp_TimeseriesDesc p)
                        = Some {[ customPrefix +:+ key := s ]})
             (observations tr) in
  distinct "network" (trace (Custom.ProcessMetric Custom.FirewallRules rt cm))
  ∧ distinct "status" (trace (Custom.ProcessMetric Custom.Addresses rt cm))
  ∧ distinct "status" (trace (Custom.ProcessMetric Custom.GlobalAddresses rt cm))
  ∧ distinct "network" (trace (Gce.ProcessFirewallRules rt gm))
  ∧ distinct "status" (trace (Gce.ProcessIPAddresses rt gm)).
Proof.
  intros distinct.
  assert (∀ key (metrics : gmap string Z) tr,
            NoDup ((λ p, tsd_Labels (tp_TimeseriesDesc p)) <$> observations tr)
            ∧ Forall (λ p, ∃ s, is_Some (metrics !! s)
                                ∧ tsd_Labels (tp_TimeseriesDesc p)
                                  = Some {[ customName key := s ]})
                     (observations tr) →
            distinct key tr) as Hweaken.
  { intros key metrics tr [Hnd Hall]. split; [exact Hnd|].
    eapply Forall_impl; [exact Hall|]. intros p (s & _ & Hp). by exists s. }
  assert (∀ key, distinct key []) as Hnil by (split; constructor).
  split; [|split; [|split; [|split]]].
  - cbn [Custom.ProcessMetric Custom.FirewallRules]. rewrite emit_bind.
    destruct (Firewalls_List _ _); run_steps; [|apply Hnil].
    eapply Hweaken, Custom_reportCounts_label_maps.
  - cbn [Custom.ProcessMetric Custom.Addresses]. rewrite emit_bind.
    destruct (Addresses_AggregatedList _ _); run_steps; [|apply Hnil].
    eapply Hweaken, Custom_reportCounts_label_maps.
  - cbn [Custom.ProcessMetric Custom.GlobalAddresses]. rewrite emit_bind.
    destruct (GlobalAddresses_List _ _); run_steps; [|apply Hnil].
    eapply Hweaken, Custom_reportCounts_label_maps.
  - unfold Gce.ProcessFirewallRules. rewrite emit_bind.
    destruct (Firewalls_List _ _); run_steps; [|apply Hnil].
    eapply Hweaken, Gce_reportCounts_label_maps.
  - unfold Gce.ProcessIPAddresses. rewrite emit_bind.
    destruct (GlobalAddresses_List _ _); run_steps; [|apply Hnil].
    eapply Hweaken, Gce_reportCounts_label_maps.
Qed.

(* ===================================================================== *)
(** ** resource_metrics.go, end to end                                     *)
(* ===================================================================== *)

Lemma gcePassShape_points rt m api name r :
  gcePassShape rt m api name r →
  Forall (pointOf rt (Gce.Project m) name DoubleValue) (observations (trace r)).
Proof.
  intros [(format & e & ->)|(format & n & values & labels & Hr)]; [constructor|].
  cbn zeta in Hr. rewrite Hr. cbn [trace]. rewrite observations_app.
  match goal with
  | |- context [Timeseries_Write ?s ?p ?q] => destruct (Timeseries_Write s p q)
  end; run_steps; apply buildPoints_pointOf.
Qed.

Lemma Gce_scrapeCycle_quiet w i :
  creates (trace (Gce.scrapeCycle w i)) = []
  ∧ (length (writes (trace (Gce.scrapeCycle w i))) ≤ 6)%nat
  ∧ Forall (λ p, (∃ v, pt_Value (tp_Point p) = DoubleValue v)
                 ∧ pt_Start (tp_Point p) = now (Gce.runtimeAt w (S i))
                 ∧ pt_End (tp_Point p) = now (Gce.runtimeAt w (S i))
                 ∧ tsd_Project (tp_TimeseriesDesc p) = Gce.flag_project w)
           (observations (trace (Gce.scrapeCycle w i))).
Proof.
  destruct (Gce_pass_shapes (Gce.runtimeAt w (S i)) (Gce.monitorAt w (S i)))
    as (S1 & S2 & S3 & S4 & S5 & S6).
  pose proof (gcePassShape_points _ _ _ _ _ S1) as P1.
  pose proof (gcePassShape_points _ _ _ _ _ S2) as P2.
  pose proof (gcePassShape_points _ _ _ _ _ S3) as P3.
  pose proof (gcePassShape_points _ _ _ _ _ S4) as P4.
  pose proof (gcePassShape_points _ _ _ _ _ S5) as P5.
  pose proof (gcePassShape_points _ _ _ _ _ S6) as P6.
  apply gcePassShape_quiet in S1 as (_ & C1 & _ & W1), S2 as (_ & C2 & _ & W2),
    S3 as (_ & C3 & _ & W3), S4 as (_ & C4 & _ & W4), S5 as (_ & C5 & _ & W5),
    S6 as (_ & C6 & _ & W6).
  rewrite Gce_scrapeCycle_trace. cbn [trace].
  change (creates (Log "INFO: Starting scrape loop." [] :: ?tr)) with (creates tr).
  run_steps.
  rewrite !creates_app, !writes_app, !observations_app, !length_app,
    C1, C2, C3, C4, C5, C6.
  split; [done|]. split; [run_steps; cbn [length]; lia|].
  run_steps.
  repeat (apply Forall_app; split); try constructor;
    (eapply Forall_impl; [eassumption|]);
    intros p (Hv & Hs & He & _ & Hp); done.
Qed.

Lemma Gce_scrapeLoop_creates w i n : creates (trace (Gce.scrapeLoop w i n)) = [].
Proof.
  revert i. induction n as [|n IH]; intros i; [done|].
  cbn [Gce.scrapeLoop].
  destruct (Gce_scrapeCycle_quiet w i) as (Hc & _).
  destruct (Gce_scrapeCycle_run w i) as (Hr & _).
  rewrite (seq_returns _ _ Hr). cbn [trace].
  by rewrite creates_app, Hc, IH.
Qed.

(** X17. When the project is given, the clients are built and the
    monitoring API accepts every descriptor, [main] of resource_metrics.go
    first registers its six metric descriptions, once each and in the order
    of [metricDescriptions], as gauges of type double under the project;
    only then does it scrape, it registers nothing again, and it does not
    exit however long it runs. *)
Theorem gce_accepted_registration_precedes_scraping (w : Gce.World) (n : nat) :
  Gce.flag_project w ≠ "" →
  Gce.google_DefaultClient w = None →
  Gce.compute_New w = None →
  Gce.cloudmonitoring_New w = None →
  (∀ md, MetricDescriptors_Create (Gce.monitoringAt w 0)
           (Gce.flag_project w) md = None) →
  ∃ registration,
    Gce.main w n = MkRun (registration ++ trace (Gce.scrapeLoop w 0 n)) (Some tt)
    ∧ creates registration =
        buildDescriptor (Gce.flag_project w) "double" <$> Gce.metricDescriptions
    ∧ before_scraping registration
    ∧ creates (trace (Gce.scrapeLoop w 0 n)) = []
    ∧ exits (trace (Gce.main w n)) = [].
Proof.
  intros Hp H1 H2 H3 Hok.
  assert (Gce.CreateMetricDescriptors (Gce.monitorAt w 0) Gce.metricDescriptions =
            MkRun (Gce.metricDescriptions ≫= λ metric,
                     [ CreateDescriptor (Gce.flag_project w)
                         (buildDescriptor (Gce.flag_project w) "double" metric);
                       Log "Created metric: %s\n" [AResp] ])
                  (Some tt)) as Hreg.
  { unfold Gce.CreateMetricDescriptors. apply forEach_runs. intros metric _.
    cbn zeta. rewrite emit_bind.
    cbn [Gce.monitorAt Gce.Project Gce.Monitoring].
    by rewrite Hok. }
  destruct (registration_trace id "double" (Gce.flag_project w)
              Gce.metricDescriptions) as [Hc Hb].
  destruct (Gce_scrapeLoop_run w 0 n) as (Hr & He & _).
  assert (Gce.main w n =
            MkRun ((Gce.metricDescriptions ≫= λ metric,
                      [ CreateDescriptor (Gce.flag_project w)
                          (buildDescriptor (Gce.flag_project w) "double" metric);
                        Log "Created metric: %s\n" [AResp] ])
                     ++ trace (Gce.scrapeLoop w 0 n))
                  (Some tt)) as Hmain.
  { unfold Gce.main. rewrite (Gce_startup_ok w) by done.
    rewrite mret_bind, Hreg, mkrun_bind, Hr. reflexivity. }
  eexists. split; [exact Hmain|split; [exact Hc|split; [exact Hb|split]]].
  - apply Gce_scrapeLoop_creates.
  - rewrite Hmain. cbn [trace]. rewrite exits_app, He, app_nil_r.
    clear. induction Gce.metricDescriptions as [|metric descs IH]; [done|].
    by rewrite bind_cons, exits_app, IH.
Qed.

Lemma gce_accepted_registration_precedes_scraping_witness :
  ∃ registration,
    Gce.main acceptedGceWorld 2 =
      MkRun (registration ++ trace (Gce.scrapeLoop acceptedGceWorld 0 2)) (Some tt)
    ∧ length (creates registration) = 6%nat.
Proof.
  assert (Gce.flag_project acceptedGceWorld ≠ "") as Hne by discriminate.
  destruct (gce_accepted_registration_precedes_scraping acceptedGceWorld 2
              Hne eq_refl eq_refl eq_refl (λ _, eq_refl))
    as (registration & Hmain & Hcreates & _).
  exists registration. split; [exact Hmain|].
  rewrite Hcreates. reflexivity.
Defined.

